(** * pump-bot: trade-safety evaluation and position lifecycle

    A shallow embedding of [src/trading/trading-protection.ts], of the
    [retry] helper and of the bot's main module ([buy], [sell], the
    account-change listeners), with the properties the specification states
    about them.

    Conventions.
    - A JavaScript [number] is an IEEE 754 binary64 value: Rocq's primitive
      [float].  Comparisons are the primitive ones, so a comparison with NaN
      is [false], as in JavaScript.
    - Counters and timestamps that only ever hold integers ([retries],
      [MAX_SELL_RETRIES], [poolOpenTime], [runTimestamp]) are [Z]; this is
      exact below 2^53.
    - [throw] / [try] / [catch] is the error monad [result]; an [await] on a
      rejected promise is a [Throw].
    - Collaborators (logger, RPC connection, DEX SDK) are records of
      functions that may return [Throw]. *)

From Stdlib Require Import ZArith Floats Bool Ascii.
From stdpp Require Import gmap strings list pretty.

Set Warnings "-inexact-float".
Local Open Scope Z_scope.

(** ** JavaScript values and control *)

Module Js.

(** A thrown value; only its message is kept. *)
Inductive exn : Type := Error (message : string).

Inductive result (A : Type) : Type :=
| Ok (a : A)
| Throw (e : exn).
Arguments Ok {A} a.
Arguments Throw {A} e.

Definition bind {A B} (c : result A) (k : A -> result B) : result B :=
  match c with
  | Ok a => k a
  | Throw e => Throw e
  end.

(** [try { body } catch (error) { handler }] *)
Definition try_catch {A} (body : result A) (handler : exn -> result A) : result A :=
  match body with
  | Ok a => Ok a
  | Throw e => handler e
  end.

Definition number : Type := float.

(** [a > b] and [a < b] on numbers. *)
Definition gt (a b : number) : bool := (b <? a)%float.
Definition lt (a b : number) : bool := (a <? b)%float.

(** [Number(s)] for the decimal string of the integer [z]: the binary64
    value nearest to [z], ties to even. *)
Definition Number_of_Z (z : Z) : number :=
  SF2Prim (binary_normalize prec emax z 0 false).

(** [Math.pow(10, n)] for a small natural exponent: 10^n is a binary64
    value up to n = 22. *)
Definition Math_pow_10 (n : Z) : number := Number_of_Z (10 ^ n).

(** [String.prototype.includes], as a proposition. *)
Definition includes (hay needle : string) : Prop :=
  exists pre post : string, hay = pre +:+ needle +:+ post.

End Js.
Export Js.

Notation "'let*' x ':=' c 'in' k" := (bind c (fun x => k))
  (at level 10, x name, c at level 100, k at level 200).
Notation "c1 ';;;' c2" := (bind c1 (fun _ => c2))
  (at level 100, c2 at level 200, right associativity).

(** ** Collaborators shared by every module *)

(** The pino logger.  A log call returns [undefined] or raises. *)
Record Logger : Type := {
  info : string -> result unit;
  warn : string -> result unit;
  error : string -> result unit
}.

(** [PublicKey], known by its base58 text. *)
Record PublicKey : Type := { toBase58 : string }.
Definition toString (k : PublicKey) : string := toBase58 k.

(** [TokenAmount]: [raw] is the amount in the token's smallest unit, an
    integer. *)
Record TokenAmount : Type := { raw : Z }.

(** [Connection] is opaque to the safety check. *)
Inductive Connection : Type := solanaConnection.

Record Runtime : Type := {
  logger : Logger;
  (** the text a template literal gives a number, [`${x}`] *)
  numberToString : number -> string
}.

(** A logger that never raises. *)
Definition quiet (l : Logger) : Prop :=
  (forall m, info l m = Ok tt) /\ (forall m, warn l m = Ok tt) /\
  (forall m, error l m = Ok tt).

(** ** src/trading/trading-protection.ts *)

Module TradingProtection.

(** The fields of the singleton the methods read and write. *)
Record TradingProtection : Type := {
  maxSlippage : number;
  maxTradeSize : number;
  minLiquidity : number;
  mockLiquidity : number;
  mockPriceImpact : number
}.

(** The field initialisers of the class. *)
Definition instance : TradingProtection := {|
  maxSlippage := 1%float;
  maxTradeSize := 1000%float;
  minLiquidity := 100%float;
  mockLiquidity := 1000%float;
  mockPriceImpact := 0.5%float
|}.

Record TradeSafetyResult : Type := {
  safe : bool;
  reason : option string
}.

Section Methods.
Variable rt : Runtime.

Local Abbreviation log := (logger rt).
Local Abbreviation show := (numberToString rt).

(** The body of the [try] block of [getAmountInSol]. *)
Definition getAmountInSol_try (amount : TokenAmount) : result number :=
  info log ("Raw amount: " +:+ pretty (raw amount)) ;;;
  let decimals := 9 in
  let rawAmount := Number_of_Z (raw amount) in
  let amountInSol := (rawAmount / Math_pow_10 decimals)%float in
  info log ("Converted amount in SOL: " +:+ show amountInSol) ;;;
  Ok amountInSol.

Definition getAmountInSol (amount : TokenAmount) : result number :=
  try_catch (getAmountInSol_try amount)
    (fun e => error log "Error converting amount to SOL:" ;;; Throw e).

Definition getTokenLiquidity_try (this : TradingProtection)
    (connection : Connection) (tokenMint : PublicKey) : result number :=
  info log ("Getting token liquidity for " +:+ toString tokenMint +:+
            ", returning mock value: " +:+ show (mockLiquidity this) +:+ " SOL") ;;;
  Ok (mockLiquidity this).

Definition getTokenLiquidity (this : TradingProtection)
    (connection : Connection) (tokenMint : PublicKey) : result number :=
  try_catch (getTokenLiquidity_try this connection tokenMint)
    (fun e => error log "Error getting token liquidity:" ;;; Ok 0%float).

Definition calculatePriceImpact_try (this : TradingProtection)
    (connection : Connection) (tokenMint : PublicKey) (amount : TokenAmount)
    : result number :=
  info log ("Calculating price impact for " +:+ toString tokenMint +:+
            ", returning mock value: " +:+ show (mockPriceImpact this) +:+ "%") ;;;
  Ok (mockPriceImpact this).

Definition calculatePriceImpact (this : TradingProtection)
    (connection : Connection) (tokenMint : PublicKey) (amount : TokenAmount)
    : result number :=
  try_catch (calculatePriceImpact_try this connection tokenMint amount)
    (fun e => error log "Error calculating price impact:" ;;; Ok 100%float).

(** The three rejection messages. *)
Definition tradeSizeReason (amountInSol max : number) : string :=
  "Trade size " +:+ show amountInSol +:+ " SOL exceeds maximum allowed " +:+
  show max +:+ " SOL".

Definition liquidityReason (liquidity min : number) : string :=
  "Insufficient liquidity: " +:+ show liquidity +:+ " SOL < " +:+ show min +:+ " SOL".

Definition priceImpactReason (priceImpact max : number) : string :=
  "Price impact " +:+ show priceImpact +:+ "% exceeds maximum allowed " +:+
  show max +:+ "%".

Definition failedReason : string := "Failed to check trade safety".

Definition reject (why : string) : TradeSafetyResult :=
  {| safe := false; reason := Some why |}.
Definition accept : TradeSafetyResult := {| safe := true; reason := None |}.

(** The body of the [try] block of [checkTradeSafety]. *)
Definition checkTradeSafety_try (this : TradingProtection)
    (connection : Connection) (tokenMint : PublicKey) (amount : TokenAmount)
    (expectedPrice : number) : result TradeSafetyResult :=
  let* amountInSol := getAmountInSol amount in
  info log ("Checking trade safety for token " +:+ toString tokenMint +:+
            ", amount: " +:+ show amountInSol +:+ " SOL") ;;;
  (* Check trade size *)
  if gt amountInSol (maxTradeSize this) then
    info log (tradeSizeReason amountInSol (maxTradeSize this)) ;;;
    Ok (reject (tradeSizeReason amountInSol (maxTradeSize this)))
  else
    (* Check liquidity *)
    let* liquidity := getTokenLiquidity this connection tokenMint in
    info log ("Token liquidity: " +:+ show liquidity +:+ " SOL, minimum required: " +:+
              show (minLiquidity this) +:+ " SOL") ;;;
    if lt liquidity (minLiquidity this) then
      info log (liquidityReason liquidity (minLiquidity this)) ;;;
      Ok (reject (liquidityReason liquidity (minLiquidity this)))
    else
      (* Check price impact *)
      let* priceImpact := calculatePriceImpact this connection tokenMint amount in
      info log ("Price impact: " +:+ show priceImpact +:+ "%, maximum allowed: " +:+
                show (maxSlippage this) +:+ "%") ;;;
      if gt priceImpact (maxSlippage this) then
        info log (priceImpactReason priceImpact (maxSlippage this)) ;;;
        Ok (reject (priceImpactReason priceImpact (maxSlippage this)))
      else
        info log "Trade is safe" ;;;
        Ok accept.

Definition checkTradeSafety (this : TradingProtection)
    (connection : Connection) (tokenMint : PublicKey) (amount : TokenAmount)
    (expectedPrice : number) : result TradeSafetyResult :=
  try_catch (checkTradeSafety_try this connection tokenMint amount expectedPrice)
    (fun e => error log "Error checking trade safety:" ;;; Ok (reject failedReason)).

(** The setters assign first and log afterwards: the field is written
    even when the log call raises. *)
Definition setMaxSlippage (slippage : number) (this : TradingProtection)
    : TradingProtection * result unit :=
  let this' := {| maxSlippage := slippage;
                  maxTradeSize := maxTradeSize this;
                  minLiquidity := minLiquidity this;
                  mockLiquidity := mockLiquidity this;
                  mockPriceImpact := mockPriceImpact this |} in
  (this', info log ("Max slippage set to " +:+ show slippage +:+ "%")).

Definition setMaxTradeSize (size : number) (this : TradingProtection)
    : TradingProtection * result unit :=
  let this' := {| maxSlippage := maxSlippage this;
                  maxTradeSize := size;
                  minLiquidity := minLiquidity this;
                  mockLiquidity := mockLiquidity this;
                  mockPriceImpact := mockPriceImpact this |} in
  (this', info log ("Max trade size set to " +:+ show size +:+ " SOL")).

Definition setMinLiquidity (liquidity : number) (this : TradingProtection)
    : TradingProtection * result unit :=
  let this' := {| maxSlippage := maxSlippage this;
                  maxTradeSize := maxTradeSize this;
                  minLiquidity := liquidity;
                  mockLiquidity := mockLiquidity this;
                  mockPriceImpact := mockPriceImpact this |} in
  (this', info log ("Min liquidity set to " +:+ show liquidity +:+ " SOL")).

Definition setMockLiquidity (liquidity : number) (this : TradingProtection)
    : TradingProtection * result unit :=
  let this' := {| maxSlippage := maxSlippage this;
                  maxTradeSize := maxTradeSize this;
                  minLiquidity := minLiquidity this;
                  mockLiquidity := liquidity;
                  mockPriceImpact := mockPriceImpact this |} in
  (this', info log ("Mock liquidity set to " +:+ show liquidity +:+ " SOL")).

Definition setMockPriceImpact (priceImpact : number) (this : TradingProtection)
    : TradingProtection * result unit :=
  let this' := {| maxSlippage := maxSlippage this;
                  maxTradeSize := maxTradeSize this;
                  minLiquidity := minLiquidity this;
                  mockLiquidity := mockLiquidity this;
                  mockPriceImpact := priceImpact |} in
  (this', info log ("Mock price impact set to " +:+ show priceImpact +:+ "%")).

End Methods.

(** The amount the size check compares: [Number(raw) / 10^9]. *)
Definition amountInSolOf (amount : TokenAmount) : number :=
  (Number_of_Z (raw amount) / Math_pow_10 9)%float.

(** All three thresholds strictly positive. *)
Definition positiveThresholds (this : TradingProtection) : bool :=
  gt (maxTradeSize this) 0%float && gt (minLiquidity this) 0%float &&
  gt (maxSlippage this) 0%float.

End TradingProtection.


(** ** The process-wide state and the effects of the bot's main module *)

Module World.

Definition Buffer : Type := list Byte.byte.

(** [MinimalMarketLayoutV3] of market.ts.  [saveTokenAccount] stores a copy
    without [baseMint]. *)
Record MinimalMarketLayoutV3 : Type := {
  bids : PublicKey;
  asks : PublicKey;
  eventQueue : PublicKey;
  marketBaseMint : option PublicKey
}.

(** The fields of [LiquidityStateV4] the bot reads. *)
Record LiquidityStateV4 : Type := {
  baseMint : PublicKey;
  quoteMint : PublicKey;
  lpMint : PublicKey;
  marketId : PublicKey;
  marketProgramId : PublicKey;
  poolOpenTime : Z
}.

(** [LiquidityPoolKeys], without the vault, order, queue and authority
    addresses. *)
Record LiquidityPoolKeys : Type := {
  id : PublicKey;
  keysBaseMint : PublicKey;
  keysQuoteMint : PublicKey;
  keysLpMint : PublicKey;
  lpDecimals : Z;
  version : Z;
  marketVersion : Z;
  keysMarketId : PublicKey;
  marketBids : PublicKey;
  marketAsks : PublicKey;
  marketEventQueue : PublicKey
}.

Record MinimalTokenAccountData : Type := {
  mint : PublicKey;
  address : PublicKey;
  buyValue : option number;
  poolKeys : option LiquidityPoolKeys;
  market : option MinimalMarketLayoutV3
}.

(** The object [ta] after [ta.poolKeys = keys]. *)
Definition withPoolKeys (keys : LiquidityPoolKeys) (ta : MinimalTokenAccountData)
    : MinimalTokenAccountData :=
  {| mint := mint ta; address := address ta; buyValue := buyValue ta;
     poolKeys := Some keys; market := market ta |}.

(** [type BigNumberish = string | number | bigint] *)
Inductive BigNumberish : Type :=
| BNstring (s : string)
| BNnumber (n : number)
| BNbigint (z : Z).

(** [amount === 0]: strict equality holds only for a number equal to zero. *)
Definition strictEqualsZero (amount : BigNumberish) : bool :=
  match amount with
  | BNnumber n => (n =? 0)%float
  | BNstring _ | BNbigint _ => false
  end.

(** [KeyedAccountInfo], reduced to what the listeners read. *)
Record KeyedAccountInfo : Type := {
  accountId : PublicKey;
  data : Buffer
}.

(** An entry of [getTokenAccounts]: [pubkey] and [accountInfo.mint]. *)
Record TokenAccount : Type := {
  pubkey : PublicKey;
  accountMint : PublicKey
}.

Record Blockhash : Type := {
  blockhash : string;
  lastValidBlockHeight : Z
}.

(** What the process asks of its collaborators, in order. *)
Inductive Event : Type :=
| GetTokenAccountsByOwner
| GetAccountInfo (account : PublicKey)
| MakeSwapFixedInInstruction (amountIn : BigNumberish)
| GetLatestBlockhash
| SignTransaction
| SendRawTransaction (skipPreflight : bool)
| ConfirmTransaction (signature : string)
| SetTimeout (ms : Z)
| ProcessRaydiumPool (key : string)
| ProcessOpenBookMarket (key : string).

(** The module-level [let] bindings of the main module. *)
Record World : Type := {
  existingLiquidityPools : gset string;
  existingOpenBookMarkets : gset string;
  existingTokenAccounts : gmap string MinimalTokenAccountData;
  quoteTokenAssociatedAddress : option PublicKey;
  snipeList : list string;
  history : list Event
}.

Definition initialWorld : World := {|
  existingLiquidityPools := ∅;
  existingOpenBookMarkets := ∅;
  existingTokenAccounts := ∅;
  quoteTokenAssociatedAddress := None;
  snipeList := [];
  history := []
|}.

Definition withLiquidityPools (s : gset string) (w : World) : World := {|
  existingLiquidityPools := s;
  existingOpenBookMarkets := existingOpenBookMarkets w;
  existingTokenAccounts := existingTokenAccounts w;
  quoteTokenAssociatedAddress := quoteTokenAssociatedAddress w;
  snipeList := snipeList w;
  history := history w
|}.

Definition withOpenBookMarkets (s : gset string) (w : World) : World := {|
  existingLiquidityPools := existingLiquidityPools w;
  existingOpenBookMarkets := s;
  existingTokenAccounts := existingTokenAccounts w;
  quoteTokenAssociatedAddress := quoteTokenAssociatedAddress w;
  snipeList := snipeList w;
  history := history w
|}.

Definition withTokenAccounts (m : gmap string MinimalTokenAccountData) (w : World)
    : World := {|
  existingLiquidityPools := existingLiquidityPools w;
  existingOpenBookMarkets := existingOpenBookMarkets w;
  existingTokenAccounts := m;
  quoteTokenAssociatedAddress := quoteTokenAssociatedAddress w;
  snipeList := snipeList w;
  history := history w
|}.

Definition withQuoteTokenAssociatedAddress (a : option PublicKey) (w : World)
    : World := {|
  existingLiquidityPools := existingLiquidityPools w;
  existingOpenBookMarkets := existingOpenBookMarkets w;
  existingTokenAccounts := existingTokenAccounts w;
  quoteTokenAssociatedAddress := a;
  snipeList := snipeList w;
  history := history w
|}.

Definition withSnipeList (l : list string) (w : World) : World := {|
  existingLiquidityPools := existingLiquidityPools w;
  existingOpenBookMarkets := existingOpenBookMarkets w;
  existingTokenAccounts := existingTokenAccounts w;
  quoteTokenAssociatedAddress := quoteTokenAssociatedAddress w;
  snipeList := l;
  history := history w
|}.

Definition withHistory (h : list Event) (w : World) : World := {|
  existingLiquidityPools := existingLiquidityPools w;
  existingOpenBookMarkets := existingOpenBookMarkets w;
  existingTokenAccounts := existingTokenAccounts w;
  quoteTokenAssociatedAddress := quoteTokenAssociatedAddress w;
  snipeList := snipeList w;
  history := h
|}.

(** A computation reads and writes the world and returns or raises; what
    it wrote before raising stays written. *)
Definition M (A : Type) : Type := World -> result A * World.

Definition retM {A} (a : A) : M A := fun w => (Ok a, w).
Definition throwM {A} (e : exn) : M A := fun w => (Throw e, w).
Definition liftM {A} (r : result A) : M A := fun w => (r, w).

Definition bindM {A B} (c : M A) (k : A -> M B) : M B :=
  fun w =>
    match c w with
    | (Ok a, w') => k a w'
    | (Throw e, w') => (Throw e, w')
    end.

Definition tryM {A} (body : M A) (handler : exn -> M A) : M A :=
  fun w =>
    match body w with
    | (Ok a, w') => (Ok a, w')
    | (Throw e, w') => handler e w'
    end.

Definition gets {A} (f : World -> A) : M A := fun w => (Ok (f w), w).
Definition modify (f : World -> World) : M unit := fun w => (Ok tt, f w).

(** A request to a collaborator: it is recorded, and the collaborator
    answers knowing everything that was asked before. *)
Definition call {A} (ev : Event) (answer : list Event -> result A) : M A :=
  fun w => (answer (history w), withHistory (history w ++ [ev]) w).

(** An effect with no answer (a timer, a dispatched pipeline). *)
Definition emit (ev : Event) : M unit :=
  fun w => (Ok tt, withHistory (history w ++ [ev]) w).

(** The RPC connection, the DEX SDK and the account layouts. *)
Record Chain : Type := {
  decodeLiquidityState : Buffer -> result LiquidityStateV4;
  decodeMarketState : Buffer -> result MinimalMarketLayoutV3;
  decodeMintAuthorityOption : Buffer -> result Z;
  getAssociatedTokenAddressSync : PublicKey -> PublicKey -> PublicKey;
  getTokenAccountsByOwner : list Event -> result (list TokenAccount);
  getAccountInfo : list Event -> PublicKey -> result (option Buffer);
  makeSwapFixedInInstruction : list Event -> result unit;
  getLatestBlockhash : list Event -> result Blockhash;
  signTransaction : list Event -> result unit;
  sendRawTransaction : list Event -> result string;
  (** [confirmation.value.err] *)
  confirmTransaction : list Event -> string -> result (option string)
}.

(** The constants the main module reads from [Config] at load time, and
    what [init] derives from them. *)
Record Settings : Type := {
  TAKE_PROFIT : number;
  STOP_LOSS : number;
  MAX_SELL_RETRIES : Z;
  CHECK_IF_MINT_IS_RENOUNCED : bool;
  USE_SNIPE_LIST : bool;
  AUTO_SELL : bool;
  QUOTE_MINT : string;
  MIN_POOL_SIZE : string;
  quoteAmount : TokenAmount;
  quoteTokenMint : PublicKey;
  quoteTokenSymbol : string;
  walletPublicKey : PublicKey
}.

End World.
Export World.

Notation "'letM' x ':=' c 'in' k" := (bindM c (fun x => k))
  (at level 10, x name, c at level 100, k at level 200).
Notation "c1 ';;>' c2" := (bindM c1 (fun _ => c2))
  (at level 100, c2 at level 200, right associativity).

(** ** utils: [sleep] and [retry] *)

Module Utils.

Definition sleep (ms : Z) : M unit := emit (SetTimeout ms).

(** [retry(fn, { retries, retryIntervalMs })], by recursion on the number
    of retries left; [retry_unfold] below is the source's own equation. *)
Fixpoint retry_left {A} (fn : M A) (left : nat) (retryIntervalMs : Z) : M A :=
  tryM fn
    (fun e =>
       match left with
       | O => throwM e
       | S left' => sleep retryIntervalMs ;;> retry_left fn left' retryIntervalMs
       end).

Definition retry {A} (fn : M A) (retries retryIntervalMs : Z) : M A :=
  retry_left fn (Z.to_nat retries) retryIntervalMs.

End Utils.

(** ** market.ts: [getMinimalMarketV3] *)

Module Market.

Section Market.
Variable chain : Chain.

Definition getMinimalMarketV3 (marketId : PublicKey) : M MinimalMarketLayoutV3 :=
  letM marketInfo := call (GetAccountInfo marketId)
                          (fun h => getAccountInfo chain h marketId) in
  match marketInfo with
  | None =>
      throwM (Error ("Market account " +:+ toString marketId +:+ " not found"))
  | Some marketData =>
      letM decoded := liftM (decodeMarketState chain marketData) in
      retM {| bids := bids decoded;
              asks := asks decoded;
              eventQueue := eventQueue decoded;
              marketBaseMint := marketBaseMint decoded |}
  end.

End Market.
End Market.

(** ** liquidity.ts: [createPoolKeys], [getTokenAccounts] *)

Module Liquidity.

Definition createPoolKeys (poolId : PublicKey) (accountData : LiquidityStateV4)
    (minimalMarketLayoutV3 : MinimalMarketLayoutV3) : LiquidityPoolKeys := {|
  id := poolId;
  keysBaseMint := baseMint accountData;
  keysQuoteMint := quoteMint accountData;
  keysLpMint := lpMint accountData;
  lpDecimals := 5;
  version := 4;
  marketVersion := 3;
  keysMarketId := marketId accountData;
  marketBids := bids minimalMarketLayoutV3;
  marketAsks := asks minimalMarketLayoutV3;
  marketEventQueue := eventQueue minimalMarketLayoutV3
|}.

Definition getTokenAccounts (chain : Chain) : M (list TokenAccount) :=
  call GetTokenAccountsByOwner (getTokenAccountsByOwner chain).

End Liquidity.

(** ** The main module: discovery, buy, sell *)

Module Bot.

(** What one pass through the body of [sell]'s do-while loop ends with. *)
Inductive Control : Type :=
| Return (completed : bool)
| Continue.

(** The double-quote character (code 34) as a text. *)
Definition doubleQuote : string := String "034"%char EmptyString.

Section Bot.
Variable rt : Runtime.
Variable chain : Chain.
Variable cfg : Settings.
Variable tradingProtection : TradingProtection.TradingProtection.

Local Abbreviation log := (logger rt).

(** [existingTokenAccounts.set(key, value)] *)
Definition setTokenAccount (key : string) (value : MinimalTokenAccountData) : M unit :=
  modify (fun w => withTokenAccounts (<[key := value]> (existingTokenAccounts w)) w).

(** The loop of [init] over the wallet's token accounts. *)
Fixpoint init_register (tokenAccounts : list TokenAccount) : M unit :=
  match tokenAccounts with
  | [] => retM tt
  | ta :: rest =>
      setTokenAccount (toString (accountMint ta))
        {| mint := accountMint ta; address := pubkey ta;
           buyValue := None; poolKeys := None; market := None |} ;;>
      init_register rest
  end.

(** [loadSnipeList]; [fileLines] is what reading snipe-list.txt gives,
    already split into trimmed, non-empty lines. *)
Definition loadSnipeList (fileLines : result (list string)) : M unit :=
  if negb (USE_SNIPE_LIST cfg) then retM tt
  else
    letM lines := liftM fileLines in
    modify (withSnipeList lines).

(** [init].  The bindings [wallet], [quoteToken] and [quoteAmount], which
    [init] assigns first, are not part of [World]: what they are assigned
    is held by [cfg], and the model starts after [config.getWallet()]
    returned.  With QUOTE_MINT = USDC the minimum pool size is never
    assigned, and logging it raises. *)
Definition init (fileLines : result (list string)) : M unit :=
  tryM
    ((if bool_decide (QUOTE_MINT cfg = "WSOL") then
        liftM (info log ("Min pool size: " +:+ MIN_POOL_SIZE cfg +:+ " " +:+
                         quoteTokenSymbol cfg)) ;;>
        liftM (info log ("Buy amount: " +:+ pretty (raw (quoteAmount cfg)) +:+ " " +:+
                         quoteTokenSymbol cfg))
      else if bool_decide (QUOTE_MINT cfg = "USDC") then
        throwM (Error "Cannot read properties of undefined (reading 'raw')")
      else
        throwM (Error ("Unsupported quote mint " +:+ doubleQuote +:+ QUOTE_MINT cfg +:+
                       doubleQuote +:+ ". Supported values are USDC and WSOL"))) ;;>
     (* check existing wallet for associated token account of quote mint *)
     letM tokenAccounts := Liquidity.getTokenAccounts chain in
     init_register tokenAccounts ;;>
     match find (fun acc => bool_decide (toString (accountMint acc) =
                                        toString (quoteTokenMint cfg))) tokenAccounts with
     | None =>
         throwM (Error ("No " +:+ quoteTokenSymbol cfg +:+
                        " token account found in wallet: " +:+
                        toString (walletPublicKey cfg)))
     | Some tokenAccount =>
         modify (withQuoteTokenAssociatedAddress (Some (pubkey tokenAccount))) ;;>
         (* load tokens to snipe *)
         loadSnipeList fileLines ;;>
         liftM (info log "Initialization completed successfully")
     end)
    (fun e => liftM (error log "Error during initialization:") ;;> throwM e).

Definition saveTokenAccount (mint0 : PublicKey) (accountData : MinimalMarketLayoutV3)
    : M MinimalTokenAccountData :=
  let ata := getAssociatedTokenAddressSync chain mint0 (walletPublicKey cfg) in
  let tokenAccount :=
    {| address := ata;
       mint := mint0;
       buyValue := None;
       poolKeys := None;
       market := Some {| bids := bids accountData;
                         asks := asks accountData;
                         eventQueue := eventQueue accountData;
                         marketBaseMint := None |} |} in
  setTokenAccount (toString mint0) tokenAccount ;;>
  retM tokenAccount.

Definition shouldBuy (key : string) : M bool :=
  gets (fun w => if USE_SNIPE_LIST cfg then bool_decide (key ∈ snipeList w) else true).

(** [checkMintable]: [Some b] is a boolean, [None] is [undefined]. *)
Definition checkMintable (vault : PublicKey) : M (option bool) :=
  tryM
    (letM accountInfo := call (GetAccountInfo vault)
                              (fun h => getAccountInfo chain h vault) in
     match accountInfo with
     | None => retM None
     | Some accountData =>
         letM mintAuthorityOption := liftM (decodeMintAuthorityOption chain accountData) in
         retM (Some (mintAuthorityOption =? 0))
     end)
    (fun e => liftM (error log "Failed to check if mint is renounced") ;;> retM None).

Definition processOpenBookMarket (updatedAccountInfo : KeyedAccountInfo) : M unit :=
  tryM
    (letM decoded := liftM (decodeMarketState chain (data updatedAccountInfo)) in
     match marketBaseMint decoded with
     | None => throwM (Error "Cannot read properties of undefined (reading 'toString')")
     | Some baseMint0 =>
         letM known := gets (fun w => existingTokenAccounts w !! toString baseMint0) in
         match known with
         | Some _ => retM tt
         | None => saveTokenAccount baseMint0 decoded ;;> retM tt
         end
     end)
    (fun e => liftM (error log "Failed to process market")).

(** [tokenAccount.poolKeys = keys]: [tokenAccount] is the object stored
    under [key], so the assignment shows through the map. *)
Definition assignPoolKeys (key : string) (keys : LiquidityPoolKeys) : M unit :=
  modify (fun w =>
    withTokenAccounts (alter (withPoolKeys keys) key (existingTokenAccounts w)) w).

(** Lines 292-312 of [buy]: submit with [retry], then confirm once. *)
Definition buy_submit (latestBlockhash : Blockhash) : M unit :=
  letM signature :=
    Utils.retry (call (SendRawTransaction true) (sendRawTransaction chain)) 3 1000 in
  liftM (info log ("Transaction sent: " +:+ signature)) ;;>
  letM confirmation := call (ConfirmTransaction signature)
                            (fun h => confirmTransaction chain h signature) in
  match confirmation with
  | Some err => throwM (Error ("Transaction failed: " +:+ err))
  | None => liftM (info log ("Transaction confirmed: " +:+ signature))
  end.

Definition buy_try (accountId0 : PublicKey) (accountData : LiquidityStateV4) : M unit :=
  let key := toString (baseMint accountData) in
  letM found := gets (fun w => existingTokenAccounts w !! key) in
  letM tokenAccount :=
    match found with
    | Some tokenAccount => retM tokenAccount
    | None =>
        letM market0 := Market.getMinimalMarketV3 chain (marketId accountData) in
        saveTokenAccount (baseMint accountData) market0
    end in
  (* Check trade safety before executing *)
  letM safetyCheck :=
    liftM (TradingProtection.checkTradeSafety rt tradingProtection solanaConnection
             (baseMint accountData) (quoteAmount cfg) 0%float) in
  if negb (TradingProtection.safe safetyCheck) then
    liftM (warn log ("Trade safety check failed: " +:+
                     default "undefined" (TradingProtection.reason safetyCheck)))
  else
    match market tokenAccount with
    | None => throwM (Error "Cannot read properties of undefined (reading 'bids')")
    | Some market0 =>
        assignPoolKeys key (Liquidity.createPoolKeys accountId0 accountData market0) ;;>
        call (MakeSwapFixedInInstruction (BNbigint (raw (quoteAmount cfg))))
             (makeSwapFixedInInstruction chain) ;;>
        letM latestBlockhash := call GetLatestBlockhash (getLatestBlockhash chain) in
        call SignTransaction (signTransaction chain) ;;>
        buy_submit latestBlockhash
    end.

Definition buy (accountId0 : PublicKey) (accountData : LiquidityStateV4) : M unit :=
  tryM (buy_try accountId0 accountData)
    (fun e => liftM (error log "Error in buy function:") ;;> throwM e).

Definition processRaydiumPool (poolId : PublicKey) (poolState : LiquidityStateV4) : M unit :=
  letM wanted := shouldBuy (toString (baseMint poolState)) in
  if negb wanted then retM tt
  else if CHECK_IF_MINT_IS_RENOUNCED cfg then
    letM mintOption := checkMintable (baseMint poolState) in
    match mintOption with
    | Some true => buy poolId poolState
    | Some false | None => liftM (warn log "Skipping, owner can mint tokens!")
    end
  else buy poolId poolState.

(** The body of the [try] block inside [sell]'s loop. *)
Definition sell_try (accountId0 mint0 : PublicKey) (amount : BigNumberish)
    (value : number) : M Control :=
  letM found := gets (fun w => existingTokenAccounts w !! toString mint0) in
  match found with
  | None => retM (Return true)
  | Some tokenAccount =>
      match poolKeys tokenAccount with
      | None => liftM (warn log "No pool keys found") ;;> retM Continue
      | Some keys =>
          if strictEqualsZero amount then
            liftM (info log "Empty balance, can't sell") ;;> retM (Return true)
          else
            (* check st/tp *)
            match buyValue tokenAccount with
            | None => retM (Return true)
            | Some buyValue0 =>
                let netChange := ((value - buyValue0) / buyValue0)%float in
                if gt netChange (STOP_LOSS cfg) && lt netChange (TAKE_PROFIT cfg) then
                  retM (Return false)
                else
                  call (MakeSwapFixedInInstruction amount)
                       (makeSwapFixedInInstruction chain) ;;>
                  letM latestBlockhash :=
                    call GetLatestBlockhash (getLatestBlockhash chain) in
                  call SignTransaction (signTransaction chain) ;;>
                  letM signature :=
                    call (SendRawTransaction false) (sendRawTransaction chain) in
                  letM confirmation :=
                    call (ConfirmTransaction signature)
                         (fun h => confirmTransaction chain h signature) in
                  match confirmation with
                  | Some _ => retM Continue
                  | None =>
                      liftM (info log "Confirmed sell tx...") ;;> retM (Return true)
                  end
            end
      end
  end.

(** [sell]'s do-while loop.  [fuel] bounds the number of passes the model
    follows; [None] means the loop is still running when it is spent. *)
Fixpoint sell_loop (fuel : nat) (accountId0 mint0 : PublicKey) (amount : BigNumberish)
    (value : number) (retries : Z) (w : World) : option (result bool) * World :=
  match fuel with
  | O => (None, w)
  | S fuel' =>
      match sell_try accountId0 mint0 amount value w with
      | (Ok (Return completed), w1) => (Some (Ok completed), w1)
      | (Ok Continue, w1) =>
          if retries <? MAX_SELL_RETRIES cfg
          then sell_loop fuel' accountId0 mint0 amount value retries w1
          else (Some (Ok true), w1)
      | (Throw _, w1) =>
          let retries := retries + 1 in
          match error log ("Failed to sell token, retry: " +:+ pretty retries +:+ "/" +:+
                           pretty (MAX_SELL_RETRIES cfg)) with
          | Throw e' => (Some (Throw e'), w1)
          | Ok _ =>
              if retries <? MAX_SELL_RETRIES cfg
              then sell_loop fuel' accountId0 mint0 amount value retries w1
              else (Some (Ok true), w1)
          end
      end
  end.

Definition sell (fuel : nat) (accountId0 mint0 : PublicKey) (amount : BigNumberish)
    (value : number) : World -> option (result bool) * World :=
  sell_loop fuel accountId0 mint0 amount value 0.

(** The callback [runListener] registers for pool accounts.  The pipeline
    it starts is not awaited: the callback only records the dispatch. *)
Definition onRaydiumAccountChange (runTimestamp : Z)
    (updatedAccountInfo : KeyedAccountInfo) : M unit :=
  let key := toString (accountId updatedAccountInfo) in
  letM poolState := liftM (decodeLiquidityState chain (data updatedAccountInfo)) in
  let poolOpenTime0 := poolOpenTime poolState in
  letM existing := gets (fun w => bool_decide (key ∈ existingLiquidityPools w)) in
  if (runTimestamp <? poolOpenTime0) && negb existing then
    modify (fun w => withLiquidityPools ({[key]} ∪ existingLiquidityPools w) w) ;;>
    emit (ProcessRaydiumPool key)
  else retM tt.

(** The callback for market accounts.  [processOpenBookMarket] has no
    [await]: its whole body runs inside the callback, and what it raises
    is lost with the promise nobody awaits. *)
Definition onOpenBookAccountChange (updatedAccountInfo : KeyedAccountInfo) : M unit :=
  let key := toString (accountId updatedAccountInfo) in
  letM existing := gets (fun w => bool_decide (key ∈ existingOpenBookMarkets w)) in
  if negb existing then
    modify (fun w => withOpenBookMarkets ({[key]} ∪ existingOpenBookMarkets w) w) ;;>
    emit (ProcessOpenBookMarket key) ;;>
    tryM (processOpenBookMarket updatedAccountInfo) (fun _ => retM tt)
  else retM tt.

(** An account-change notification of one of the two subscriptions. *)
Inductive Notification : Type :=
| RaydiumChange (updatedAccountInfo : KeyedAccountInfo)
| OpenBookChange (updatedAccountInfo : KeyedAccountInfo).

Definition notify (runTimestamp : Z) (n : Notification) (w : World) : World :=
  match n with
  | RaydiumChange u => snd (onRaydiumAccountChange runTimestamp u w)
  | OpenBookChange u => snd (onOpenBookAccountChange u w)
  end.

(** The listener fed a stream of notifications, oldest first. *)
Definition runListener (runTimestamp : Z) (stream : list Notification) (w : World)
    : World :=
  fold_left (fun w n => notify runTimestamp n w) stream w.

End Bot.
End Bot.

(** ** Specification-level definitions *)

Module Spec.
Import TradingProtection.

(** The evaluator of section 4.1 of the specification, in the spec's words:
    three checks in fixed priority order, first violated check wins. *)
Definition evaluate (rt : Runtime) (tradeAmountBase liquidityBase priceImpactPercent : number)
    (config : TradingProtection) : TradeSafetyResult :=
  if gt tradeAmountBase (maxTradeSize config) then
    reject (tradeSizeReason rt tradeAmountBase (maxTradeSize config))
  else if lt liquidityBase (minLiquidity config) then
    reject (liquidityReason rt liquidityBase (minLiquidity config))
  else if gt priceImpactPercent (maxSlippage config) then
    reject (priceImpactReason rt priceImpactPercent (maxSlippage config))
  else accept.

Definition isSend (ev : Event) : bool :=
  match ev with SendRawTransaction _ => true | _ => false end.

Definition isConfirm (ev : Event) : bool :=
  match ev with ConfirmTransaction _ => true | _ => false end.

(** How many requests of a history satisfy [p]. *)
Definition countEvents (p : Event -> bool) (h : list Event) : nat :=
  length (List.filter p h).

(** Number of submission attempts in a history. *)
Definition sends (h : list Event) : nat := countEvents isSend h.

(** Number of confirmation requests in a history. *)
Definition confirms (h : list Event) : nat := countEvents isConfirm h.

(** A computation adds at most [n] requests satisfying [p] to the
    history, whatever the collaborators answer. *)
Definition emitsAtMost {A} (p : Event -> bool) (n : nat) (c : M A) : Prop :=
  forall w, (countEvents p (history (snd (c w))) <= countEvents p (history w) + n)%nat.

(** The pool and market identities a history dispatched, oldest first. *)
Fixpoint dispatchedPools (h : list Event) : list string :=
  match h with
  | [] => []
  | ProcessRaydiumPool key :: h' => key :: dispatchedPools h'
  | _ :: h' => dispatchedPools h'
  end.

Fixpoint dispatchedMarkets (h : list Event) : list string :=
  match h with
  | [] => []
  | ProcessOpenBookMarket key :: h' => key :: dispatchedMarkets h'
  | _ :: h' => dispatchedMarkets h'
  end.

(** No tracked position has an acquisition value. *)
Definition noBuyValue (w : World) : Prop :=
  map_Forall (fun _ ta => buyValue ta = None) (existingTokenAccounts w).

Definition isDispatch (ev : Event) : bool :=
  match ev with
  | ProcessRaydiumPool _ | ProcessOpenBookMarket _ => true
  | _ => false
  end.

(** A property of the world that the operations on the position map, the
    quote account, the snipe list and the request history (dispatches
    apart) cannot break. *)
Record Frame (P : World -> Prop) : Prop := {
  frame_history : forall w ev,
    isDispatch ev = false -> P w -> P (withHistory (history w ++ [ev]) w);
  frame_set : forall w key ta,
    buyValue ta = None ->
    P w -> P (withTokenAccounts (<[key := ta]> (existingTokenAccounts w)) w);
  frame_keys : forall w key keys,
    P w -> P (withTokenAccounts (alter (withPoolKeys keys) key (existingTokenAccounts w)) w);
  frame_quote : forall w a, P w -> P (withQuoteTokenAssociatedAddress a w);
  frame_snipe : forall w l, P w -> P (withSnipeList l w)
}.

(** A computation keeps [P], whether it returns or raises. *)
Definition preservesM {A} (P : World -> Prop) (c : M A) : Prop :=
  forall w, P w -> P (snd (c w)).

(** The dedup sets hold exactly the identities dispatched so far, and no
    identity was dispatched twice. *)
Definition dedupInvariant (w : World) : Prop :=
  NoDup (dispatchedPools (history w)) /\
  NoDup (dispatchedMarkets (history w)) /\
  (forall key, key ∈ existingLiquidityPools w <-> key ∈ dispatchedPools (history w)) /\
  (forall key, key ∈ existingOpenBookMarkets w <-> key ∈ dispatchedMarkets (history w)).

(** The worlds the process can be in: it starts from [initialWorld], and
    every entry point of the main module runs to its end, in any order and
    with any arguments, against the same collaborators. *)
Inductive reachable (rt : Runtime) (chain : Chain) (cfg : Settings) : World -> Prop :=
| reach_start : reachable rt chain cfg initialWorld
| reach_init fileLines w :
    reachable rt chain cfg w ->
    reachable rt chain cfg (snd (Bot.init rt chain cfg fileLines w))
| reach_loadSnipeList fileLines w :
    reachable rt chain cfg w ->
    reachable rt chain cfg (snd (Bot.loadSnipeList cfg fileLines w))
| reach_notify runTimestamp n w :
    reachable rt chain cfg w ->
    reachable rt chain cfg (Bot.notify rt chain cfg runTimestamp n w)
| reach_processRaydiumPool tradingProtection poolId poolState w :
    reachable rt chain cfg w ->
    reachable rt chain cfg
      (snd (Bot.processRaydiumPool rt chain cfg tradingProtection poolId poolState w))
| reach_sell fuel accountId0 mint0 amount value w :
    reachable rt chain cfg w ->
    reachable rt chain cfg (snd (Bot.sell rt chain cfg fuel accountId0 mint0 amount value w)).

End Spec.

(** ** Concrete collaborators and inputs for the examples *)

Module Fixtures.
Import TradingProtection.

Definition quietLogger : Logger :=
  {| info := fun _ => Ok tt; warn := fun _ => Ok tt; error := fun _ => Ok tt |}.

(** Numbers print as a placeholder: no example depends on their digits. *)
Definition plainRuntime : Runtime :=
  {| logger := quietLogger; numberToString := fun _ => "#" |}.

(** A logger whose transport fails on the first line of the liquidity
    lookup. *)
Definition lookupFaultLogger : Logger :=
  {| info := fun m => if String.prefix "Getting token liquidity" m
                      then Throw (Error "log transport closed") else Ok tt;
     warn := fun _ => Ok tt;
     error := fun _ => Ok tt |}.

Definition lookupFaultRuntime : Runtime :=
  {| logger := lookupFaultLogger; numberToString := fun _ => "#" |}.

(** The inputs of the repository's test suite. *)
Definition testTokenMint : PublicKey :=
  {| toBase58 := "EPjFWdd5AufqSSqeM2qN1xzybapC8G4wEGGkZwyTDt1v" |}.
Definition testAmount : TokenAmount := {| raw := 100000000 |}.

(** [setMaxTradeSize(0.05); setMinLiquidity(2000)] on the defaults: size
    and liquidity are both violated for [testAmount]. *)
Definition bothViolated : TradingProtection :=
  {| maxSlippage := 1%float; maxTradeSize := 0.05%float; minLiquidity := 2000%float;
     mockLiquidity := 1000%float; mockPriceImpact := 0.5%float |}.

(** A position, a wallet and settings for the examples of [buy] and
    [sell]: stop-loss -10, take-profit 50, three sell retries. *)
Definition walletKey : PublicKey := {| toBase58 := "Wallet" |}.
Definition wsolMint : PublicKey :=
  {| toBase58 := "So11111111111111111111111111111111111111112" |}.
Definition mintA : PublicKey := {| toBase58 := "MintA" |}.
Definition accountA : PublicKey := {| toBase58 := "AccountA" |}.
Definition poolA : PublicKey := {| toBase58 := "PoolA" |}.
Definition marketA : PublicKey := {| toBase58 := "MarketA" |}.

Definition demoSettings : Settings := {|
  TAKE_PROFIT := 50%float;
  STOP_LOSS := (-10)%float;
  MAX_SELL_RETRIES := 3;
  CHECK_IF_MINT_IS_RENOUNCED := false;
  USE_SNIPE_LIST := false;
  AUTO_SELL := true;
  QUOTE_MINT := "WSOL";
  MIN_POOL_SIZE := "0";
  quoteAmount := testAmount;
  quoteTokenMint := wsolMint;
  quoteTokenSymbol := "WSOL";
  walletPublicKey := walletKey
|}.

Definition marketOfA : MinimalMarketLayoutV3 :=
  {| bids := marketA; asks := marketA; eventQueue := marketA; marketBaseMint := Some mintA |}.

Definition poolStateA : LiquidityStateV4 :=
  {| baseMint := mintA; quoteMint := wsolMint; lpMint := poolA; marketId := marketA;
     marketProgramId := marketA; poolOpenTime := 200 |}.

Definition keysA : LiquidityPoolKeys := Liquidity.createPoolKeys poolA poolStateA marketOfA.

(** The tracked position of [mintA], with the given acquisition value and
    pool keys. *)
Definition positionA (acquired : option number) (keys : option LiquidityPoolKeys)
    : MinimalTokenAccountData :=
  {| mint := mintA; address := accountA; buyValue := acquired; poolKeys := keys;
     market := Some marketOfA |}.

Definition worldWith (ta : MinimalTokenAccountData) : World :=
  withTokenAccounts {[ "MintA" := ta ]} initialWorld.

(** A chain on which every request succeeds. *)
Definition healthyChain : Chain := {|
  decodeLiquidityState := fun _ => Ok poolStateA;
  decodeMarketState := fun _ => Ok marketOfA;
  decodeMintAuthorityOption := fun _ => Ok 0;
  getAssociatedTokenAddressSync := fun _ _ => accountA;
  getTokenAccountsByOwner := fun _ => Ok [];
  getAccountInfo := fun _ _ => Ok (Some []);
  makeSwapFixedInInstruction := fun _ => Ok tt;
  getLatestBlockhash := fun _ => Ok {| blockhash := "hash"; lastValidBlockHeight := 1 |};
  signTransaction := fun _ => Ok tt;
  sendRawTransaction := fun _ => Ok "signature";
  confirmTransaction := fun _ _ => Ok None
|}.

(** A chain whose RPC endpoint rejects every submission. *)
Definition rejectingChain : Chain := {|
  decodeLiquidityState := fun _ => Ok poolStateA;
  decodeMarketState := fun _ => Ok marketOfA;
  decodeMintAuthorityOption := fun _ => Ok 0;
  getAssociatedTokenAddressSync := fun _ _ => accountA;
  getTokenAccountsByOwner := fun _ => Ok [];
  getAccountInfo := fun _ _ => Ok (Some []);
  makeSwapFixedInInstruction := fun _ => Ok tt;
  getLatestBlockhash := fun _ => Ok {| blockhash := "hash"; lastValidBlockHeight := 1 |};
  signTransaction := fun _ => Ok tt;
  sendRawTransaction := fun _ => Throw (Error "503 Service Unavailable");
  confirmTransaction := fun _ _ => Ok None
|}.

(** A notification for the pool account [poolA] and one for the market
    account [marketA]; [healthyChain] decodes the first to a pool that
    opened at time 200. *)
Definition poolNotification : KeyedAccountInfo := {| accountId := poolA; data := [] |}.
Definition marketNotification : KeyedAccountInfo := {| accountId := marketA; data := [] |}.

(** The world after the pipeline of [poolA] ran to its end on a healthy
    chain: [mintA] was bought. *)
Definition boughtWorld : World :=
  snd (Bot.processRaydiumPool plainRuntime healthyChain demoSettings
         TradingProtection.instance poolA poolStateA initialWorld).

End Fixtures.

(** ** Shapes of request histories *)

Module Traces.

(** [k] failed attempts of a retried request, each followed by the delay
    before the next attempt. *)
Fixpoint failedAttempts (ev : Event) (ms : Z) (k : nat) : list Event :=
  match k with
  | O => []
  | S k' => ev :: SetTimeout ms :: failedAttempts ev ms k'
  end.

(** The same requests made [n] times over. *)
Fixpoint passes (n : nat) (pass : list Event) : list Event :=
  match n with
  | O => []
  | S n' => pass ++ passes n' pass
  end.

(** What one submitting pass of [sell] asks for. *)
Definition sellRequests (amount : BigNumberish) (signature : string) : list Event :=
  [MakeSwapFixedInInstruction amount; GetLatestBlockhash; SignTransaction;
   SendRawTransaction false; ConfirmTransaction signature].

(** What [buy] asks for between the safety check and the confirmation,
    when the first submission is accepted. *)
Definition buyRequests (amountIn : Z) (signature : string) : list Event :=
  [MakeSwapFixedInInstruction (BNbigint amountIn); GetLatestBlockhash; SignTransaction;
   SendRawTransaction true; ConfirmTransaction signature].

Definition isThrow {A} (r : result A) : Prop := exists e, r = Throw e.




(** The requests that build, sign, submit or confirm a transaction. *)
Definition isTransactionRequest (ev : Event) : bool :=
  match ev with
  | MakeSwapFixedInInstruction _ | GetLatestBlockhash | SignTransaction
  | SendRawTransaction _ | ConfirmTransaction _ => true
  | _ => false
  end.

(** A timer. *)
Definition isDelay (ev : Event) : bool :=
  match ev with SetTimeout _ => true | _ => false end.

(** Two requests of the same kind, whatever their arguments. *)
Definition sameKind (ev ev' : Event) : bool :=
  match ev, ev' with
  | GetTokenAccountsByOwner, GetTokenAccountsByOwner
  | GetAccountInfo _, GetAccountInfo _
  | MakeSwapFixedInInstruction _, MakeSwapFixedInInstruction _
  | GetLatestBlockhash, GetLatestBlockhash
  | SignTransaction, SignTransaction
  | SendRawTransaction _, SendRawTransaction _
  | ConfirmTransaction _, ConfirmTransaction _
  | SetTimeout _, SetTimeout _
  | ProcessRaydiumPool _, ProcessRaydiumPool _
  | ProcessOpenBookMarket _, ProcessOpenBookMarket _ => true
  | _, _ => false
  end.

End Traces.

(** ** The main module: the wallet listener of AUTO_SELL *)

Module AutoSell.

(** What [AccountLayout.decode] gives, reduced to the fields read:
    [amount] is a bigint. *)
Record RawAccount : Type := {
  rawMint : PublicKey;
  rawAmount : Z
}.

(** Whether a [number | null] counts as true in a condition: not null,
    not zero, not NaN. *)
Definition truthy (v : option number) : bool :=
  match v with
  | None => false
  | Some n => negb (n =? 0)%float && (n =? n)%float
  end.

Section AutoSell.
Variable rt : Runtime.
Variable chain : Chain.
Variable cfg : Settings.
(** [AccountLayout.decode] *)
Variable decodeAccount : Buffer -> result RawAccount.

Local Abbreviation log := (logger rt).

(** [retrieveTokenValueByAddress] as the main module defines it: the body
    of its [try] block is [return 0]. *)
Definition retrieveTokenValueByAddress (mintAddress : string) : M (option number) :=
  tryM (retM (Some 0%float))
    (fun e =>
       liftM (error log ("Failed to retrieve token value for " +:+ mintAddress +:+ ":")) ;;>
       retM None).

(** The [while (!completed)] loop of the callback.  [fuel] bounds the
    passes followed, of this loop and of the loop of [sell] inside it;
    [None] means still running. *)
Fixpoint walletLoop (fuel : nat) (updatedAccountInfo : KeyedAccountInfo)
    (accountData : RawAccount) (w : World) : option (result unit) * World :=
  match fuel with
  | O => (None, w)
  | S fuel' =>
      (* setTimeout(() => {}, 1000) *)
      let w1 := snd (emit (SetTimeout 1000) w) in
      match retrieveTokenValueByAddress (toBase58 (rawMint accountData)) w1 with
      | (Throw e, w2) => (Some (Throw e), w2)
      | (Ok currValue, w2) =>
          match currValue with
          | Some value =>
              if truthy currValue then
                match info log "Current Price" with
                | Throw e => (Some (Throw e), w2)
                | Ok _ =>
                    match Bot.sell rt chain cfg fuel' (accountId updatedAccountInfo)
                            (rawMint accountData) (BNbigint (rawAmount accountData))
                            value w2 with
                    | (None, w3) => (None, w3)
                    | (Some (Throw e), w3) => (Some (Throw e), w3)
                    | (Some (Ok true), w3) => (Some (Ok tt), w3)
                    | (Some (Ok false), w3) =>
                        walletLoop fuel' updatedAccountInfo accountData w3
                    end
                end
              else walletLoop fuel' updatedAccountInfo accountData w2
          | None => walletLoop fuel' updatedAccountInfo accountData w2
          end
      end
  end.

(** The callback [runListener] registers on the token program when
    AUTO_SELL is set. *)
Definition onWalletAccountChange (fuel : nat) (updatedAccountInfo : KeyedAccountInfo)
    (w : World) : option (result unit) * World :=
  match decodeAccount (data updatedAccountInfo) with
  | Throw e => (Some (Throw e), w)
  | Ok accountData =>
      match quoteTokenAssociatedAddress w with
      | None =>
          (Some (Throw (Error "Cannot read properties of undefined (reading 'toBase58')")),
           w)
      | Some quoteAddress =>
          if bool_decide (toBase58 (accountId updatedAccountInfo) = toBase58 quoteAddress)
          then (Some (Ok tt), w)
          else walletLoop fuel updatedAccountInfo accountData w
      end
  end.

End AutoSell.
End AutoSell.

(** ** utils: the slot handler and the price lookup *)

Module SlotHandler.

(** What the handler does, in order. *)
Inductive Effect : Type :=
| Wait (ms : Z)
| SetRunning (running : bool)
| AskBalance (owner : PublicKey)
| AskFee
| AskBlockhash
| ConsoleWarn (text : string)
| ConsoleLog (text : string)
| ConsoleError (text : string)
| SignTransfer (fromPubkey toPubkey : PublicKey) (lamports : number)
               (recentBlockhash : string)
| Submit (skipPreflight : bool).

(** What the connection answers to one run of the handler; building and
    signing the transaction may raise too. *)
Record Answers : Type := {
  getBalance : result number;
  (** [(await getRecentBlockhash()).feeCalculator.lamportsPerSignature] *)
  lamportsPerSignature : result number;
  signedTransfer : result unit;
  sendRawTransaction : result string
}.

(** The handler writes its effects and returns or raises. *)
Definition T (A : Type) : Type := list Effect -> result A * list Effect.

Definition retT {A} (a : A) : T A := fun l => (Ok a, l).
Definition doT (ef : Effect) : T unit := fun l => (Ok tt, l ++ [ef]).
Definition askT {A} (ef : Effect) (answer : result A) : T A := fun l => (answer, l ++ [ef]).

Definition bindT {A B} (c : T A) (k : A -> T B) : T B :=
  fun l =>
    match c l with
    | (Ok a, l') => k a l'
    | (Throw e, l') => (Throw e, l')
    end.

(** [try { body } catch (err) { handler } finally { final }], where
    neither [handler] nor [final] returns a value of its own. *)
Definition tryFinallyT (body : T unit) (handler : exn -> T unit) (final : T unit) : T unit :=
  fun l =>
    match body l with
    | (Ok _, l') => final l'
    | (Throw e, l') =>
        match handler e l' with
        | (Ok _, l'') => final l''
        | (Throw e', l'') =>
            match final l'' with
            | (Ok _, l3) => (Throw e', l3)
            | (Throw e'', l3) => (Throw e'', l3)
            end
        end
    end.

Section Handler.
(** the text a template literal gives a number *)
Variable numberToString : number -> string.

Definition handleSlotChange (answers : Answers) (walletPublicKey destinationAddress : PublicKey)
    (blockhash : string) : T unit :=
  bindT (doT (Wait 1)) (fun _ =>
  tryFinallyT
    (bindT (doT (SetRunning true)) (fun _ =>
     bindT (askT (AskBalance walletPublicKey) (getBalance answers)) (fun balance =>
     bindT (askT AskFee (lamportsPerSignature answers)) (fun cost =>
     let amountToSend := (balance - cost)%float in
     if (amountToSend <=? 0)%float then
       doT (ConsoleWarn ("Insufficient balance for transfer. Balance: " +:+
                         numberToString balance +:+ ", Cost: " +:+ numberToString cost))
     else
       bindT (doT (ConsoleLog ("Attempting to send " +:+ numberToString amountToSend +:+
                               " lamports to " +:+ toString destinationAddress))) (fun _ =>
       bindT (askT (SignTransfer walletPublicKey destinationAddress amountToSend blockhash)
                   (signedTransfer answers)) (fun _ =>
       bindT (askT (Submit true) (sendRawTransaction answers)) (fun txId =>
       doT (ConsoleLog ("Transaction sent successfully. TxId: " +:+ txId)))))))))
    (fun err =>
       bindT (doT (ConsoleError "Error in handleSlotChange:")) (fun _ =>
       bindT (doT (ConsoleError ("Error message: " +:+ match err with Error m => m end)))
         (fun _ => doT (ConsoleError "Error stack: "))))
    (doT (SetRunning false))).

(** The address the module passes as [destinationAddress]. *)
Definition destinationAddress : PublicKey :=
  {| toBase58 := "DeipR5swhPxbQwvF3XSYLrm2SqNyfUkLsAibfrFEQn23" |}.

(** One tick of the one-second interval the module starts when it is
    loaded: [walletPublicKey] is the public key of the key pair made from
    PRIVATE_KEY. *)
Definition tick (latestBlockhash : result Blockhash) (answers : Answers)
    (walletPublicKey : PublicKey) : T unit :=
  bindT (askT AskBlockhash latestBlockhash) (fun slotInfo =>
  handleSlotChange answers walletPublicKey destinationAddress (blockhash slotInfo)).

End Handler.

(** The effects that move funds. *)
Definition isTransfer (ef : Effect) : bool :=
  match ef with
  | SignTransfer _ _ _ _ | Submit _ => true
  | _ => false
  end.

End SlotHandler.

Module PriceLookup.

(** A pair of the DexScreener response, reduced to the fields read. *)
Record Pair : Type := {
  chainId : string;
  priceNative : string
}.

(** [pair.chainId = 'solana'] is an assignment: its value is the string
    assigned, which counts as true. *)
Definition assignChainId (candidate : Pair) : Pair * bool :=
  ({| chainId := "solana"; priceNative := priceNative candidate |}, true).

Section PriceLookup.
(** [parseFloat] *)
Variable parseFloat : string -> number.

(** [retrieveTokenValueByAddressDexScreener]; [response] is what
    [(await axios.get(url)).data.pairs] gives: [None] is [null]. *)
Definition retrieveTokenValueByAddressDexScreener
    (response : result (option (list Pair))) : option number :=
  match response with
  | Throw _ => None
  | Ok None => None
  | Ok (Some pairs) =>
      match find (fun candidate => snd (assignChainId candidate)) pairs with
      | None => None
      | Some found =>
          if bool_decide (priceNative found = "") then None
          else Some (parseFloat (priceNative found))
      end
  end.

(** [retrieveTokenValueByAddress] of utils. *)
Definition retrieveTokenValueByAddress (response : result (option (list Pair)))
    : option number :=
  let dexScreenerPrice := retrieveTokenValueByAddressDexScreener response in
  if AutoSell.truthy dexScreenerPrice then dexScreenerPrice else None.

End PriceLookup.
End PriceLookup.

(** ** config.ts: reading the .env file *)

Module Config.

(** [s.split(sep)] for a separator of one ASCII character.  Text is held
    as UTF-8, in which such a character never occurs inside another one,
    so splitting bytes splits the text. *)
Fixpoint splitOn (sep : Ascii.ascii) (s : string) : list string :=
  match s with
  | EmptyString => [EmptyString]
  | String c s' =>
      if Ascii.eqb c sep then EmptyString :: splitOn sep s'
      else
        match splitOn sep s' with
        | piece :: rest => String c piece :: rest
        | [] => [String c EmptyString]
        end
  end.

(** Whether the character occurs in the string. *)
Fixpoint hasChar (sep : Ascii.ascii) (s : string) : bool :=
  match s with
  | EmptyString => false
  | String c s' => Ascii.eqb c sep || hasChar sep s'
  end.

(** A string counts as true in a condition when it is not empty. *)
Definition nonEmpty (s : string) : bool := negb (bool_decide (s = "")).

(** [config] is a plain object, created by [{}]: besides the properties
    [loadConfig] stores, it has the members it inherits from
    [Object.prototype] (which nothing in the program modifies). *)
Definition objectPrototypeKeys : list string :=
  ["__proto__"; "constructor"; "hasOwnProperty"; "isPrototypeOf";
   "propertyIsEnumerable"; "toLocaleString"; "toString"; "valueOf";
   "__defineGetter__"; "__defineSetter__"; "__lookupGetter__"; "__lookupSetter__"].

(** What reading a property gives: a text [loadConfig] stored, or an
    inherited member (a function, or the prototype object for
    [__proto__]), which counts as true in a condition. *)
Inductive EnvValue : Type :=
| Text (value : string)
| Inherited (name : string).

(** [config[key] = value] for a text [value].  The map holds the object's
    own properties.  [__proto__] is an accessor of the prototype, whose
    setter ignores a value that is not an object; under any other key the
    assignment creates or overwrites an own property. *)
Definition assignProperty (config : gmap string string) (key value : string)
    : gmap string string :=
  if bool_decide (key = "__proto__") then config else <[key := value]> config.

(** [config[key]]: an own property hides an inherited member. *)
Definition readProperty (config : gmap string string) (key : string) : option EnvValue :=
  if bool_decide (key = "__proto__") then Some (Inherited key)
  else
    match config !! key with
    | Some value => Some (Text value)
    | None =>
        if bool_decide (key ∈ objectPrototypeKeys) then Some (Inherited key) else None
    end.

(** [value === text] *)
Definition strictEqualsText (value : EnvValue) (text : string) : bool :=
  match value with
  | Text found => bool_decide (found = text)
  | Inherited _ => false
  end.

Section Config.
Variable rt : Runtime.
(** [String.prototype.trim] and [parseInt] *)
Variable trim : string -> string.
Variable parseInt : string -> number.

Local Abbreviation log := (logger rt).

(** The callback [loadConfig] runs on each line. *)
Definition loadLine (config : gmap string string) (line : string) : gmap string string :=
  match map trim (splitOn "="%char line) with
  | key :: value :: _ =>
      if nonEmpty key && nonEmpty value && negb (String.prefix "#" key)
      then assignProperty config key value
      else config
  | _ => config
  end.

Definition loadLines (lines : list string) (config : gmap string string)
    : gmap string string :=
  fold_left loadLine lines config.

(** [loadConfig]; [envFile] is [None] when .env does not exist, and
    otherwise what [readFileSync] gives. *)
Definition loadConfig (envFile : option (result string)) : result (gmap string string) :=
  try_catch
    (match envFile with
     | None => Ok ∅
     | Some read =>
         let* envContent := read in
         Ok (loadLines (splitOn "010"%char envContent) ∅)
     end)
    (fun e => error log "Error loading config:" ;;;
              Throw (Error "Failed to load configuration")).

Definition getEnvVariable (config : gmap string string) (key : string) : result EnvValue :=
  let missing :=
    error log (key +:+ " is not set in configuration") ;;;
    Throw (Error ("Configuration error: " +:+ key +:+ " is not set")) in
  match readProperty config key with
  | Some (Text value) => if nonEmpty value then Ok (Text value) else missing
  | Some (Inherited name) => Ok (Inherited name)
  | None => missing
  end.

(** [parseInt(value)]: the text of a function or of an object does not
    start with a digit. *)
Definition parseIntOf (value : EnvValue) : number :=
  match value with
  | Text found => parseInt found
  | Inherited _ => nan
  end.

Definition getRpcEndpoint (config : gmap string string) : result EnvValue :=
  getEnvVariable config "RPC_ENDPOINT".

Definition getQuoteMint (config : gmap string string) : result EnvValue :=
  getEnvVariable config "QUOTE_MINT".

Definition getUseSnipeList (config : gmap string string) : result bool :=
  let* value := getEnvVariable config "USE_SNIPE_LIST" in
  Ok (strictEqualsText value "true").

Definition getAutoSell (config : gmap string string) : result bool :=
  let* value := getEnvVariable config "AUTO_SELL" in
  Ok (strictEqualsText value "true").

Definition getMaxSellRetries (config : gmap string string) : result number :=
  let* value := getEnvVariable config "MAX_SELL_RETRIES" in
  Ok (parseIntOf value).

Definition getTakeProfit (config : gmap string string) : result number :=
  let* value := getEnvVariable config "TAKE_PROFIT" in
  Ok (parseIntOf value).

Definition getStopLoss (config : gmap string string) : result number :=
  let* value := getEnvVariable config "STOP_LOSS" in
  Ok (parseIntOf value).

End Config.

(** The trimmed text before the first [=] of a line: the key the line
    would define. *)
Definition lineKey (trim : string -> string) (line : string) : string :=
  match splitOn "="%char line with
  | key :: _ => trim key
  | [] => trim ""
  end.

End Config.

(** ** Further examples *)

Module Examples.
Import TradingProtection Fixtures.

(** A request that is refused while fewer than four events are on record:
    the first two attempts of a retried submission fail, the third is
    accepted. *)
Definition flakyAnswer (h : list Event) : result string :=
  if (length h <? 4)%nat then Throw (Error "node is behind") else Ok "signature".

(** A logger whose transport fails on the first line of the price-impact
    calculation. *)
Definition impactFaultLogger : Logger :=
  {| info := fun m => if String.prefix "Calculating price impact" m
                      then Throw (Error "log transport closed") else Ok tt;
     warn := fun _ => Ok tt;
     error := fun _ => Ok tt |}.

Definition impactFaultRuntime : Runtime :=
  {| logger := impactFaultLogger; numberToString := fun _ => "#" |}.

(** Thresholds read from text that is not a number. *)
Definition nanThresholds : TradingProtection :=
  {| maxSlippage := nan; maxTradeSize := nan; minLiquidity := nan;
     mockLiquidity := 0%float; mockPriceImpact := 100%float |}.

(** A billion SOL. *)
Definition hugeAmount : TokenAmount := {| raw := 10 ^ 18 |}.

(** [mintA] as [init] registers it: without market data. *)
Definition walletPositionA : MinimalTokenAccountData :=
  {| mint := mintA; address := accountA; buyValue := None; poolKeys := None;
     market := None |}.

(** A node that has none of the accounts asked for. *)
Definition emptyChain : Chain := {|
  decodeLiquidityState := fun _ => Ok poolStateA;
  decodeMarketState := fun _ => Ok marketOfA;
  decodeMintAuthorityOption := fun _ => Ok 0;
  getAssociatedTokenAddressSync := fun _ _ => accountA;
  getTokenAccountsByOwner := fun _ => Ok [];
  getAccountInfo := fun _ _ => Ok None;
  makeSwapFixedInInstruction := fun _ => Ok tt;
  getLatestBlockhash := fun _ => Ok {| blockhash := "hash"; lastValidBlockHeight := 1 |};
  signTransaction := fun _ => Ok tt;
  sendRawTransaction := fun _ => Ok "signature";
  confirmTransaction := fun _ _ => Ok None
|}.

(** A chain on which every transaction is confirmed with an error. *)
Definition failingChain : Chain := {|
  decodeLiquidityState := fun _ => Ok poolStateA;
  decodeMarketState := fun _ => Ok marketOfA;
  decodeMintAuthorityOption := fun _ => Ok 0;
  getAssociatedTokenAddressSync := fun _ _ => accountA;
  getTokenAccountsByOwner := fun _ => Ok [];
  getAccountInfo := fun _ _ => Ok (Some []);
  makeSwapFixedInInstruction := fun _ => Ok tt;
  getLatestBlockhash := fun _ => Ok {| blockhash := "hash"; lastValidBlockHeight := 1 |};
  signTransaction := fun _ => Ok tt;
  sendRawTransaction := fun _ => Ok "signature";
  confirmTransaction := fun _ _ => Ok (Some "InstructionError")
|}.

(** A chain on which every mint still has its mint authority. *)
Definition mintableChain : Chain := {|
  decodeLiquidityState := fun _ => Ok poolStateA;
  decodeMarketState := fun _ => Ok marketOfA;
  decodeMintAuthorityOption := fun _ => Ok 1;
  getAssociatedTokenAddressSync := fun _ _ => accountA;
  getTokenAccountsByOwner := fun _ => Ok [];
  getAccountInfo := fun _ _ => Ok (Some []);
  makeSwapFixedInInstruction := fun _ => Ok tt;
  getLatestBlockhash := fun _ => Ok {| blockhash := "hash"; lastValidBlockHeight := 1 |};
  signTransaction := fun _ => Ok tt;
  sendRawTransaction := fun _ => Ok "signature";
  confirmTransaction := fun _ _ => Ok None
|}.

(** The wallet's token accounts: one of [mintA] and one of wrapped SOL. *)
Definition wsolAccount : PublicKey := {| toBase58 := "WsolAccount" |}.


(** [demoSettings] with the snipe list in use, with the renounce check on,
    and with USDC as the quote token. *)
Definition snipeSettings : Settings := {|
  TAKE_PROFIT := 50%float; STOP_LOSS := (-10)%float; MAX_SELL_RETRIES := 3;
  CHECK_IF_MINT_IS_RENOUNCED := false; USE_SNIPE_LIST := true; AUTO_SELL := true;
  QUOTE_MINT := "WSOL"; MIN_POOL_SIZE := "0"; quoteAmount := testAmount;
  quoteTokenMint := wsolMint; quoteTokenSymbol := "WSOL"; walletPublicKey := walletKey
|}.

Definition renounceSettings : Settings := {|
  TAKE_PROFIT := 50%float; STOP_LOSS := (-10)%float; MAX_SELL_RETRIES := 3;
  CHECK_IF_MINT_IS_RENOUNCED := true; USE_SNIPE_LIST := false; AUTO_SELL := true;
  QUOTE_MINT := "WSOL"; MIN_POOL_SIZE := "0"; quoteAmount := testAmount;
  quoteTokenMint := wsolMint; quoteTokenSymbol := "WSOL"; walletPublicKey := walletKey
|}.


(** A change of the wallet's account of [mintA], holding 1000 units, in a
    world whose quote-token account is [wsolAccount]. *)
Definition decodeA (_ : Buffer) : result AutoSell.RawAccount :=
  Ok {| AutoSell.rawMint := mintA; AutoSell.rawAmount := 1000 |}.
Definition walletNotification : KeyedAccountInfo := {| accountId := accountA; data := [] |}.
Definition listeningWorld : World :=
  withQuoteTokenAssociatedAddress (Some wsolAccount) (worldWith (positionA None (Some keysA))).

(** A wallet of five million lamports and a fee of five thousand. *)
Definition fundedWallet : SlotHandler.Answers := {|
  SlotHandler.getBalance := Ok 5000000%float;
  SlotHandler.lamportsPerSignature := Ok 5000%float;
  SlotHandler.signedTransfer := Ok tt;
  SlotHandler.sendRawTransaction := Ok "txid"
|}.

(** A wallet that holds less than the fee. *)
Definition emptyWallet : SlotHandler.Answers := {|
  SlotHandler.getBalance := Ok 1000%float;
  SlotHandler.lamportsPerSignature := Ok 5000%float;
  SlotHandler.signedTransfer := Ok tt;
  SlotHandler.sendRawTransaction := Ok "txid"
|}.

Definition slotA : Blockhash := {| blockhash := "hash"; lastValidBlockHeight := 1 |}.

(** Two answers of the price service that differ in the chain only. *)
Definition halfPrice (_ : string) : number := 0.5%float.
Definition ethereumPairs : list PriceLookup.Pair :=
  [ {| PriceLookup.chainId := "ethereum"; PriceLookup.priceNative := "0.5" |} ].
Definition solanaPairs : list PriceLookup.Pair :=
  [ {| PriceLookup.chainId := "solana"; PriceLookup.priceNative := "0.5" |} ].

(** [trim], for text whose white space is ASCII. *)
Definition isSpace (c : Ascii.ascii) : bool :=
  Ascii.eqb c " "%char || Ascii.eqb c "009"%char || Ascii.eqb c "010"%char ||
  Ascii.eqb c "011"%char || Ascii.eqb c "012"%char || Ascii.eqb c "013"%char.

Fixpoint trimStart (s : string) : string :=
  match s with
  | EmptyString => EmptyString
  | String c s' => if isSpace c then trimStart s' else s
  end.

Fixpoint trimEnd (s : string) : string :=
  match s with
  | EmptyString => EmptyString
  | String c s' =>
      match trimEnd s' with
      | EmptyString => if isSpace c then EmptyString else String c EmptyString
      | t => String c t
      end
  end.

Definition asciiTrim (s : string) : string := trimEnd (trimStart s).

(** A .env file of four lines: a comment, two definitions of TAKE_PROFIT
    and one of STOP_LOSS. *)
Definition envLines : list string :=
  ["# thresholds"; "TAKE_PROFIT=10"; "TAKE_PROFIT = 50 "; "STOP_LOSS=5"].

Definition envText : string :=
  "# thresholds" +:+ String "010"%char
  ("TAKE_PROFIT=10" +:+ String "010"%char
  ("TAKE_PROFIT = 50 " +:+ String "010"%char "STOP_LOSS=5")).

End Examples.

(** * Properties *)

(** ** The error monad and strings *)

Lemma bind_Ok_inv {A B} (c : result A) (k : A -> result B) (b : B) :
  bind c k = Ok b -> exists a, c = Ok a /\ k a = Ok b.
Proof. destruct c; cbn; [eauto | discriminate]. Qed.

Ltac bind_inv H :=
  repeat match type of H with
  | bind _ _ = Ok _ =>
      let a := fresh "a" in
      let Ha := fresh "Ha" in
      apply bind_Ok_inv in H; destruct H as (a & Ha & H)
  | (if ?b then _ else _) = Ok _ => destruct b eqn:?
  | Ok _ = Ok _ => injection H as H
  end.

Lemma string_app_assoc (s t u : string) : (s +:+ t) +:+ u = s +:+ (t +:+ u).
Proof.
  induction s as [|c s IH]; [reflexivity|].
  change (String c ((s +:+ t) +:+ u) = String c (s +:+ (t +:+ u))).
  now rewrite IH.
Qed.

(** ** The safety evaluator *)

Section SafetyEvaluator.
Import TradingProtection Spec.

Variable rt : Runtime.
Variables (this : TradingProtection) (connection : Connection) (tokenMint : PublicKey).
Variables (amount : TokenAmount) (expectedPrice : number).

Lemma getAmountInSol_quiet :
  (forall m, info (logger rt) m = Ok tt) ->
  getAmountInSol rt amount = Ok (amountInSolOf amount).
Proof.
  intros Hq. unfold getAmountInSol, getAmountInSol_try. now rewrite !Hq.
Qed.

(** With a logger that returns, the method computes the evaluator of the
    specification on the converted amount and the two looked-up values. *)
Lemma checkTradeSafety_quiet :
  (forall m, info (logger rt) m = Ok tt) ->
  checkTradeSafety rt this connection tokenMint amount expectedPrice =
  Ok (evaluate rt (amountInSolOf amount) (mockLiquidity this) (mockPriceImpact this) this).
Proof.
  intros Hq. unfold checkTradeSafety, checkTradeSafety_try.
  rewrite (getAmountInSol_quiet Hq).
  unfold getTokenLiquidity, getTokenLiquidity_try, calculatePriceImpact,
    calculatePriceImpact_try, evaluate.
  repeat (rewrite ?Hq; cbn [bind try_catch]).
  repeat (match goal with |- context [if ?b then _ else _] => destruct b end;
          repeat (rewrite ?Hq; cbn [bind try_catch]); try reflexivity).
Qed.

Lemma tradeSizeReason_includes (a m : number) :
  includes (tradeSizeReason rt a m) "exceeds maximum allowed".
Proof.
  exists ("Trade size " +:+ numberToString rt a +:+ " SOL "),
         (" " +:+ numberToString rt m +:+ " SOL").
  unfold tradeSizeReason. now rewrite !string_app_assoc.
Qed.

Lemma tradeSizeReason_not_liquidity (a m l n : number) :
  tradeSizeReason rt a m <> liquidityReason rt l n.
Proof. unfold tradeSizeReason, liquidityReason. discriminate. Qed.

Lemma checkTradeSafety_try_shape (res : TradeSafetyResult) :
  checkTradeSafety_try rt this connection tokenMint amount expectedPrice = Ok res ->
  res = accept \/ exists why, res = reject why.
Proof.
  unfold checkTradeSafety_try. intros H. bind_inv H; subst; eauto.
Qed.

Lemma checkTradeSafety_shape (res : TradeSafetyResult) :
  checkTradeSafety rt this connection tokenMint amount expectedPrice = Ok res ->
  res = accept \/ exists why, res = reject why.
Proof.
  unfold checkTradeSafety.
  destruct (checkTradeSafety_try _ _ _ _ _ _) eqn:Hb; cbn [try_catch].
  - intros [= <-]. eauto using checkTradeSafety_try_shape.
  - intros H. bind_inv H; subst; eauto.
Qed.

Lemma getAmountInSol_Ok_inv (x : number) :
  getAmountInSol rt amount = Ok x -> x = amountInSolOf amount.
Proof.
  unfold getAmountInSol, getAmountInSol_try.
  destruct (info (logger rt) _) as [[]|]; cbn [bind try_catch].
  - destruct (info (logger rt) _) as [[]|]; cbn [bind try_catch].
    + now intros [= <-].
    + destruct (error (logger rt) _); discriminate.
  - destruct (error (logger rt) _); discriminate.
Qed.

(** C1.  With a logger that returns, [checkTradeSafety] evaluates the
    trade-size check, then the liquidity check, then the price-impact check,
    and stops at the first one that fails.  In particular, when the size
    bound and the liquidity bound are both violated, the reason returned is
    the trade-size reason: it contains "exceeds maximum allowed" and is not
    the liquidity reason.  Whatever the logger does, a violated size bound
    ends the evaluation before the liquidity lookup: the result is the
    trade-size rejection, or the rejection of the [catch] block when a log
    call raised. *)
Theorem checkTradeSafety_check_order :
  let a := amountInSolOf amount in
  let r := checkTradeSafety rt this connection tokenMint amount expectedPrice in
  ((forall m, info (logger rt) m = Ok tt) ->
   (gt a (maxTradeSize this) = true ->
      r = Ok (reject (tradeSizeReason rt a (maxTradeSize this)))) /\
   (gt a (maxTradeSize this) = false ->
    lt (mockLiquidity this) (minLiquidity this) = true ->
      r = Ok (reject (liquidityReason rt (mockLiquidity this) (minLiquidity this)))) /\
   (gt a (maxTradeSize this) = false ->
    lt (mockLiquidity this) (minLiquidity this) = false ->
    gt (mockPriceImpact this) (maxSlippage this) = true ->
      r = Ok (reject (priceImpactReason rt (mockPriceImpact this) (maxSlippage this)))) /\
   (gt a (maxTradeSize this) = true ->
    lt (mockLiquidity this) (minLiquidity this) = true ->
      exists why, r = Ok (reject why) /\
        includes why "exceeds maximum allowed" /\
        why <> liquidityReason rt (mockLiquidity this) (minLiquidity this))) /\
  (gt a (maxTradeSize this) = true ->
   forall res, r = Ok res ->
     res = reject (tradeSizeReason rt a (maxTradeSize this)) \/ res = reject failedReason).
Proof.
  intros a r. split.
  - intros Hq. subst r. rewrite (checkTradeSafety_quiet Hq). fold a.
    unfold evaluate. repeat split.
    + now intros ->.
    + now intros -> ->.
    + now intros -> -> ->.
    + intros -> _. eexists. split; [reflexivity|].
      split; [apply tradeSizeReason_includes | apply tradeSizeReason_not_liquidity].
  - intros Hsize res. subst r. unfold checkTradeSafety.
    destruct (checkTradeSafety_try _ _ _ _ _ _) as [res0|e] eqn:Hbody; cbn [try_catch].
    + intros [= <-]. left. unfold checkTradeSafety_try in Hbody.
      apply bind_Ok_inv in Hbody as (a0 & Ha0 & Hbody).
      apply getAmountInSol_Ok_inv in Ha0. subst a0. fold a in Hbody.
      apply bind_Ok_inv in Hbody as ([] & _ & Hbody).
      rewrite Hsize in Hbody.
      apply bind_Ok_inv in Hbody as ([] & _ & Hbody). now injection Hbody as <-.
    + intros H. apply bind_Ok_inv in H as ([] & _ & H). right. now injection H as <-.
Qed.

(** C5.  In every result [reason] is present exactly when [safe] is false.
    With a logger that returns, the result is the specification's
    evaluator applied to the converted amount and the looked-up liquidity
    and price impact: [{safe: true}] without a reason when all three checks
    pass, and otherwise a rejection carrying the message of the first
    violated check. *)
Theorem checkTradeSafety_verdict :
  let a := amountInSolOf amount in
  let r := checkTradeSafety rt this connection tokenMint amount expectedPrice in
  (forall res, r = Ok res -> (is_Some (reason res) <-> safe res = false)) /\
  ((forall m, info (logger rt) m = Ok tt) ->
     r = Ok (evaluate rt a (mockLiquidity this) (mockPriceImpact this) this) /\
     (gt a (maxTradeSize this) = false ->
      lt (mockLiquidity this) (minLiquidity this) = false ->
      gt (mockPriceImpact this) (maxSlippage this) = false ->
        r = Ok {| safe := true; reason := None |})).
Proof.
  intros a r. split.
  - intros res H. apply checkTradeSafety_shape in H as [-> | [why ->]]; cbn.
    + split; [intros [? [=]] | discriminate].
    + split; eauto.
  - intros Hq. subst r. rewrite (checkTradeSafety_quiet Hq). fold a.
    split; [reflexivity|]. unfold evaluate. now intros -> -> ->.
Qed.

(** The two lookups absorb what their body raises. *)
Lemma getTokenLiquidity_absorbs (e : exn) :
  (forall m, error (logger rt) m = Ok tt) ->
  getTokenLiquidity_try rt this connection tokenMint = Throw e ->
  getTokenLiquidity rt this connection tokenMint = Ok 0%float.
Proof. intros Hq H. unfold getTokenLiquidity. rewrite H. cbn. now rewrite Hq. Qed.

Lemma calculatePriceImpact_absorbs (e : exn) :
  (forall m, error (logger rt) m = Ok tt) ->
  calculatePriceImpact_try rt this connection tokenMint amount = Throw e ->
  calculatePriceImpact rt this connection tokenMint amount = Ok 100%float.
Proof. intros Hq H. unfold calculatePriceImpact. rewrite H. cbn. now rewrite Hq. Qed.

(** C6, as amended.  Provided the logger's [error] method returns,
    [checkTradeSafety] never propagates an exception.  An exception raised
    by the amount conversion, or by any statement of [checkTradeSafety]'s
    own [try] block, gives the rejection "Failed to check trade safety".
    An exception raised inside the liquidity lookup or the price-impact
    calculation does not reach that handler: the lookup's own handler
    turns it into the value 0, respectively 100, and the checks go on with
    that value.  So, when the log calls of [checkTradeSafety] and of the
    amount conversion return, the result is the evaluator's verdict on the
    converted amount, on the liquidity found (0 when the lookup raised) and
    on the price impact found (100 when the calculation raised), and this
    verdict is never the rejection "Failed to check trade safety". *)
Theorem checkTradeSafety_fault_containment :
  (forall m, error (logger rt) m = Ok tt) ->
  let r := checkTradeSafety rt this connection tokenMint amount expectedPrice in
  let liquidity :=
    match getTokenLiquidity_try rt this connection tokenMint with
    | Ok found => found
    | Throw _ => 0%float
    end in
  let priceImpact :=
    match calculatePriceImpact_try rt this connection tokenMint amount with
    | Ok found => found
    | Throw _ => 100%float
    end in
  (exists res, r = Ok res) /\
  (forall e, getAmountInSol rt amount = Throw e -> r = Ok (reject failedReason)) /\
  (forall e, checkTradeSafety_try rt this connection tokenMint amount expectedPrice = Throw e ->
     r = Ok (reject failedReason)) /\
  (forall e, getTokenLiquidity_try rt this connection tokenMint = Throw e ->
     getTokenLiquidity rt this connection tokenMint = Ok 0%float) /\
  (forall e, calculatePriceImpact_try rt this connection tokenMint amount = Throw e ->
     calculatePriceImpact rt this connection tokenMint amount = Ok 100%float) /\
  ((forall m, String.prefix "Getting token liquidity" m = false ->
              String.prefix "Calculating price impact" m = false ->
              info (logger rt) m = Ok tt) ->
   r = Ok (evaluate rt (amountInSolOf amount) liquidity priceImpact this) /\
   evaluate rt (amountInSolOf amount) liquidity priceImpact this <> reject failedReason).
Proof.
  intros Hq r liquidity priceImpact. subst r.
  assert (Hhandler : forall e,
    checkTradeSafety_try rt this connection tokenMint amount expectedPrice = Throw e ->
    checkTradeSafety rt this connection tokenMint amount expectedPrice =
    Ok (reject failedReason)).
  { intros e H. unfold checkTradeSafety. rewrite H. cbn. now rewrite Hq. }
  split; [| split; [| split; [| split; [| split]]]].
  - unfold checkTradeSafety in *.
    destruct (checkTradeSafety_try _ _ _ _ _ _) eqn:Hb; cbn; [eauto|].
    rewrite Hq. cbn. eauto.
  - intros e H. apply (Hhandler e). unfold checkTradeSafety_try. now rewrite H.
  - exact Hhandler.
  - intros e. now apply getTokenLiquidity_absorbs.
  - intros e. now apply calculatePriceImpact_absorbs.
  - intros Hother. split.
    + subst liquidity priceImpact.
      unfold checkTradeSafety, checkTradeSafety_try, getTokenLiquidity,
        calculatePriceImpact, getAmountInSol, getAmountInSol_try, evaluate.
      fold (amountInSolOf amount).
      repeat (rewrite Hother by reflexivity; cbn [bind try_catch]).
      destruct (gt (amountInSolOf amount) (maxTradeSize this));
        repeat (rewrite Hother by reflexivity; cbn [bind try_catch]); [reflexivity|].
      destruct (getTokenLiquidity_try rt this connection tokenMint) as [found|e];
        cbn [bind try_catch]; rewrite ?Hq; cbn [bind try_catch];
        repeat (rewrite Hother by reflexivity; cbn [bind try_catch]).
      all: match goal with |- context [lt ?l (minLiquidity this)] =>
             destruct (lt l (minLiquidity this)) end;
           repeat (rewrite Hother by reflexivity; cbn [bind try_catch]);
           [reflexivity|].
      all: destruct (calculatePriceImpact_try rt this connection tokenMint amount)
             as [found'|e'];
           cbn [bind try_catch]; rewrite ?Hq; cbn [bind try_catch];
           repeat (rewrite Hother by reflexivity; cbn [bind try_catch]).
      all: match goal with |- context [gt ?i (maxSlippage this)] =>
             destruct (gt i (maxSlippage this)) end;
           repeat (rewrite Hother by reflexivity; cbn [bind try_catch]);
           reflexivity.
    + unfold evaluate.
      repeat match goal with |- context [if ?b then _ else _] => destruct b end;
        unfold accept, reject, tradeSizeReason, liquidityReason, priceImpactReason,
          failedReason; discriminate.
Qed.

(** C9, as amended.  Each setter stores exactly the value it is given,
    whatever that value is, and leaves every other field as it was.  Hence,
    from thresholds that are all strictly positive, the thresholds after a
    set are all strictly positive exactly when the value given is: they
    stay positive for a positive value, and a zero, negative or NaN value
    is stored all the same. *)
Theorem setters_keep_positive (value : number) :
  (maxTradeSize (fst (setMaxTradeSize rt value this)) = value /\
   minLiquidity (fst (setMaxTradeSize rt value this)) = minLiquidity this /\
   maxSlippage (fst (setMaxTradeSize rt value this)) = maxSlippage this /\
   mockLiquidity (fst (setMaxTradeSize rt value this)) = mockLiquidity this /\
   mockPriceImpact (fst (setMaxTradeSize rt value this)) = mockPriceImpact this) /\
  (minLiquidity (fst (setMinLiquidity rt value this)) = value /\
   maxTradeSize (fst (setMinLiquidity rt value this)) = maxTradeSize this /\
   maxSlippage (fst (setMinLiquidity rt value this)) = maxSlippage this /\
   mockLiquidity (fst (setMinLiquidity rt value this)) = mockLiquidity this /\
   mockPriceImpact (fst (setMinLiquidity rt value this)) = mockPriceImpact this) /\
  (maxSlippage (fst (setMaxSlippage rt value this)) = value /\
   maxTradeSize (fst (setMaxSlippage rt value this)) = maxTradeSize this /\
   minLiquidity (fst (setMaxSlippage rt value this)) = minLiquidity this /\
   mockLiquidity (fst (setMaxSlippage rt value this)) = mockLiquidity this /\
   mockPriceImpact (fst (setMaxSlippage rt value this)) = mockPriceImpact this) /\
  (positiveThresholds this = true ->
   positiveThresholds (fst (setMaxTradeSize rt value this)) = gt value 0%float /\
   positiveThresholds (fst (setMinLiquidity rt value this)) = gt value 0%float /\
   positiveThresholds (fst (setMaxSlippage rt value this)) = gt value 0%float).
Proof.
  split; [repeat split|]. split; [repeat split|]. split; [repeat split|].
  unfold positiveThresholds. intros Hpos.
  apply andb_prop in Hpos as [Hpos Hs]. apply andb_prop in Hpos as [Ht Hl].
  cbn [fst setMaxTradeSize setMinLiquidity setMaxSlippage maxTradeSize minLiquidity
       maxSlippage].
  rewrite Ht, Hl, Hs. repeat split.
  - now rewrite !andb_true_r.
  - now rewrite andb_true_r.
Qed.

End SafetyEvaluator.

Section SafetyEvaluatorExamples.
Import TradingProtection Spec Fixtures.

Lemma checkTradeSafety_check_order_witness :
  exists why,
    checkTradeSafety plainRuntime bothViolated solanaConnection testTokenMint testAmount
      1%float = Ok (reject why) /\
    includes why "exceeds maximum allowed" /\
    why <> liquidityReason plainRuntime 1000%float 2000%float.
Proof.
  apply (proj1 (checkTradeSafety_check_order plainRuntime bothViolated solanaConnection
                  testTokenMint testAmount 1%float)); [intros m|..]; reflexivity.
Defined.

(** Scenario 1 of the specification: the defaults accept 0.1 SOL. *)
Lemma checkTradeSafety_verdict_witness :
  checkTradeSafety plainRuntime instance solanaConnection testTokenMint testAmount 1%float
  = Ok {| safe := true; reason := None |}.
Proof.
  apply (checkTradeSafety_verdict plainRuntime instance solanaConnection testTokenMint
           testAmount 1%float); [intros m|..]; reflexivity.
Defined.

(** Scenarios 2 to 5 of the specification, which are the cases of the
    repository's test suite. *)
Example scenario_trade_size :
  exists why,
    checkTradeSafety plainRuntime (fst (setMaxTradeSize plainRuntime 0.05%float instance))
      solanaConnection testTokenMint testAmount 1%float = Ok (reject why) /\
    includes why "exceeds maximum allowed".
Proof.
  eexists. split; [reflexivity|].
  exists "Trade size # SOL ", " # SOL". reflexivity.
Qed.

Example scenario_liquidity :
  exists why,
    checkTradeSafety plainRuntime
      (fst (setMinLiquidity plainRuntime 2000%float
              (fst (setMaxTradeSize plainRuntime 10%float instance))))
      solanaConnection testTokenMint testAmount 1%float = Ok (reject why) /\
    includes why "Insufficient liquidity".
Proof.
  eexists. split; [reflexivity|].
  exists "", ": # SOL < # SOL". reflexivity.
Qed.

Example scenario_price_impact :
  exists why,
    checkTradeSafety plainRuntime
      (fst (setMaxSlippage plainRuntime 0.1%float
              (fst (setMaxTradeSize plainRuntime 10%float instance))))
      solanaConnection testTokenMint testAmount 1%float = Ok (reject why) /\
    includes why "Price impact".
Proof.
  eexists. split; [reflexivity|].
  exists "", " #% exceeds maximum allowed #%". reflexivity.
Qed.

Example scenario_slippage_raised :
  checkTradeSafety plainRuntime
    (fst (setMockPriceImpact plainRuntime 2%float
            (fst (setMaxSlippage plainRuntime 2.5%float
                    (fst (setMaxTradeSize plainRuntime 10%float instance))))))
    solanaConnection testTokenMint testAmount 1%float = Ok accept.
Proof. reflexivity. Qed.

(** C6 as stated fails: the liquidity lookup raises, and the result is the
    liquidity rejection computed from the substituted value 0, not
    "Failed to check trade safety". *)
Lemma lookup_fault_is_not_generic_rejection :
  getTokenLiquidity_try lookupFaultRuntime instance solanaConnection testTokenMint
    = Throw (Error "log transport closed") /\
  checkTradeSafety lookupFaultRuntime instance solanaConnection testTokenMint testAmount
    1%float = Ok (reject (liquidityReason lookupFaultRuntime 0%float 100%float)) /\
  reject (liquidityReason lookupFaultRuntime 0%float 100%float) <> reject failedReason.
Proof. repeat split. discriminate. Qed.

Lemma checkTradeSafety_fault_containment_witness :
  checkTradeSafety lookupFaultRuntime instance solanaConnection testTokenMint testAmount
    1%float = Ok (reject (liquidityReason lookupFaultRuntime 0%float 100%float)) /\
  reject (liquidityReason lookupFaultRuntime 0%float 100%float) <> reject failedReason.
Proof.
  destruct (checkTradeSafety_fault_containment lookupFaultRuntime instance
              solanaConnection testTokenMint testAmount 1%float (fun m => eq_refl))
    as (_ & _ & _ & _ & _ & Hcontinue).
  apply Hcontinue. intros m Hm _. cbn. rewrite Hm. reflexivity.
Defined.

(** C9 as stated fails: [setMaxTradeSize(-1)] stores -1. *)
Lemma setMaxTradeSize_stores_nonpositive :
  positiveThresholds instance = true /\
  maxTradeSize (fst (setMaxTradeSize plainRuntime (-1)%float instance)) = (-1)%float /\
  positiveThresholds (fst (setMaxTradeSize plainRuntime (-1)%float instance)) = false.
Proof. repeat split. Qed.

Lemma setters_keep_positive_witness :
  positiveThresholds (fst (setMaxSlippage plainRuntime 2.5%float instance)) = true.
Proof.
  destruct (setters_keep_positive plainRuntime instance 2.5%float)
    as (_ & _ & _ & Hpositive).
  destruct (Hpositive eq_refl) as (_ & _ & Hslippage). rewrite Hslippage. reflexivity.
Defined.

End SafetyEvaluatorExamples.

(** ** The effects of the main module *)

Ltac unfoldM :=
  unfold bindM, retM, throwM, liftM, gets, modify, call, emit, tryM.

Section Sell.
Import Spec Bot.

Variable rt : Runtime.
Variable chain : Chain.
Variable cfg : Settings.
Variables (accountId0 mint0 : PublicKey) (amount : BigNumberish) (value : number).

Lemma withHistory_withHistory (h h' : list Event) (w : World) :
  withHistory h (withHistory h' w) = withHistory h w.
Proof. reflexivity. Qed.

Lemma withHistory_history (w : World) : withHistory (history w) w = w.
Proof. now destruct w. Qed.

(** A pass of [sell] touches nothing but the history. *)
Lemma sell_try_world (w : World) :
  exists h, snd (sell_try rt chain cfg accountId0 mint0 amount value w) = withHistory h w.
Proof.
  unfold sell_try. unfoldM. cbn.
  repeat match goal with
  | |- context [match ?x with _ => _ end] => destruct x; cbn
  end;
  try (exists (history w); now rewrite withHistory_history); eexists; reflexivity.
Qed.

(** C2.  On a tracked position with resolved pool keys, an amount that is
    not [=== 0] and a recorded acquisition value, if
    [(value - buyValue) / buyValue] is strictly above [STOP_LOSS] and
    strictly below [TAKE_PROFIT], the first pass of [sell] returns false
    and the world is as before: nothing was asked of the SDK or the RPC
    connection. *)
Theorem sell_holds_inside_band (w : World) (tokenAccount : MinimalTokenAccountData)
    (keys : LiquidityPoolKeys) (buyValue0 : number) (fuel : nat) :
  existingTokenAccounts w !! toString mint0 = Some tokenAccount ->
  poolKeys tokenAccount = Some keys ->
  strictEqualsZero amount = false ->
  buyValue tokenAccount = Some buyValue0 ->
  gt ((value - buyValue0) / buyValue0)%float (STOP_LOSS cfg) = true ->
  lt ((value - buyValue0) / buyValue0)%float (TAKE_PROFIT cfg) = true ->
  sell rt chain cfg (S fuel) accountId0 mint0 amount value w = (Some (Ok false), w).
Proof.
  intros Hfound Hkeys Hamount Hbuy Hsl Htp.
  unfold sell. cbn [sell_loop]. unfold sell_try. unfoldM.
  rewrite Hfound, Hkeys, Hamount, Hbuy, Hsl, Htp. reflexivity.
Qed.

(** The passes of the loop when every pass raises. *)
Lemma sell_loop_all_raise (w : World) :
  (forall m, error (logger rt) m = Ok tt) ->
  (forall h, exists e,
     fst (sell_try rt chain cfg accountId0 mint0 amount value (withHistory h w)) = Throw e) ->
  forall (fuel : nat) (retries : Z) (h : list Event),
    fst (sell_loop rt chain cfg fuel accountId0 mint0 amount value retries (withHistory h w)) =
    if (fuel <? Z.to_nat (Z.max 1 (MAX_SELL_RETRIES cfg - retries)))%nat
    then None else Some (Ok true).
Proof.
  intros Hq Hraise fuel. induction fuel as [|fuel IH]; intros retries h.
  - cbn [sell_loop fst]. destruct (Nat.ltb_spec 0 (Z.to_nat (Z.max 1 (MAX_SELL_RETRIES cfg - retries)))); [reflexivity | lia].
  - cbn [sell_loop].
    destruct (Hraise h) as [e He].
    destruct (sell_try_world (withHistory h w)) as [h1 Hw].
    destruct (sell_try _ _ _ _ _ _ _ _) as [r w1]. cbn [fst snd] in He, Hw. subst r w1.
    rewrite Hq, withHistory_withHistory.
    destruct (Z.ltb_spec (retries + 1) (MAX_SELL_RETRIES cfg)) as [Hlt | Hge].
    + rewrite IH.
      replace (Z.to_nat (Z.max 1 (MAX_SELL_RETRIES cfg - retries)))
        with (S (Z.to_nat (Z.max 1 (MAX_SELL_RETRIES cfg - (retries + 1))))) by lia.
      reflexivity.
    + cbn [fst].
      destruct (Nat.ltb_spec (S fuel) (Z.to_nat (Z.max 1 (MAX_SELL_RETRIES cfg - retries))));
        [lia | reflexivity].
Qed.

(** C3.  When every pass of [sell]'s loop ends in the [catch] block (and
    the logger's [error] method returns), the loop runs
    [max 1 MAX_SELL_RETRIES] passes, that is until the retry counter
    reaches [MAX_SELL_RETRIES], and then [sell] returns true: before that
    many passes it is still running, from then on its result is true, and
    it is never an exception. *)
Theorem sell_gives_up_after_retries (w : World) :
  (forall m, error (logger rt) m = Ok tt) ->
  (forall h, exists e,
     fst (sell_try rt chain cfg accountId0 mint0 amount value (withHistory h w)) = Throw e) ->
  forall fuel : nat,
    fst (sell rt chain cfg fuel accountId0 mint0 amount value w) =
    if (fuel <? Z.to_nat (Z.max 1 (MAX_SELL_RETRIES cfg)))%nat
    then None else Some (Ok true).
Proof.
  intros Hq Hraise fuel. unfold sell.
  rewrite <- (withHistory_history w) at 1.
  rewrite (sell_loop_all_raise w Hq Hraise). now rewrite Z.sub_0_r.
Qed.

(** C4, the failing case.  On a tracked position without pool keys, with a
    positive [MAX_SELL_RETRIES] (and a logger whose [warn] returns), the
    [continue] re-tests [retries < MAX_SELL_RETRIES] with [retries] still
    0: however many passes are followed, [sell] has not returned and the
    world has not changed. *)
Theorem sell_spins_without_pool_keys (w : World) (tokenAccount : MinimalTokenAccountData) :
  (forall m, warn (logger rt) m = Ok tt) ->
  existingTokenAccounts w !! toString mint0 = Some tokenAccount ->
  poolKeys tokenAccount = None ->
  0 < MAX_SELL_RETRIES cfg ->
  forall fuel : nat,
    sell rt chain cfg fuel accountId0 mint0 amount value w = (None, w).
Proof.
  intros Hq Hfound Hkeys Hmax fuel. unfold sell.
  induction fuel as [|fuel IH]; [reflexivity|].
  cbn [sell_loop]. unfold sell_try. unfoldM.
  rewrite Hfound, Hkeys, Hq.
  destruct (Z.ltb_spec 0 (MAX_SELL_RETRIES cfg)); [exact IH | lia].
Qed.

(** The cases of C4 that do return: no tracked position, and an amount
    that is the number zero on a position with pool keys. *)
Lemma sell_untracked (w : World) (fuel : nat) :
  existingTokenAccounts w !! toString mint0 = None ->
  sell rt chain cfg (S fuel) accountId0 mint0 amount value w = (Some (Ok true), w).
Proof.
  intros Hfound. unfold sell. cbn [sell_loop]. unfold sell_try. unfoldM.
  now rewrite Hfound.
Qed.

Lemma sell_empty_balance (w : World) (tokenAccount : MinimalTokenAccountData)
    (keys : LiquidityPoolKeys) (fuel : nat) :
  (forall m, info (logger rt) m = Ok tt) ->
  existingTokenAccounts w !! toString mint0 = Some tokenAccount ->
  poolKeys tokenAccount = Some keys ->
  strictEqualsZero amount = true ->
  sell rt chain cfg (S fuel) accountId0 mint0 amount value w = (Some (Ok true), w).
Proof.
  intros Hq Hfound Hkeys Hzero. unfold sell. cbn [sell_loop]. unfold sell_try. unfoldM.
  now rewrite Hfound, Hkeys, Hzero, Hq.
Qed.

Lemma sell_unresolved_no_retries (w : World) (tokenAccount : MinimalTokenAccountData)
    (fuel : nat) :
  (forall m, warn (logger rt) m = Ok tt) ->
  existingTokenAccounts w !! toString mint0 = Some tokenAccount ->
  poolKeys tokenAccount = None ->
  MAX_SELL_RETRIES cfg <= 0 ->
  sell rt chain cfg (S fuel) accountId0 mint0 amount value w = (Some (Ok true), w).
Proof.
  intros Hq Hfound Hkeys Hmax. unfold sell. cbn [sell_loop]. unfold sell_try. unfoldM.
  rewrite Hfound, Hkeys, Hq.
  destruct (Z.ltb_spec 0 (MAX_SELL_RETRIES cfg)); [lia | reflexivity].
Qed.

(** The first half of C10: an undefined [buyValue] ends [sell] with true
    before anything is built. *)
Lemma sell_without_buyValue (w : World) (tokenAccount : MinimalTokenAccountData)
    (keys : LiquidityPoolKeys) (fuel : nat) :
  existingTokenAccounts w !! toString mint0 = Some tokenAccount ->
  poolKeys tokenAccount = Some keys ->
  strictEqualsZero amount = false ->
  buyValue tokenAccount = None ->
  sell rt chain cfg (S fuel) accountId0 mint0 amount value w = (Some (Ok true), w).
Proof.
  intros Hfound Hkeys Hamount Hbuy. unfold sell. cbn [sell_loop]. unfold sell_try. unfoldM.
  now rewrite Hfound, Hkeys, Hamount, Hbuy.
Qed.

End Sell.

Section SellExamples.
Import Spec Bot Fixtures.

(** The scenario of the specification: stop-loss -10, take-profit 50,
    bought at 100 and now worth 105, a net change of +5%. *)
Lemma sell_holds_inside_band_witness :
  sell plainRuntime healthyChain demoSettings 1 accountA mintA (BNbigint 1000)
    105%float (worldWith (positionA (Some 100%float) (Some keysA)))
  = (Some (Ok false), worldWith (positionA (Some 100%float) (Some keysA))).
Proof.
  apply (sell_holds_inside_band plainRuntime healthyChain demoSettings accountA mintA
           (BNbigint 1000) 105%float _ (positionA (Some 100%float) (Some keysA))
           keysA 100%float 0%nat); reflexivity.
Defined.

(** Bought at 100 and now worth 6000: outside the band, and the endpoint
    rejects every submission. *)
Lemma sell_gives_up_after_retries_witness :
  fst (sell plainRuntime rejectingChain demoSettings 3 accountA mintA (BNbigint 1000)
         6000%float (worldWith (positionA (Some 100%float) (Some keysA))))
  = Some (Ok true).
Proof.
  apply (sell_gives_up_after_retries plainRuntime rejectingChain demoSettings accountA
           mintA (BNbigint 1000) 6000%float
           (worldWith (positionA (Some 100%float) (Some keysA)))
           (fun m => eq_refl)
           (fun h => ex_intro _ (Error "503 Service Unavailable") eq_refl) 3%nat).
Defined.

(** A position as [saveTokenAccount] leaves it, three sell retries: after
    a thousand passes [sell] is still in its loop. *)
Lemma sell_spins_without_pool_keys_witness :
  sell plainRuntime healthyChain demoSettings 1000 accountA mintA (BNbigint 1000)
    105%float (worldWith (positionA None None))
  = (None, worldWith (positionA None None)).
Proof.
  apply (sell_spins_without_pool_keys plainRuntime healthyChain demoSettings accountA
           mintA (BNbigint 1000) 105%float _ (positionA None None));
    [intros m; reflexivity | reflexivity | reflexivity | reflexivity].
Defined.

(** The wallet listener passes the balance as a bigint, and [0n === 0] is
    false: with an acquisition value outside the band a zero balance is
    not stopped by the empty-balance check and goes on to the swap. *)
Example sell_bigint_zero_reaches_swap :
  sell plainRuntime healthyChain demoSettings 1 accountA mintA (BNbigint 0) 6000%float
    (worldWith (positionA (Some 100%float) (Some keysA)))
  = (Some (Ok true),
     withHistory
       [MakeSwapFixedInInstruction (BNbigint 0); GetLatestBlockhash; SignTransaction;
        SendRawTransaction false; ConfirmTransaction "signature"]
       (worldWith (positionA (Some 100%float) (Some keysA)))).
Proof. reflexivity. Qed.

End SellExamples.

(** ** Counting requests *)

Section Emits.
Import Spec.

Context {A B : Type}.
Variable p : Event -> bool.

Lemma countEvents_app (h h' : list Event) :
  countEvents p (h ++ h') = (countEvents p h + countEvents p h')%nat.
Proof. unfold countEvents. now rewrite List.filter_app, length_app. Qed.

Lemma emits_weaken (n n' : nat) (c : M A) :
  (n <= n')%nat -> emitsAtMost p n c -> emitsAtMost p n' c.
Proof. intros Hle H w. specialize (H w). lia. Qed.

Lemma emits_ret (a : A) : emitsAtMost p 0 (retM a).
Proof. intros w. cbn. lia. Qed.

Lemma emits_throw (e : exn) : emitsAtMost p 0 (@throwM A e).
Proof. intros w. cbn. lia. Qed.

Lemma emits_lift (r : result A) : emitsAtMost p 0 (liftM r).
Proof. intros w. cbn. lia. Qed.

Lemma emits_gets (f : World -> A) : emitsAtMost p 0 (gets f).
Proof. intros w. cbn. lia. Qed.

Lemma emits_modify (f : World -> World) :
  (forall w, history (f w) = history w) -> emitsAtMost p 0 (modify f).
Proof. intros Hf w. cbn. rewrite Hf. lia. Qed.

Lemma emits_call (ev : Event) (answer : list Event -> result A) :
  emitsAtMost p (if p ev then 1 else 0) (call ev answer).
Proof.
  intros w. cbn [call emit snd history withHistory]. rewrite countEvents_app.
  unfold countEvents at 2. cbn [List.filter]. destruct (p ev); cbn [length]; lia.
Qed.

Lemma emits_emit (ev : Event) : emitsAtMost p (if p ev then 1 else 0) (emit ev).
Proof.
  intros w. cbn [call emit snd history withHistory]. rewrite countEvents_app.
  unfold countEvents at 2. cbn [List.filter]. destruct (p ev); cbn [length]; lia.
Qed.

Lemma emits_bind (n n' : nat) (c : M A) (k : A -> M B) :
  emitsAtMost p n c -> (forall a, emitsAtMost p n' (k a)) ->
  emitsAtMost p (n + n') (bindM c k).
Proof.
  intros Hc Hk w. unfold bindM. specialize (Hc w).
  destruct (c w) as [[a|e] w']; cbn [snd] in *.
  - specialize (Hk a w'). lia.
  - lia.
Qed.

Lemma emits_try (n n' : nat) (c : M A) (handler : exn -> M A) :
  emitsAtMost p n c -> (forall e, emitsAtMost p n' (handler e)) ->
  emitsAtMost p (n + n') (tryM c handler).
Proof.
  intros Hc Hk w. unfold tryM. specialize (Hc w).
  destruct (c w) as [[a|e] w']; cbn [snd] in *.
  - lia.
  - specialize (Hk e w'). lia.
Qed.

End Emits.

Section Retry.
Import Spec Utils.

Context {A : Type}.
Variable fn : M A.

(** The equation [retry] has in the source. *)
Lemma retry_unfold (retries retryIntervalMs : Z) :
  retry fn retries retryIntervalMs =
  tryM fn (fun e =>
    if retries <=? 0 then throwM e
    else sleep retryIntervalMs ;;> retry fn (retries - 1) retryIntervalMs).
Proof.
  unfold retry. destruct (Z.leb_spec retries 0) as [Hle | Hgt].
  - replace (Z.to_nat retries) with 0%nat by lia. reflexivity.
  - replace (Z.to_nat retries) with (S (Z.to_nat (retries - 1))) by lia. reflexivity.
Qed.

End Retry.

Section RetrySchedule.
Import Spec Utils Traces.

Context {A : Type}.
Variables (ev : Event) (answer : list Event -> result A) (ms : Z).

Lemma failedAttempts_shift (h : list Event) (i : nat) :
  ((h ++ [ev]) ++ [SetTimeout ms]) ++ failedAttempts ev ms i =
  h ++ failedAttempts ev ms (S i).
Proof. cbn [failedAttempts]. now rewrite <- !app_assoc. Qed.

Lemma retry_left_trace (n : nat) :
  forall (k : nat) (w : World) (r : result A),
    (k <= n)%nat ->
    (forall i, (i < k)%nat -> isThrow (answer (history w ++ failedAttempts ev ms i))) ->
    answer (history w ++ failedAttempts ev ms k) = r ->
    ((k < n)%nat -> exists a, r = Ok a) ->
    retry_left (call ev answer) n ms w =
    (r, withHistory (history w ++ failedAttempts ev ms k ++ [ev]) w).
Proof.
  induction n as [|n IH]; intros k w r Hk Hfail Hlast Hok.
  - assert (k = 0)%nat as -> by lia. cbn [failedAttempts] in *.
    rewrite app_nil_r in Hlast. cbn [retry_left]. unfold tryM, call, throwM.
    rewrite Hlast. now destruct r.
  - destruct k as [|k].
    + cbn [failedAttempts] in *. rewrite app_nil_r in Hlast.
      destruct Hok as [a ->]; [lia|]. cbn [retry_left]. unfold tryM, call.
      now rewrite Hlast.
    + destruct (Hfail 0%nat) as [e He]; [lia|]. cbn [failedAttempts] in He.
      rewrite app_nil_r in He.
      cbn [retry_left]. unfold tryM at 1, call at 1. rewrite He.
      unfold sleep, bindM at 1, emit. cbn [history withHistory].
      rewrite (IH k _ r).
      * unfold withHistory. cbn. now rewrite <- !app_assoc.
      * lia.
      * intros i Hi. cbn [history withHistory]. rewrite failedAttempts_shift.
        apply Hfail. lia.
      * cbn [history withHistory]. now rewrite failedAttempts_shift.
      * intros Hlt. apply Hok. lia.
Qed.

End RetrySchedule.

(** ** [buy]: submission and confirmation *)

Section EmitsZero.
Import Spec.

Context {A B : Type}.
Variable p : Event -> bool.

Lemma emits_zero (n : nat) (c : M A) : emitsAtMost p 0 c -> emitsAtMost p n c.
Proof. apply emits_weaken. lia. Qed.

Lemma emits_bind0 (n : nat) (c : M A) (k : A -> M B) :
  emitsAtMost p 0 c -> (forall a, emitsAtMost p n (k a)) -> emitsAtMost p n (bindM c k).
Proof. intros Hc Hk. exact (emits_bind p 0 n c k Hc Hk). Qed.

Lemma emits_try0 (n : nat) (c : M A) (handler : exn -> M A) :
  emitsAtMost p n c -> (forall e, emitsAtMost p 0 (handler e)) ->
  emitsAtMost p n (tryM c handler).
Proof.
  intros Hc Hk. apply (emits_weaken p (n + 0)); [lia|]. now apply emits_try.
Qed.

Lemma emits_call_other (n : nat) (ev : Event) (answer : list Event -> result A) :
  p ev = false -> emitsAtMost p n (call ev answer).
Proof.
  intros Hp. apply emits_zero. generalize (emits_call p ev answer). now rewrite Hp.
Qed.

End EmitsZero.

(** Steps through a computation whose last part may spend the budget. *)
Ltac emits_step :=
  lazymatch goal with
  | |- Spec.emitsAtMost _ _ (retM _) => apply emits_zero, emits_ret
  | |- Spec.emitsAtMost _ _ (throwM _) => apply emits_zero, emits_throw
  | |- Spec.emitsAtMost _ _ (liftM _) => apply emits_zero, emits_lift
  | |- Spec.emitsAtMost _ _ (gets _) => apply emits_zero, emits_gets
  | |- Spec.emitsAtMost _ _ (modify _) =>
      apply emits_zero, emits_modify; intros ?; reflexivity
  | |- Spec.emitsAtMost _ _ (call _ _) => apply emits_call_other; reflexivity
  | |- Spec.emitsAtMost _ _ (bindM _ _) => apply emits_bind0; [| intros ?]
  | |- Spec.emitsAtMost _ _ (tryM _ _) => apply emits_try0; [| intros ?]
  | |- Spec.emitsAtMost _ _ (match ?x with _ => _ end) => destruct x
  end.

Section Buy.
Import Spec Bot Utils Traces.

Variable rt : Runtime.
Variable chain : Chain.
Variable cfg : Settings.
Variable tradingProtection : TradingProtection.TradingProtection.

(** How the body of [buy] reaches the submission: the mint is tracked
    with its market, the safety check accepts, and the swap instruction,
    the blockhash and the signature are obtained. *)
Lemma buy_try_reaches_submit (accountId0 : PublicKey) (accountData : LiquidityStateV4)
    (w : World) (tokenAccount : MinimalTokenAccountData) (market0 : MinimalMarketLayoutV3)
    (res : TradingProtection.TradeSafetyResult) (latestBlockhash : Blockhash) :
  existingTokenAccounts w !! toString (baseMint accountData) = Some tokenAccount ->
  market tokenAccount = Some market0 ->
  TradingProtection.checkTradeSafety rt tradingProtection solanaConnection
    (baseMint accountData) (quoteAmount cfg) 0%float = Ok res ->
  TradingProtection.safe res = true ->
  makeSwapFixedInInstruction chain (history w) = Ok tt ->
  getLatestBlockhash chain
    (history w ++ [MakeSwapFixedInInstruction (BNbigint (raw (quoteAmount cfg)))])
    = Ok latestBlockhash ->
  signTransaction chain
    ((history w ++ [MakeSwapFixedInInstruction (BNbigint (raw (quoteAmount cfg)))]) ++
     [GetLatestBlockhash]) = Ok tt ->
  buy_try rt chain cfg tradingProtection accountId0 accountData w =
  buy_submit rt chain latestBlockhash
    (withHistory
       (((history w ++ [MakeSwapFixedInInstruction (BNbigint (raw (quoteAmount cfg)))]) ++
         [GetLatestBlockhash]) ++ [SignTransaction])
       (withTokenAccounts
          (alter (withPoolKeys (Liquidity.createPoolKeys accountId0 accountData market0))
             (toString (baseMint accountData)) (existingTokenAccounts w)) w)).
Proof.
  intros Hfound Hmarket Hcheck Hsafe Hswap Hhash Hsign.
  unfold buy_try, assignPoolKeys. unfoldM.
  rewrite Hfound, Hcheck, Hsafe, Hmarket. cbn [negb history withHistory withTokenAccounts].
  now rewrite Hswap, Hhash, Hsign.
Qed.

(** The two ways the body of [buy] finds the entry it works on: the mint
    is tracked already, or its market account is fetched and decoded and
    the mint is tracked then.  [lookup] is what was asked for on the way
    and [accounts] the position map afterwards. *)
Lemma buy_try_prepared (accountId0 : PublicKey) (accountData : LiquidityStateV4)
    (w : World) (entry : MinimalTokenAccountData) (lookup : list Event)
    (accounts : gmap string MinimalTokenAccountData) (market0 : MinimalMarketLayoutV3)
    (res : TradingProtection.TradeSafetyResult) (latestBlockhash : Blockhash) :
  (existingTokenAccounts w !! toString (baseMint accountData) = Some entry /\
   lookup = [] /\ accounts = existingTokenAccounts w) \/
  (existingTokenAccounts w !! toString (baseMint accountData) = None /\
   exists marketData decoded,
     getAccountInfo chain (history w) (marketId accountData) = Ok (Some marketData) /\
     decodeMarketState chain marketData = Ok decoded /\
     entry = {| mint := baseMint accountData;
                address := getAssociatedTokenAddressSync chain (baseMint accountData)
                             (walletPublicKey cfg);
                buyValue := None; poolKeys := None;
                market := Some {| bids := bids decoded; asks := asks decoded;
                                  eventQueue := eventQueue decoded;
                                  marketBaseMint := None |} |} /\
     lookup = [GetAccountInfo (marketId accountData)] /\
     accounts = <[toString (baseMint accountData) := entry]> (existingTokenAccounts w)) ->
  market entry = Some market0 ->
  TradingProtection.checkTradeSafety rt tradingProtection solanaConnection
    (baseMint accountData) (quoteAmount cfg) 0%float = Ok res ->
  TradingProtection.safe res = true ->
  makeSwapFixedInInstruction chain (history w ++ lookup) = Ok tt ->
  getLatestBlockhash chain
    (history w ++ lookup ++ [MakeSwapFixedInInstruction (BNbigint (raw (quoteAmount cfg)))])
    = Ok latestBlockhash ->
  signTransaction chain
    (history w ++ lookup ++ [MakeSwapFixedInInstruction (BNbigint (raw (quoteAmount cfg)));
                             GetLatestBlockhash]) = Ok tt ->
  buy_try rt chain cfg tradingProtection accountId0 accountData w =
  buy_submit rt chain latestBlockhash
    (withHistory
       (history w ++ lookup ++ [MakeSwapFixedInInstruction (BNbigint (raw (quoteAmount cfg)));
                                GetLatestBlockhash; SignTransaction])
       (withTokenAccounts
          (alter (withPoolKeys (Liquidity.createPoolKeys accountId0 accountData market0))
             (toString (baseMint accountData)) accounts) w)).
Proof.
  intros [(Hfound & -> & ->) |
          (Hfound & marketData & decoded & Hinfo & Hdecode & -> & -> & ->)]
    Hmarket Hcheck Hsafe Hswap Hhash Hsign.
  - cbn [app] in *. rewrite app_nil_r in Hswap.
    rewrite (buy_try_reaches_submit accountId0 accountData w entry market0 res
               latestBlockhash Hfound Hmarket Hcheck Hsafe Hswap Hhash).
    + now rewrite <- !app_assoc.
    + now rewrite <- app_assoc.
  - cbn [market] in Hmarket. injection Hmarket as <-.
    unfold buy_try, Market.getMinimalMarketV3, saveTokenAccount, setTokenAccount,
      assignPoolKeys. unfoldM.
    rewrite Hfound, Hinfo, Hdecode. cbn [history withHistory withTokenAccounts market].
    rewrite Hcheck, Hsafe. cbn [negb history withHistory withTokenAccounts].
    rewrite Hswap. cbn [history withHistory withTokenAccounts].
    rewrite <- !app_assoc. cbn [app] in *. rewrite Hhash, Hsign.
    reflexivity.
Qed.

(** [retry] sets at most one timer per retry. *)
Lemma retry_left_emits_delays {A} (p : Event -> bool) (fn : M A) (n t left : nat)
    (retryIntervalMs : Z) :
  emitsAtMost p n fn ->
  emitsAtMost p t (sleep retryIntervalMs) ->
  emitsAtMost p (S left * n + left * t) (retry_left fn left retryIntervalMs).
Proof.
  intros Hfn Hsleep. induction left as [|left IH]; cbn [retry_left].
  - apply (emits_weaken p (n + 0)); [lia|].
    apply emits_try; [exact Hfn | intros e; apply emits_throw].
  - apply (emits_weaken p (n + (t + (S left * n + left * t)))); [lia|].
    apply emits_try; [exact Hfn | intros e].
    apply emits_bind; [exact Hsleep | intros _; exact IH].
Qed.

(** The requests of the part of [buy] from the [retry] call on, counted
    by kind. *)
Lemma buy_submit_emits_kind (p : Event -> bool) (c : nat) (latestBlockhash : Blockhash) :
  (forall signature, (Nat.b2n (p (ConfirmTransaction signature)) <= c)%nat) ->
  emitsAtMost p
    (4 * Nat.b2n (p (SendRawTransaction true)) + 3 * Nat.b2n (p (SetTimeout 1000)) + c)
    (buy_submit rt chain latestBlockhash).
Proof.
  intros Hc. unfold buy_submit.
  apply emits_bind.
  - apply (retry_left_emits_delays p _ _ _ 3 1000).
    + exact (emits_call p (SendRawTransaction true) (sendRawTransaction chain)).
    + exact (emits_emit p (SetTimeout 1000)).
  - intros signature.
    apply emits_bind0; [apply emits_lift | intros _].
    apply (emits_weaken p (Nat.b2n (p (ConfirmTransaction signature)) + 0)).
    { specialize (Hc signature). lia. }
    apply emits_bind.
    + exact (emits_call p (ConfirmTransaction signature) _).
    + intros confirmation. destruct confirmation; [apply emits_throw | apply emits_lift].
Qed.

(** The requests of [buy], counted by kind. *)
Lemma buy_emits_kind (p : Event -> bool) (n : nat) (accountId0 : PublicKey)
    (accountData : LiquidityStateV4) :
  (forall latestBlockhash, emitsAtMost p n (buy_submit rt chain latestBlockhash)) ->
  emitsAtMost p
    (Nat.b2n (p (GetAccountInfo (marketId accountData))) +
     (Nat.b2n (p (MakeSwapFixedInInstruction (BNbigint (raw (quoteAmount cfg))))) +
      (Nat.b2n (p GetLatestBlockhash) + (Nat.b2n (p SignTransaction) + n))))
    (buy rt chain cfg tradingProtection accountId0 accountData).
Proof.
  intros Hsubmit.
  unfold buy, buy_try, saveTokenAccount, setTokenAccount, assignPoolKeys,
    Market.getMinimalMarketV3.
  apply emits_try0; [| intros e; repeat emits_step].
  apply emits_bind0; [emits_step | intros found].
  apply emits_bind.
  { destruct found; [apply emits_zero, emits_ret|].
    apply (emits_weaken p (Nat.b2n (p (GetAccountInfo (marketId accountData))) + 0));
      [lia|].
    apply emits_bind; [| intros market0; apply emits_bind0; [| intros ?]; repeat emits_step].
    apply (emits_weaken p (Nat.b2n (p (GetAccountInfo (marketId accountData))) + 0));
      [lia|].
    apply emits_bind; [apply emits_call | intros marketInfo].
    destruct marketInfo; [| apply emits_throw].
    apply emits_bind0; [apply emits_lift | intros ?]. apply emits_ret. }
  intros tokenAccount.
  apply emits_bind0; [emits_step | intros safetyCheck].
  destruct (negb _); [emits_step|].
  destruct (market tokenAccount); [| emits_step].
  apply emits_bind0; [emits_step | intros _].
  apply emits_bind; [apply emits_call | intros _].
  apply emits_bind; [apply emits_call | intros latestBlockhash].
  apply emits_bind; [apply emits_call | intros _].
  apply Hsubmit.
Qed.

(** C8, as amended.  In every run of [buy] only the submission is
    repeated: [sendRawTransaction] is called at most four times (one
    attempt and at most three retries), at most three timers are set, and
    every other request, the confirmation included, is made at most once.
    For a run that reaches the submission (the mint is tracked with its
    market, or its market account is fetched and decoded; the safety check
    accepts; the swap instruction, the blockhash and the signature are
    obtained), let [k] attempts fail before the attempt that ends the
    retries.  Each failed attempt is followed by a timer of 1000 ms and
    the next attempt.  When the last attempt fails too, which takes four
    attempts, [buy] raises to its caller and no confirmation was asked
    for.  When it succeeds and the confirmation then reports an error or
    raises, [buy] raises to its caller after that single confirmation
    request, and nothing is submitted again. *)
Theorem buy_retries_submission_only (accountId0 : PublicKey)
    (accountData : LiquidityStateV4) (w : World) :
  let run := buy rt chain cfg tradingProtection accountId0 accountData w in
  let attempt := SendRawTransaction true in
  ((sends (history (snd run)) <= sends (history w) + 4)%nat /\
   (countEvents isDelay (history (snd run)) <= countEvents isDelay (history w) + 3)%nat /\
   (confirms (history (snd run)) <= confirms (history w) + 1)%nat /\
   (forall ev, isSend ev = false -> isDelay ev = false ->
      (countEvents (sameKind ev) (history (snd run)) <=
       countEvents (sameKind ev) (history w) + 1)%nat)) /\
  (forall (entry : MinimalTokenAccountData) (lookup : list Event)
          (accounts : gmap string MinimalTokenAccountData)
          (market0 : MinimalMarketLayoutV3)
          (res : TradingProtection.TradeSafetyResult) (latestBlockhash : Blockhash)
          (k : nat) (outcome : result string),
     let prepared :=
       history w ++ lookup ++
       [MakeSwapFixedInInstruction (BNbigint (raw (quoteAmount cfg)));
        GetLatestBlockhash; SignTransaction] in
     let tracked :=
       withTokenAccounts
         (alter (withPoolKeys (Liquidity.createPoolKeys accountId0 accountData market0))
            (toString (baseMint accountData)) accounts) w in
     (existingTokenAccounts w !! toString (baseMint accountData) = Some entry /\
      lookup = [] /\ accounts = existingTokenAccounts w) \/
     (existingTokenAccounts w !! toString (baseMint accountData) = None /\
      exists marketData decoded,
        getAccountInfo chain (history w) (marketId accountData) = Ok (Some marketData) /\
        decodeMarketState chain marketData = Ok decoded /\
        entry = {| mint := baseMint accountData;
                   address := getAssociatedTokenAddressSync chain (baseMint accountData)
                                (walletPublicKey cfg);
                   buyValue := None; poolKeys := None;
                   market := Some {| bids := bids decoded; asks := asks decoded;
                                     eventQueue := eventQueue decoded;
                                     marketBaseMint := None |} |} /\
        lookup = [GetAccountInfo (marketId accountData)] /\
        accounts = <[toString (baseMint accountData) := entry]>
                     (existingTokenAccounts w)) ->
     market entry = Some market0 ->
     TradingProtection.checkTradeSafety rt tradingProtection solanaConnection
       (baseMint accountData) (quoteAmount cfg) 0%float = Ok res ->
     TradingProtection.safe res = true ->
     makeSwapFixedInInstruction chain (history w ++ lookup) = Ok tt ->
     getLatestBlockhash chain
       (history w ++ lookup ++
        [MakeSwapFixedInInstruction (BNbigint (raw (quoteAmount cfg)))])
       = Ok latestBlockhash ->
     signTransaction chain
       (history w ++ lookup ++
        [MakeSwapFixedInInstruction (BNbigint (raw (quoteAmount cfg)));
         GetLatestBlockhash]) = Ok tt ->
     (k <= 3)%nat ->
     (forall i, (i < k)%nat ->
        isThrow (sendRawTransaction chain (prepared ++ failedAttempts attempt 1000 i))) ->
     sendRawTransaction chain (prepared ++ failedAttempts attempt 1000 k) = outcome ->
     ((k < 3)%nat -> exists signature, outcome = Ok signature) ->
     (forall e, outcome = Throw e ->
        k = 3%nat /\
        exists e',
          run = (Throw e',
                 withHistory (prepared ++ failedAttempts attempt 1000 k ++ [attempt])
                   tracked)) /\
     (forall signature, outcome = Ok signature ->
        (forall m, info (logger rt) m = Ok tt) ->
        confirmTransaction chain
          (prepared ++ failedAttempts attempt 1000 k ++ [attempt]) signature <> Ok None ->
        exists e',
          run = (Throw e',
                 withHistory (prepared ++ failedAttempts attempt 1000 k ++
                              [attempt; ConfirmTransaction signature]) tracked))).
Proof.
  intros run attempt. subst run attempt. split.
  - split; [| split; [| split]].
    + apply (emits_weaken isSend (0 + (0 + (0 + (0 + (4 * 1 + 3 * 0 + 0)))))); [lia|].
      apply (buy_emits_kind isSend). intros latestBlockhash.
      apply (buy_submit_emits_kind isSend 0).
      intros signature. cbn. lia.
    + apply (emits_weaken isDelay (0 + (0 + (0 + (0 + (4 * 0 + 3 * 1 + 0)))))); [lia|].
      apply (buy_emits_kind isDelay). intros latestBlockhash.
      apply (buy_submit_emits_kind isDelay 0).
      intros signature. cbn. lia.
    + apply (emits_weaken isConfirm (0 + (0 + (0 + (0 + (4 * 0 + 3 * 0 + 1)))))); [lia|].
      apply (buy_emits_kind isConfirm). intros latestBlockhash.
      apply (buy_submit_emits_kind isConfirm 1).
      intros signature. cbn. lia.
    + intros ev Hsend Hdelay.
      pose proof (buy_emits_kind (sameKind ev) _ accountId0 accountData
                    (fun latestBlockhash =>
                       buy_submit_emits_kind (sameKind ev)
                         (Nat.b2n (sameKind ev (ConfirmTransaction EmptyString)))
                         latestBlockhash
                         ltac:(intros signature; destruct ev; cbn; lia))) as Hkind.
      specialize (Hkind w). revert Hkind.
      destruct ev; try discriminate; cbn [sameKind Nat.b2n]; lia.
  - intros entry lookup accounts market0 res latestBlockhash k outcome prepared tracked
      Hentry Hmarket Hcheck Hsafe Hswap Hhash Hsign Hk Hfail Hlast Hok.
    assert (Hbody :
      buy_try rt chain cfg tradingProtection accountId0 accountData w =
      buy_submit rt chain latestBlockhash (withHistory prepared tracked)).
    { exact (buy_try_prepared accountId0 accountData w entry lookup accounts market0 res
               latestBlockhash Hentry Hmarket Hcheck Hsafe Hswap Hhash Hsign). }
    assert (Hretry :
      retry (call (SendRawTransaction true) (sendRawTransaction chain)) 3 1000
        (withHistory prepared tracked) =
      (outcome,
       withHistory (prepared ++ failedAttempts (SendRawTransaction true) 1000 k ++
                    [SendRawTransaction true]) tracked)).
    { unfold retry. change (Z.to_nat 3) with 3%nat.
      rewrite (retry_left_trace (SendRawTransaction true) (sendRawTransaction chain) 1000
                 3 k (withHistory prepared tracked) outcome Hk); try assumption.
      reflexivity. }
    split.
    + intros e ->. split.
      * destruct (Nat.lt_ge_cases k 3) as [Hlt | Hge]; [| lia].
        destruct (Hok Hlt) as [signature Hsig]. discriminate.
      * unfold buy, tryM. rewrite Hbody. unfold buy_submit, bindM at 1.
        rewrite Hretry. unfoldM. destruct (error (logger rt) _); eauto.
    + intros signature -> Hq Hfailed.
      unfold buy, tryM. rewrite Hbody. unfold buy_submit, bindM at 1.
      rewrite Hretry. unfoldM. rewrite Hq. cbn [history withHistory].
      destruct (confirmTransaction chain _ signature) as [[err|]|e];
        [| contradiction |];
        destruct (error (logger rt) _); eexists; f_equal; unfold withHistory; cbn;
        now rewrite <- !app_assoc.
Qed.

End Buy.

Section BuyExamples.
Import Spec Bot Utils Fixtures.

(** C8 as stated fails: on an endpoint that rejects every submission,
    [buy] of a tracked mint that passes the safety check submits four
    times, not three, and then raises. *)
Lemma buy_submits_four_times :
  sends (history (snd (buy plainRuntime rejectingChain demoSettings
                         TradingProtection.instance poolA poolStateA
                         (worldWith (positionA None None))))) = 4%nat /\
  fst (buy plainRuntime rejectingChain demoSettings TradingProtection.instance
         poolA poolStateA (worldWith (positionA None None)))
  = Throw (Error "503 Service Unavailable").
Proof. split; vm_compute; reflexivity. Qed.

(** A confirmation that reports an error, for a mint that was not tracked
    yet: one submission, one confirmation request, and [buy] raises. *)
Example buy_raises_on_failed_confirmation :
  fst (buy plainRuntime Examples.failingChain demoSettings TradingProtection.instance
         poolA poolStateA initialWorld)
  = Throw (Error "Transaction failed: InstructionError") /\
  history (snd (buy plainRuntime Examples.failingChain demoSettings
                  TradingProtection.instance poolA poolStateA initialWorld))
  = [GetAccountInfo marketA; MakeSwapFixedInInstruction (BNbigint 100000000);
     GetLatestBlockhash; SignTransaction; SendRawTransaction true;
     ConfirmTransaction "signature"].
Proof. split; vm_compute; reflexivity. Qed.

Lemma buy_retries_submission_only_witness :
  exists e,
    buy plainRuntime rejectingChain demoSettings TradingProtection.instance poolA poolStateA
      (worldWith (positionA None None)) =
    (Throw e,
     withHistory
       [MakeSwapFixedInInstruction (BNbigint 100000000); GetLatestBlockhash;
        SignTransaction;
        SendRawTransaction true; SetTimeout 1000;
        SendRawTransaction true; SetTimeout 1000;
        SendRawTransaction true; SetTimeout 1000;
        SendRawTransaction true]
       (withTokenAccounts
          (alter (withPoolKeys keysA) "MintA"
             (existingTokenAccounts (worldWith (positionA None None))))
          (worldWith (positionA None None)))).
Proof.
  destruct (buy_retries_submission_only plainRuntime rejectingChain demoSettings
              TradingProtection.instance poolA poolStateA
              (worldWith (positionA None None))) as [_ Hsubmission].
  destruct (Hsubmission (positionA None None) []
              (existingTokenAccounts (worldWith (positionA None None))) marketOfA
              TradingProtection.accept
              {| blockhash := "hash"; lastValidBlockHeight := 1 |} 3%nat
              (Throw (Error "503 Service Unavailable"))) as [Hexhausted _];
    try reflexivity; try lia.
  - left. repeat split.
  - intros i _. eexists. reflexivity.
  - destruct (Hexhausted (Error "503 Service Unavailable") eq_refl) as [_ Hraised].
    exact Hraised.
Defined.

End BuyExamples.

(** ** What the operations of the main module preserve *)

Section Preserves.
Import Spec.

Context {A B : Type}.
Variable P : World -> Prop.

Lemma pres_ret (a : A) : preservesM P (retM a).
Proof. now intros w. Qed.

Lemma pres_throw (e : exn) : preservesM P (@throwM A e).
Proof. now intros w. Qed.

Lemma pres_lift (r : result A) : preservesM P (liftM r).
Proof. now intros w. Qed.

Lemma pres_gets (f : World -> A) : preservesM P (gets f).
Proof. now intros w. Qed.

Lemma pres_modify (f : World -> World) :
  (forall w, P w -> P (f w)) -> preservesM P (modify f).
Proof. intros Hf w. apply Hf. Qed.

Lemma pres_call (ev : Event) (answer : list Event -> result A) :
  (forall w, P w -> P (withHistory (history w ++ [ev]) w)) ->
  preservesM P (call ev answer).
Proof. intros Hev w. apply Hev. Qed.

Lemma pres_emit (ev : Event) :
  (forall w, P w -> P (withHistory (history w ++ [ev]) w)) ->
  preservesM P (emit ev).
Proof. intros Hev w. apply Hev. Qed.

Lemma pres_bind (c : M A) (k : A -> M B) :
  preservesM P c -> (forall a, preservesM P (k a)) -> preservesM P (bindM c k).
Proof.
  intros Hc Hk w Hw. unfold bindM. specialize (Hc w Hw).
  destruct (c w) as [[a|e] w']; cbn [snd] in *; [now apply Hk | exact Hc].
Qed.

Lemma pres_try (c : M A) (handler : exn -> M A) :
  preservesM P c -> (forall e, preservesM P (handler e)) -> preservesM P (tryM c handler).
Proof.
  intros Hc Hk w Hw. unfold tryM. specialize (Hc w Hw).
  destruct (c w) as [[a|e] w']; cbn [snd] in *; [exact Hc | now apply Hk].
Qed.

End Preserves.

Ltac pres_step HF :=
  lazymatch goal with
  | |- Spec.preservesM _ (retM _) => apply pres_ret
  | |- Spec.preservesM _ (throwM _) => apply pres_throw
  | |- Spec.preservesM _ (liftM _) => apply pres_lift
  | |- Spec.preservesM _ (gets _) => apply pres_gets
  | |- Spec.preservesM _ (call _ _) =>
      apply pres_call; intros ? ?; apply (Spec.frame_history _ HF); [reflexivity | assumption]
  | |- Spec.preservesM _ (emit (SetTimeout _)) =>
      apply pres_emit; intros ? ?; apply (Spec.frame_history _ HF); [reflexivity | assumption]
  | |- Spec.preservesM _ (modify (withQuoteTokenAssociatedAddress _)) =>
      apply pres_modify; intros ? ?; now apply (Spec.frame_quote _ HF)
  | |- Spec.preservesM _ (modify (withSnipeList _)) =>
      apply pres_modify; intros ? ?; now apply (Spec.frame_snipe _ HF)
  | |- Spec.preservesM _ (Bot.setTokenAccount _ _) =>
      apply pres_modify; intros ? ?; apply (Spec.frame_set _ HF); [reflexivity | assumption]
  | |- Spec.preservesM _ (Bot.assignPoolKeys _ _) =>
      apply pres_modify; intros ? ?; now apply (Spec.frame_keys _ HF)
  | |- Spec.preservesM _ (bindM _ _) => apply pres_bind; [| intros ?]
  | |- Spec.preservesM _ (tryM _ _) => apply pres_try; [| intros ?]
  | |- Spec.preservesM _ (match ?x with _ => _ end) => destruct x
  end.

Section Framed.
Import Spec Bot Utils.

Variable rt : Runtime.
Variable chain : Chain.
Variable cfg : Settings.
Variable P : World -> Prop.
Hypothesis HF : Frame P.

Lemma init_register_preserves (tokenAccounts : list TokenAccount) :
  preservesM P (init_register tokenAccounts).
Proof.
  induction tokenAccounts as [|ta rest IH]; cbn [init_register]; [apply pres_ret|].
  apply pres_bind; [pres_step HF | intros _; exact IH].
Qed.

Lemma loadSnipeList_preserves (fileLines : result (list string)) :
  preservesM P (loadSnipeList cfg fileLines).
Proof. unfold loadSnipeList. repeat pres_step HF. Qed.

Lemma init_preserves (fileLines : result (list string)) :
  preservesM P (init rt chain cfg fileLines).
Proof.
  unfold init, Liquidity.getTokenAccounts.
  apply pres_try; [| intros e; repeat pres_step HF].
  apply pres_bind; [repeat pres_step HF | intros _].
  apply pres_bind; [pres_step HF | intros tokenAccounts].
  apply pres_bind; [apply init_register_preserves | intros _].
  destruct (find _ _); [| pres_step HF].
  apply pres_bind; [pres_step HF | intros _].
  apply pres_bind; [apply loadSnipeList_preserves | intros _; pres_step HF].
Qed.

Lemma saveTokenAccount_preserves (mint0 : PublicKey) (accountData : MinimalMarketLayoutV3) :
  preservesM P (saveTokenAccount chain cfg mint0 accountData).
Proof. unfold saveTokenAccount. repeat pres_step HF. Qed.

Lemma processOpenBookMarket_preserves (updatedAccountInfo : KeyedAccountInfo) :
  preservesM P (processOpenBookMarket rt chain cfg updatedAccountInfo).
Proof.
  unfold processOpenBookMarket.
  apply pres_try; [| intros e; pres_step HF].
  apply pres_bind; [pres_step HF | intros decoded].
  destruct (marketBaseMint decoded); [| pres_step HF].
  apply pres_bind; [pres_step HF | intros known].
  destruct known; [pres_step HF|].
  apply pres_bind; [apply saveTokenAccount_preserves | intros _; pres_step HF].
Qed.

Lemma retry_left_preserves {A} (fn : M A) (left : nat) (retryIntervalMs : Z) :
  preservesM P fn -> preservesM P (retry_left fn left retryIntervalMs).
Proof.
  intros Hfn. induction left as [|left IH]; cbn [retry_left].
  - apply pres_try; [exact Hfn | intros e; pres_step HF].
  - apply pres_try; [exact Hfn | intros e].
    apply pres_bind; [unfold sleep; pres_step HF | intros _; exact IH].
Qed.

Lemma buy_preserves (tradingProtection : TradingProtection.TradingProtection)
    (accountId0 : PublicKey) (accountData : LiquidityStateV4) :
  preservesM P (buy rt chain cfg tradingProtection accountId0 accountData).
Proof.
  unfold buy, buy_try, buy_submit, Market.getMinimalMarketV3, retry.
  apply pres_try; [| intros e; repeat pres_step HF].
  apply pres_bind; [pres_step HF | intros found].
  apply pres_bind.
  { destruct found; [pres_step HF|].
    apply pres_bind; [repeat pres_step HF | intros market0].
    apply saveTokenAccount_preserves. }
  intros tokenAccount.
  apply pres_bind; [pres_step HF | intros safetyCheck].
  destruct (negb _); [pres_step HF|].
  destruct (market tokenAccount); [| pres_step HF].
  do 4 (apply pres_bind; [pres_step HF | intros ?]).
  apply pres_bind; [apply retry_left_preserves; pres_step HF | intros signature].
  repeat pres_step HF.
Qed.

Lemma processRaydiumPool_preserves (tradingProtection : TradingProtection.TradingProtection)
    (poolId : PublicKey) (poolState : LiquidityStateV4) :
  preservesM P (processRaydiumPool rt chain cfg tradingProtection poolId poolState).
Proof.
  unfold processRaydiumPool, shouldBuy, checkMintable.
  apply pres_bind; [pres_step HF | intros wanted].
  destruct (negb wanted); [pres_step HF|].
  destruct (CHECK_IF_MINT_IS_RENOUNCED cfg); [| apply buy_preserves].
  apply pres_bind; [repeat pres_step HF | intros mintOption].
  destruct mintOption as [[|]|]; [apply buy_preserves | pres_step HF | pres_step HF].
Qed.

Lemma sell_try_preserves (accountId0 mint0 : PublicKey) (amount : BigNumberish)
    (value : number) :
  preservesM P (sell_try rt chain cfg accountId0 mint0 amount value).
Proof.
  unfold sell_try.
  apply pres_bind; [pres_step HF | intros found].
  destruct found as [tokenAccount|]; [| pres_step HF].
  destruct (poolKeys tokenAccount); [| repeat pres_step HF].
  destruct (strictEqualsZero amount); [repeat pres_step HF|].
  destruct (buyValue tokenAccount); [| pres_step HF].
  destruct (_ && _); [pres_step HF|].
  repeat pres_step HF.
Qed.

Lemma sell_preserves (fuel : nat) (accountId0 mint0 : PublicKey) (amount : BigNumberish)
    (value : number) (w : World) :
  P w -> P (snd (sell rt chain cfg fuel accountId0 mint0 amount value w)).
Proof.
  unfold sell. generalize 0. revert w.
  induction fuel as [|fuel IH]; intros w retries Hw; [exact Hw|].
  cbn [sell_loop].
  pose proof (sell_try_preserves accountId0 mint0 amount value w Hw) as Hw1.
  destruct (sell_try _ _ _ _ _ _ _ _) as [[[completed|]|e] w1]; cbn [snd] in Hw1.
  - exact Hw1.
  - destruct (_ <? _); [now apply IH | exact Hw1].
  - destruct (error _ _); [| exact Hw1].
    destruct (_ <? _); [now apply IH | exact Hw1].
Qed.

End Framed.

(** ** Invariants of the reachable worlds *)

Section Invariants.
Import Spec Bot.

Variable rt : Runtime.
Variable chain : Chain.
Variable cfg : Settings.

Lemma dispatchedPools_app (h h' : list Event) :
  dispatchedPools (h ++ h') = dispatchedPools h ++ dispatchedPools h'.
Proof.
  induction h as [|ev h IH]; [reflexivity|].
  destruct ev; cbn; now rewrite ?IH.
Qed.

Lemma dispatchedMarkets_app (h h' : list Event) :
  dispatchedMarkets (h ++ h') = dispatchedMarkets h ++ dispatchedMarkets h'.
Proof.
  induction h as [|ev h IH]; [reflexivity|].
  destruct ev; cbn; now rewrite ?IH.
Qed.

Lemma noBuyValue_frame : Frame noBuyValue.
Proof.
  split; unfold noBuyValue; cbn; try (intros; assumption).
  - intros w key ta Hta Hw. now apply map_Forall_insert_2.
  - intros w key keys Hw k ta. rewrite lookup_alter.
    case_decide; [| apply Hw].
    destruct (existingTokenAccounts w !! key) as [ta0|] eqn:Hk; cbn; [| discriminate].
    intros [= <-]. cbn. subst. exact (Hw _ _ Hk).
Qed.

Lemma dedupInvariant_frame : Frame dedupInvariant.
Proof.
  split; unfold dedupInvariant; cbn; try (intros; assumption).
  intros w ev Hev Hw. rewrite dispatchedPools_app, dispatchedMarkets_app.
  destruct ev; try discriminate; cbn; now rewrite !app_nil_r.
Qed.

(** The dedup sets are never made smaller. *)
Lemma grows_frame (w0 : World) :
  Frame (fun w => existingLiquidityPools w0 ⊆ existingLiquidityPools w /\
                  existingOpenBookMarkets w0 ⊆ existingOpenBookMarkets w).
Proof. split; cbn; intros; assumption. Qed.

Lemma notify_noBuyValue (runTimestamp : Z) (n : Notification) (w : World) :
  noBuyValue w -> noBuyValue (notify rt chain cfg runTimestamp n w).
Proof.
  intros Hw. destruct n as [u|u]; cbn [notify].
  - unfold onRaydiumAccountChange. unfoldM.
    destruct (decodeLiquidityState chain (data u)); cbn [snd]; [| exact Hw].
    destruct (_ && _); exact Hw.
  - unfold onOpenBookAccountChange. unfoldM. cbn [snd].
    destruct (negb _); [| exact Hw].
    pose proof (processOpenBookMarket_preserves rt chain cfg noBuyValue noBuyValue_frame u)
      as Hp.
    match goal with |- context [processOpenBookMarket rt chain cfg u ?w1] =>
      specialize (Hp w1 Hw); destruct (processOpenBookMarket rt chain cfg u w1) as [[?|?] ?]
    end; exact Hp.
Qed.

Lemma notify_dedupInvariant (runTimestamp : Z) (n : Notification) (w : World) :
  dedupInvariant w -> dedupInvariant (notify rt chain cfg runTimestamp n w).
Proof.
  intros Hw. destruct n as [u|u]; cbn [notify].
  - unfold onRaydiumAccountChange. unfoldM.
    destruct (decodeLiquidityState chain (data u)) as [poolState|]; cbn [snd]; [| exact Hw].
    destruct (runTimestamp <? poolOpenTime poolState); cbn [andb]; [| exact Hw].
    case_bool_decide as Hin; cbn [negb snd]; [exact Hw|].
    destruct Hw as (Hp & Hm & Hpools & Hmarkets).
    unfold dedupInvariant. cbn.
    rewrite dispatchedPools_app, dispatchedMarkets_app. cbn. rewrite app_nil_r.
    repeat split; try assumption.
    + apply NoDup_app. repeat split; [assumption | | apply NoDup_singleton].
      intros key Hkey ->%list_elem_of_singleton. apply Hin. now apply Hpools.
    + rewrite elem_of_union, elem_of_singleton, elem_of_app, list_elem_of_singleton.
      rewrite Hpools. tauto.
    + rewrite elem_of_union, elem_of_singleton, elem_of_app, list_elem_of_singleton.
      rewrite Hpools. tauto.
    + now apply Hmarkets.
    + now apply Hmarkets.
  - unfold onOpenBookAccountChange. unfoldM. cbn [snd].
    case_bool_decide as Hin; cbn [negb]; [exact Hw|].
    pose proof (processOpenBookMarket_preserves rt chain cfg dedupInvariant
                  dedupInvariant_frame u) as Hp.
    match goal with |- context [processOpenBookMarket rt chain cfg u ?w1] =>
      assert (Hw1 : dedupInvariant w1)
    end.
    { destruct Hw as (Hp' & Hm & Hpools & Hmarkets).
      unfold dedupInvariant. cbn.
      rewrite dispatchedPools_app, dispatchedMarkets_app. cbn. rewrite app_nil_r.
      repeat split; try assumption.
      + apply NoDup_app. repeat split; [assumption | | apply NoDup_singleton].
        intros key Hkey ->%list_elem_of_singleton. apply Hin. now apply Hmarkets.
      + now apply Hpools.
      + now apply Hpools.
      + rewrite elem_of_union, elem_of_singleton, elem_of_app, list_elem_of_singleton.
        rewrite Hmarkets. tauto.
      + rewrite elem_of_union, elem_of_singleton, elem_of_app, list_elem_of_singleton.
        rewrite Hmarkets. tauto. }
    match goal with |- context [processOpenBookMarket rt chain cfg u ?w1] =>
      specialize (Hp w1 Hw1); destruct (processOpenBookMarket rt chain cfg u w1) as [[?|?] ?]
    end; exact Hp.
Qed.

(** Every operation of the main module keeps a framed property that the
    two listener callbacks keep. *)
Lemma reachable_invariant (P : World -> Prop) :
  Frame P ->
  P initialWorld ->
  (forall runTimestamp n w, P w -> P (notify rt chain cfg runTimestamp n w)) ->
  forall w, reachable rt chain cfg w -> P w.
Proof.
  intros HF Hstart Hnotify w Hreach.
  induction Hreach as [| fileLines w _ IH | fileLines w _ IH | runTimestamp n w _ IH
                       | tradingProtection poolId poolState w _ IH
                       | fuel accountId0 mint0 amount value w _ IH].
  - exact Hstart.
  - now apply init_preserves.
  - now apply loadSnipeList_preserves.
  - now apply Hnotify.
  - now apply processRaydiumPool_preserves.
  - now apply sell_preserves.
Qed.

Lemma reachable_noBuyValue (w : World) : reachable rt chain cfg w -> noBuyValue w.
Proof.
  apply reachable_invariant.
  - exact noBuyValue_frame.
  - unfold noBuyValue. cbn. apply map_Forall_empty.
  - apply notify_noBuyValue.
Qed.

Lemma reachable_dedupInvariant (w : World) : reachable rt chain cfg w -> dedupInvariant w.
Proof.
  apply reachable_invariant.
  - exact dedupInvariant_frame.
  - unfold dedupInvariant. cbn. repeat split; try apply NoDup_nil_2; set_solver.
  - apply notify_dedupInvariant.
Qed.

(** While no position has a [buyValue], no pass of [sell] gets past the
    check on it: [sell] asks nothing of the SDK or the RPC connection. *)
Lemma sell_try_idle (accountId0 mint0 : PublicKey) (amount : BigNumberish)
    (value : number) (w : World) :
  noBuyValue w ->
  snd (sell_try rt chain cfg accountId0 mint0 amount value w) = w.
Proof.
  intros Hw. unfold sell_try. unfoldM.
  destruct (existingTokenAccounts w !! toString mint0) as [tokenAccount|] eqn:Hfound;
    [| reflexivity].
  rewrite (Hw _ _ Hfound).
  destruct (poolKeys tokenAccount); [| now destruct (warn _ _)].
  destruct (strictEqualsZero amount); [now destruct (info _ _) | reflexivity].
Qed.

Lemma sell_idle (fuel : nat) (accountId0 mint0 : PublicKey) (amount : BigNumberish)
    (value : number) (w : World) :
  noBuyValue w ->
  snd (sell rt chain cfg fuel accountId0 mint0 amount value w) = w.
Proof.
  intros Hw. unfold sell. generalize 0.
  induction fuel as [|fuel IH]; intros retries; [reflexivity|].
  cbn [sell_loop].
  pose proof (sell_try_idle accountId0 mint0 amount value w Hw) as Hidle.
  destruct (sell_try _ _ _ _ _ _ _ _) as [[[completed|]|e] w1]; cbn [snd] in Hidle; subst w1.
  - reflexivity.
  - destruct (_ <? _); [apply IH | reflexivity].
  - destruct (error _ _); [| reflexivity].
    destruct (_ <? _); [apply IH | reflexivity].
Qed.

(** C10.  When the tracked token account exists, its pool keys are
    resolved and the amount is not [=== 0], an undefined [buyValue] makes
    [sell] return true at once, leaving the world as it was: nothing is
    built or submitted.  No entry point of the main module ever gives a
    position a [buyValue]; so in every world the process can reach, every
    call of [sell] that gets as far as this check returns true, and no
    call of [sell] at all asks anything of the SDK or the RPC connection:
    a sale is never attempted. *)
Theorem sell_never_sells_without_buyValue :
  (forall w accountId0 mint0 amount value tokenAccount keys fuel,
     existingTokenAccounts w !! toString mint0 = Some tokenAccount ->
     poolKeys tokenAccount = Some keys ->
     strictEqualsZero amount = false ->
     buyValue tokenAccount = None ->
     sell rt chain cfg (S fuel) accountId0 mint0 amount value w = (Some (Ok true), w)) /\
  (forall w, reachable rt chain cfg w ->
     forall key tokenAccount,
       existingTokenAccounts w !! key = Some tokenAccount ->
       buyValue tokenAccount = None) /\
  (forall w, reachable rt chain cfg w ->
     forall accountId0 mint0 amount value tokenAccount keys fuel,
       existingTokenAccounts w !! toString mint0 = Some tokenAccount ->
       poolKeys tokenAccount = Some keys ->
       strictEqualsZero amount = false ->
       sell rt chain cfg (S fuel) accountId0 mint0 amount value w = (Some (Ok true), w)) /\
  (forall w, reachable rt chain cfg w ->
     forall accountId0 mint0 amount value fuel,
       snd (sell rt chain cfg fuel accountId0 mint0 amount value w) = w).
Proof.
  repeat split.
  - intros w accountId0 mint0 amount value tokenAccount keys fuel.
    apply sell_without_buyValue.
  - intros w Hreach key tokenAccount Hfound.
    exact (reachable_noBuyValue w Hreach key tokenAccount Hfound).
  - intros w Hreach accountId0 mint0 amount value tokenAccount keys fuel Hfound Hkeys Hamount.
    apply (sell_without_buyValue rt chain cfg accountId0 mint0 amount value w tokenAccount
             keys fuel Hfound Hkeys Hamount).
    exact (reachable_noBuyValue w Hreach _ _ Hfound).
  - intros w Hreach accountId0 mint0 amount value fuel.
    apply sell_idle. now apply reachable_noBuyValue.
Qed.

End Invariants.

(** ** The discovery listeners *)

Section Listener.
Import Spec Bot.

Variable rt : Runtime.
Variable chain : Chain.
Variable cfg : Settings.
Variable runTimestamp : Z.

Lemma notify_grows (n : Notification) (w : World) :
  existingLiquidityPools w ⊆ existingLiquidityPools (notify rt chain cfg runTimestamp n w) /\
  existingOpenBookMarkets w ⊆ existingOpenBookMarkets (notify rt chain cfg runTimestamp n w).
Proof.
  destruct n as [u|u]; cbn [notify].
  - unfold onRaydiumAccountChange. unfoldM.
    destruct (decodeLiquidityState chain (data u)); cbn [snd]; [| done].
    destruct (_ && _); cbn; [split; set_solver | done].
  - unfold onOpenBookAccountChange. unfoldM. cbn [snd].
    destruct (negb _); [| done].
    pose proof (processOpenBookMarket_preserves rt chain cfg _ (grows_frame w) u) as Hp.
    match goal with |- context [processOpenBookMarket rt chain cfg u ?w1] =>
      assert (Hw1 : existingLiquidityPools w ⊆ existingLiquidityPools w1 /\
                    existingOpenBookMarkets w ⊆ existingOpenBookMarkets w1)
        by (cbn; split; set_solver);
      specialize (Hp w1 Hw1); destruct (processOpenBookMarket rt chain cfg u w1) as [[?|?] ?]
    end; exact Hp.
Qed.

Lemma runListener_grows (stream : list Notification) (w : World) :
  existingLiquidityPools w ⊆
    existingLiquidityPools (runListener rt chain cfg runTimestamp stream w) /\
  existingOpenBookMarkets w ⊆
    existingOpenBookMarkets (runListener rt chain cfg runTimestamp stream w).
Proof.
  revert w. induction stream as [|n stream IH]; intros w; [done|].
  cbn [runListener fold_left].
  destruct (notify_grows n w) as [Hp Hm].
  destruct (IH (notify rt chain cfg runTimestamp n w)) as [Hp' Hm'].
  split; [etrans; [exact Hp | exact Hp'] | etrans; [exact Hm | exact Hm']].
Qed.

Lemma runListener_reachable (stream : list Notification) (w : World) :
  reachable rt chain cfg w ->
  reachable rt chain cfg (runListener rt chain cfg runTimestamp stream w).
Proof.
  revert w. induction stream as [|n stream IH]; intros w Hw; [exact Hw|].
  cbn [runListener fold_left]. apply IH. now apply reach_notify.
Qed.

Lemma notify_market_recorded (u : KeyedAccountInfo) (w : World) :
  toString (accountId u) ∈
    existingOpenBookMarkets (notify rt chain cfg runTimestamp (OpenBookChange u) w).
Proof.
  cbn [notify]. unfold onOpenBookAccountChange. unfoldM. cbn [snd].
  case_bool_decide as Hin; cbn [negb]; [exact Hin|].
  match goal with |- context [processOpenBookMarket rt chain cfg u ?w1] =>
    destruct (processOpenBookMarket_preserves rt chain cfg _ (grows_frame w1) u w1)
      as [_ Hm]; [done|];
    destruct (processOpenBookMarket rt chain cfg u w1) as [[?|?] ?]
  end; cbn [snd] in *; apply Hm; cbn; set_solver.
Qed.

Lemma notify_pool_recorded (u : KeyedAccountInfo) (poolState : LiquidityStateV4) (w : World) :
  decodeLiquidityState chain (data u) = Ok poolState ->
  runTimestamp < poolOpenTime poolState ->
  toString (accountId u) ∈
    existingLiquidityPools (notify rt chain cfg runTimestamp (RaydiumChange u) w).
Proof.
  intros Hdecode Hopen. cbn [notify]. unfold onRaydiumAccountChange. unfoldM.
  rewrite Hdecode. destruct (Z.ltb_spec runTimestamp (poolOpenTime poolState)); [| lia].
  cbn [andb]. case_bool_decide as Hin; cbn; [exact Hin | set_solver].
Qed.

Lemma notify_pool_stale (u : KeyedAccountInfo) (poolState : LiquidityStateV4) (w : World) :
  decodeLiquidityState chain (data u) = Ok poolState ->
  poolOpenTime poolState <= runTimestamp ->
  notify rt chain cfg runTimestamp (RaydiumChange u) w = w.
Proof.
  intros Hdecode Hopen. cbn [notify]. unfold onRaydiumAccountChange. unfoldM.
  rewrite Hdecode. destruct (Z.ltb_spec runTimestamp (poolOpenTime poolState)); [lia|].
  reflexivity.
Qed.

(** C7, as amended.  Over any stream of pool and market notifications,
    from any world the process can be in: the dedup sets only grow; the
    sets hold exactly the identities dispatched since the process started
    and none was dispatched twice; every market identity of the stream is
    in the market set afterwards; a pool identity of the stream is in the
    pool set afterwards when its notification decodes to an open time
    strictly after the start time; and a pool notification whose open time
    is not after the start time changes nothing, so that identity is
    neither recorded nor dispatched by it. *)
Theorem listener_dispatches_once (stream : list Notification) (w : World) :
  reachable rt chain cfg w ->
  let w' := runListener rt chain cfg runTimestamp stream w in
  (existingLiquidityPools w ⊆ existingLiquidityPools w' /\
   existingOpenBookMarkets w ⊆ existingOpenBookMarkets w') /\
  (NoDup (dispatchedPools (history w')) /\
   NoDup (dispatchedMarkets (history w')) /\
   (forall key, key ∈ existingLiquidityPools w' <-> key ∈ dispatchedPools (history w')) /\
   (forall key, key ∈ existingOpenBookMarkets w' <-> key ∈ dispatchedMarkets (history w'))) /\
  (forall u, OpenBookChange u ∈ stream ->
     toString (accountId u) ∈ existingOpenBookMarkets w') /\
  (forall u poolState,
     RaydiumChange u ∈ stream ->
     decodeLiquidityState chain (data u) = Ok poolState ->
     runTimestamp < poolOpenTime poolState ->
     toString (accountId u) ∈ existingLiquidityPools w') /\
  (forall u poolState w0,
     decodeLiquidityState chain (data u) = Ok poolState ->
     poolOpenTime poolState <= runTimestamp ->
     notify rt chain cfg runTimestamp (RaydiumChange u) w0 = w0).
Proof.
  intros Hreach w'. subst w'. split; [apply runListener_grows|].
  split; [apply (reachable_dedupInvariant rt chain cfg), runListener_reachable, Hreach|].
  clear Hreach. repeat split.
  - revert w. induction stream as [|n stream IH]; intros w u Hu.
    + now apply elem_of_nil in Hu.
    + cbn [runListener fold_left]. apply elem_of_cons in Hu as [<- | Hu].
      * apply (runListener_grows stream), notify_market_recorded.
      * now apply IH.
  - revert w. induction stream as [|n stream IH]; intros w u poolState Hu Hdecode Hopen.
    + now apply elem_of_nil in Hu.
    + cbn [runListener fold_left]. apply elem_of_cons in Hu as [<- | Hu].
      * apply (runListener_grows stream). now apply (notify_pool_recorded u poolState).
      * now apply (IH _ u poolState).
  - intros u poolState w0. apply notify_pool_stale.
Qed.

End Listener.

Section ListenerExamples.
Import Spec Bot Fixtures.

(** C7 as stated fails: the listener started at time 300 sees [poolA],
    which opened at time 200, and does not record it. *)
Lemma stale_pool_is_not_recorded :
  toString (accountId poolNotification) ∉
    existingLiquidityPools
      (runListener plainRuntime healthyChain demoSettings 300
         [RaydiumChange poolNotification] initialWorld).
Proof. cbn. set_solver. Qed.

(** The same pool and the same market notified twice, the listener
    started at time 100. *)
Lemma listener_dispatches_once_witness :
  NoDup (dispatchedPools (history
    (runListener plainRuntime healthyChain demoSettings 100
       [OpenBookChange marketNotification; RaydiumChange poolNotification;
        OpenBookChange marketNotification; RaydiumChange poolNotification]
       initialWorld))).
Proof.
  apply (listener_dispatches_once plainRuntime healthyChain demoSettings 100
           [OpenBookChange marketNotification; RaydiumChange poolNotification;
            OpenBookChange marketNotification; RaydiumChange poolNotification]
           initialWorld (reach_start _ _ _)).
Defined.

Lemma sell_never_sells_without_buyValue_witness :
  sell plainRuntime healthyChain demoSettings 1 accountA mintA (BNbigint 1000) 105%float
    boughtWorld = (Some (Ok true), boughtWorld).
Proof.
  eapply (proj1 (proj2 (proj2 (sell_never_sells_without_buyValue plainRuntime
                                 healthyChain demoSettings)))).
  - apply reach_processRaydiumPool, reach_start.
  - vm_compute. reflexivity.
  - reflexivity.
  - reflexivity.
Defined.

End ListenerExamples.

(** * Further properties of the code *)

(** ** [retry] *)

Section RetryTrace.
Import Spec Utils Traces.

Context {A : Type}.
Variables (ev : Event) (answer : list Event -> result A) (ms : Z).

(** [retry] repeats the request until an attempt succeeds or until
    [retries + 1] attempts have been made (one attempt when [retries] is
    zero or negative); it waits [retryIntervalMs] after each failed attempt
    but the last, and its outcome is the outcome of the last attempt made:
    the first success, or the exception of the final failure. *)
Theorem retry_outcome (retries : Z) (k : nat) (w : World) (r : result A) :
  (k <= Z.to_nat retries)%nat ->
  (forall i, (i < k)%nat -> isThrow (answer (history w ++ failedAttempts ev ms i))) ->
  answer (history w ++ failedAttempts ev ms k) = r ->
  ((k < Z.to_nat retries)%nat -> exists a, r = Ok a) ->
  retry (call ev answer) retries ms w =
  (r, withHistory (history w ++ failedAttempts ev ms k ++ [ev]) w).
Proof. unfold retry. apply retry_left_trace. Qed.

End RetryTrace.

(** ** [buy]: what it does before, and leaves after, the submission *)

Section KeepsAccounts.
Import Spec Utils.

(** A property of the world that does not look at the history. *)
Variable P : World -> Prop.
Hypothesis HP : forall w h, P w -> P (withHistory h w).

Lemma call_keeps {A} (ev : Event) (answer : list Event -> result A) :
  preservesM P (call ev answer).
Proof. apply pres_call. intros w. apply HP. Qed.

Lemma emit_keeps (ev : Event) : preservesM P (emit ev).
Proof. apply pres_emit. intros w. apply HP. Qed.

Lemma retry_left_keeps {A} (fn : M A) (left : nat) (ms : Z) :
  preservesM P fn -> preservesM P (retry_left fn left ms).
Proof.
  intros Hfn. induction left as [|left IH]; cbn [retry_left].
  - apply pres_try; [exact Hfn | intros e; apply pres_throw].
  - apply pres_try; [exact Hfn | intros e].
    apply pres_bind; [apply emit_keeps | intros _; exact IH].
Qed.

Lemma buy_submit_keeps (rt : Runtime) (chain : Chain) (latestBlockhash : Blockhash) :
  preservesM P (Bot.buy_submit rt chain latestBlockhash).
Proof.
  unfold Bot.buy_submit, retry.
  apply pres_bind; [apply retry_left_keeps, call_keeps | intros signature].
  apply pres_bind; [apply pres_lift | intros _].
  apply pres_bind; [apply call_keeps | intros confirmation].
  destruct confirmation; [apply pres_throw | apply pres_lift].
Qed.

End KeepsAccounts.

Section BuyEdges.
Import Spec Bot Utils Traces.

Variable rt : Runtime.
Variable chain : Chain.
Variable cfg : Settings.
Variable tradingProtection : TradingProtection.TradingProtection.
Variables (accountId0 : PublicKey) (accountData : LiquidityStateV4).

Local Abbreviation key := (toString (baseMint accountData)).
Local Abbreviation safetyCheck :=
  (TradingProtection.checkTradeSafety rt tradingProtection solanaConnection
     (baseMint accountData) (quoteAmount cfg) 0%float).

(** When the safety check rejects the trade, [buy] returns normally and
    leaves a tracked mint's world exactly as it was: no pool keys are
    assigned and nothing is asked of the SDK or the RPC connection. *)
Theorem buy_rejected_builds_nothing (w : World) (tokenAccount : MinimalTokenAccountData)
    (res : TradingProtection.TradeSafetyResult) :
  existingTokenAccounts w !! key = Some tokenAccount ->
  safetyCheck = Ok res ->
  TradingProtection.safe res = false ->
  (forall m, warn (logger rt) m = Ok tt) ->
  buy rt chain cfg tradingProtection accountId0 accountData w = (Ok tt, w).
Proof.
  intros Hfound Hcheck Hsafe Hq. unfold buy, buy_try. unfoldM.
  now rewrite Hfound, Hcheck, Hsafe, Hq.
Qed.

(** A mint tracked without market data, which is how [init] registers the
    tokens already in the wallet, cannot be bought: once the safety check
    has accepted, [buy] raises before it assigns pool keys or asks for
    anything, and the world is unchanged. *)
Theorem buy_without_market_data_raises (w : World) (tokenAccount : MinimalTokenAccountData)
    (res : TradingProtection.TradeSafetyResult) :
  existingTokenAccounts w !! key = Some tokenAccount ->
  market tokenAccount = None ->
  safetyCheck = Ok res ->
  TradingProtection.safe res = true ->
  exists e, buy rt chain cfg tradingProtection accountId0 accountData w = (Throw e, w).
Proof.
  intros Hfound Hmarket Hcheck Hsafe. unfold buy, buy_try. unfoldM.
  rewrite Hfound, Hcheck, Hsafe, Hmarket. cbn [negb].
  destruct (error (logger rt) _); eauto.
Qed.

(** For a mint that is not tracked yet, [buy] asks for the market account;
    when the RPC node has no such account [buy] raises, having neither
    tracked the mint nor asked for anything else. *)
Theorem buy_missing_market_account_raises (w : World) :
  existingTokenAccounts w !! key = None ->
  getAccountInfo chain (history w) (marketId accountData) = Ok None ->
  exists e,
    buy rt chain cfg tradingProtection accountId0 accountData w =
    (Throw e, withHistory (history w ++ [GetAccountInfo (marketId accountData)]) w).
Proof.
  intros Hfound Hinfo. unfold buy, buy_try, Market.getMinimalMarketV3. unfoldM.
  rewrite Hfound, Hinfo. destruct (error (logger rt) _); eauto.
Qed.

(** Once the safety check has accepted a tracked mint that has market
    data, [buy] assigns the pool keys before it builds the transaction, and
    they stay assigned whatever happens afterwards: after [buy], whether it
    returned or raised, the position map is the one before with the pool
    keys of this pool set on the mint's entry, and nothing else changed in
    it. *)
Theorem buy_assigns_pool_keys (w : World) (tokenAccount : MinimalTokenAccountData)
    (market0 : MinimalMarketLayoutV3) (res : TradingProtection.TradeSafetyResult) :
  existingTokenAccounts w !! key = Some tokenAccount ->
  market tokenAccount = Some market0 ->
  safetyCheck = Ok res ->
  TradingProtection.safe res = true ->
  existingTokenAccounts (snd (buy rt chain cfg tradingProtection accountId0 accountData w)) =
  <[key := withPoolKeys (Liquidity.createPoolKeys accountId0 accountData market0)
             tokenAccount]> (existingTokenAccounts w).
Proof.
  intros Hfound Hmarket Hcheck Hsafe.
  set (m' := <[key := withPoolKeys (Liquidity.createPoolKeys accountId0 accountData market0)
                        tokenAccount]> (existingTokenAccounts w)).
  assert (HP : forall w0 h, existingTokenAccounts w0 = m' ->
                            existingTokenAccounts (withHistory h w0) = m') by (intros; assumption).
  unfold buy, buy_try, assignPoolKeys.
  unfold tryM at 1, bindM at 1, gets at 1. rewrite Hfound.
  unfold bindM at 1, retM at 1. unfold bindM at 1, liftM at 1. rewrite Hcheck, Hsafe, Hmarket.
  cbn [negb]. unfold bindM at 1, modify at 1.
  match goal with |- context [bindM ?c ?k ?w1] =>
    assert (Hw1 : existingTokenAccounts w1 = m');
    [| pose proof (pres_bind (fun w0 => existingTokenAccounts w0 = m') c k) as Hrest]
  end.
  { cbn. subst m'. apply map_eq. intros i. rewrite lookup_alter, lookup_insert.
    case_decide; [subst i; now rewrite Hfound | reflexivity]. }
  match goal with |- context [bindM ?c ?k ?w1] =>
    specialize (Hrest (call_keeps _ HP _ _)
      (fun _ => pres_bind _ _ _ (call_keeps _ HP _ _)
         (fun latestBlockhash => pres_bind _ _ _ (call_keeps _ HP _ _)
            (fun _ => buy_submit_keeps _ HP rt chain latestBlockhash))) w1 Hw1);
    destruct (bindM c k w1) as [[[]|e] w2]
  end; cbn [snd] in *; [exact Hrest|].
  unfoldM. now destruct (error (logger rt) _).
Qed.

(** A buy that goes through: for a tracked mint with market data that the
    safety check accepts, when each request is answered and the
    confirmation reports no error, [buy] returns after exactly one
    swap-instruction request, one blockhash request, one signature, one
    submission (with preflight skipped) and one confirmation request. *)
Theorem buy_confirmed (w : World) (tokenAccount : MinimalTokenAccountData)
    (market0 : MinimalMarketLayoutV3) (res : TradingProtection.TradeSafetyResult)
    (latestBlockhash : Blockhash) (signature : string) :
  let amountIn := raw (quoteAmount cfg) in
  existingTokenAccounts w !! key = Some tokenAccount ->
  market tokenAccount = Some market0 ->
  safetyCheck = Ok res ->
  TradingProtection.safe res = true ->
  (forall m, info (logger rt) m = Ok tt) ->
  makeSwapFixedInInstruction chain (history w) = Ok tt ->
  getLatestBlockhash chain (history w ++ take 1 (buyRequests amountIn signature))
    = Ok latestBlockhash ->
  signTransaction chain (history w ++ take 2 (buyRequests amountIn signature)) = Ok tt ->
  sendRawTransaction chain (history w ++ take 3 (buyRequests amountIn signature))
    = Ok signature ->
  confirmTransaction chain (history w ++ take 4 (buyRequests amountIn signature)) signature
    = Ok None ->
  buy rt chain cfg tradingProtection accountId0 accountData w =
  (Ok tt,
   withHistory (history w ++ buyRequests amountIn signature)
     (withTokenAccounts
        (alter (withPoolKeys (Liquidity.createPoolKeys accountId0 accountData market0))
           key (existingTokenAccounts w)) w)).
Proof.
  intros amountIn Hfound Hmarket Hcheck Hsafe Hq Hswap Hhash Hsign Hsend Hconfirm.
  subst amountIn. cbn [take buyRequests] in Hhash, Hsign, Hsend, Hconfirm.
  unfold buy, tryM.
  rewrite (buy_try_reaches_submit rt chain cfg tradingProtection accountId0 accountData w
             tokenAccount market0 res latestBlockhash Hfound Hmarket Hcheck Hsafe Hswap).
  - unfold buy_submit, retry. change (Z.to_nat 3) with 3%nat. cbn [retry_left].
    unfoldM. cbn [history withHistory withTokenAccounts].
    rewrite <- !app_assoc. cbn [app]. rewrite Hsend. cbv beta iota.
    rewrite Hq. cbv beta iota. cbn [history withHistory].
    rewrite <- !app_assoc. cbn [app]. rewrite Hconfirm, Hq.
    unfold withHistory, buyRequests. cbn. now rewrite <- ?app_assoc.
  - exact Hhash.
  - rewrite <- app_assoc. exact Hsign.
Qed.

End BuyEdges.

(** ** [sell]: the passes that submit *)

Section SellPasses.
Import Spec Bot Traces.

Variable rt : Runtime.
Variable chain : Chain.
Variable cfg : Settings.
Variables (accountId0 mint0 : PublicKey) (amount : BigNumberish) (value : number).

(** Outside the hold band, or on its boundary, or when the net change is
    not a number, [sell] goes on to the swap: with every request answered
    and a confirmation without error it returns true after one
    swap-instruction request, one blockhash request, one signature, one
    submission with preflight and one confirmation request. *)
Theorem sell_outside_band_submits (w : World) (tokenAccount : MinimalTokenAccountData)
    (keys : LiquidityPoolKeys) (buyValue0 : number) (latestBlockhash : Blockhash)
    (signature : string) (fuel : nat) :
  existingTokenAccounts w !! toString mint0 = Some tokenAccount ->
  poolKeys tokenAccount = Some keys ->
  strictEqualsZero amount = false ->
  buyValue tokenAccount = Some buyValue0 ->
  gt ((value - buyValue0) / buyValue0)%float (STOP_LOSS cfg) &&
  lt ((value - buyValue0) / buyValue0)%float (TAKE_PROFIT cfg) = false ->
  (forall m, info (logger rt) m = Ok tt) ->
  makeSwapFixedInInstruction chain (history w) = Ok tt ->
  getLatestBlockhash chain (history w ++ take 1 (sellRequests amount signature))
    = Ok latestBlockhash ->
  signTransaction chain (history w ++ take 2 (sellRequests amount signature)) = Ok tt ->
  sendRawTransaction chain (history w ++ take 3 (sellRequests amount signature))
    = Ok signature ->
  confirmTransaction chain (history w ++ take 4 (sellRequests amount signature)) signature
    = Ok None ->
  sell rt chain cfg (S fuel) accountId0 mint0 amount value w =
  (Some (Ok true), withHistory (history w ++ sellRequests amount signature) w).
Proof.
  intros Hfound Hkeys Hamount Hbuy Hband Hq Hswap Hhash Hsign Hsend Hconfirm.
  cbn [take sellRequests] in Hhash, Hsign, Hsend, Hconfirm.
  unfold sell. cbn [sell_loop]. unfold sell_try. unfoldM.
  rewrite Hfound, Hkeys, Hamount, Hbuy, Hband, Hswap. cbn [history withHistory].
  rewrite Hhash. cbn [history withHistory]. rewrite <- ?app_assoc. cbn [app].
  rewrite Hsign. cbn [history withHistory]. rewrite <- ?app_assoc. cbn [app].
  rewrite Hsend. cbn [history withHistory]. rewrite <- ?app_assoc. cbn [app].
  rewrite Hconfirm, Hq. unfold withHistory, sellRequests. cbn.
  now rewrite <- ?app_assoc.
Qed.

(** One pass whose confirmation reports an error. *)
Lemma sell_try_confirmation_error (w : World) (tokenAccount : MinimalTokenAccountData)
    (keys : LiquidityPoolKeys) (buyValue0 : number) (signature : string) (h : list Event) :
  existingTokenAccounts w !! toString mint0 = Some tokenAccount ->
  poolKeys tokenAccount = Some keys ->
  strictEqualsZero amount = false ->
  buyValue tokenAccount = Some buyValue0 ->
  gt ((value - buyValue0) / buyValue0)%float (STOP_LOSS cfg) &&
  lt ((value - buyValue0) / buyValue0)%float (TAKE_PROFIT cfg) = false ->
  (forall h, makeSwapFixedInInstruction chain h = Ok tt) ->
  (forall h, exists b, getLatestBlockhash chain h = Ok b) ->
  (forall h, signTransaction chain h = Ok tt) ->
  (forall h, sendRawTransaction chain h = Ok signature) ->
  (forall h, exists err, confirmTransaction chain h signature = Ok (Some err)) ->
  sell_try rt chain cfg accountId0 mint0 amount value (withHistory h w) =
  (Ok Continue, withHistory (h ++ sellRequests amount signature) w).
Proof.
  intros Hfound Hkeys Hamount Hbuy Hband Hswap Hhash Hsign Hsend Hconfirm.
  unfold sell_try. unfoldM. cbn [existingTokenAccounts history withHistory].
  rewrite Hfound, Hkeys, Hamount, Hbuy, Hband, Hswap. cbn [history withHistory].
  destruct (Hhash (h ++ [MakeSwapFixedInInstruction amount])) as [b ->].
  cbn [history withHistory]. rewrite Hsign. cbn [history withHistory].
  rewrite Hsend. cbn [history withHistory].
  match goal with |- context [confirmTransaction chain ?h1 signature] =>
    destruct (Hconfirm h1) as [err ->]
  end.
  unfold withHistory, sellRequests. cbn. now rewrite <- !app_assoc.
Qed.

(** While each confirmation reports an error (without raising), the retry
    counter never moves: with a positive [MAX_SELL_RETRIES], [sell] submits
    the transaction again on every pass and does not return; after [n]
    passes it has submitted [n] transactions. *)
Theorem sell_resubmits_on_confirmation_error (w : World)
    (tokenAccount : MinimalTokenAccountData) (keys : LiquidityPoolKeys)
    (buyValue0 : number) (signature : string) :
  existingTokenAccounts w !! toString mint0 = Some tokenAccount ->
  poolKeys tokenAccount = Some keys ->
  strictEqualsZero amount = false ->
  buyValue tokenAccount = Some buyValue0 ->
  gt ((value - buyValue0) / buyValue0)%float (STOP_LOSS cfg) &&
  lt ((value - buyValue0) / buyValue0)%float (TAKE_PROFIT cfg) = false ->
  0 < MAX_SELL_RETRIES cfg ->
  (forall h, makeSwapFixedInInstruction chain h = Ok tt) ->
  (forall h, exists b, getLatestBlockhash chain h = Ok b) ->
  (forall h, signTransaction chain h = Ok tt) ->
  (forall h, sendRawTransaction chain h = Ok signature) ->
  (forall h, exists err, confirmTransaction chain h signature = Ok (Some err)) ->
  forall n : nat,
    sell rt chain cfg n accountId0 mint0 amount value w =
    (None, withHistory (history w ++ passes n (sellRequests amount signature)) w) /\
    sends (history w ++ passes n (sellRequests amount signature)) =
    (sends (history w) + n)%nat.
Proof.
  intros Hfound Hkeys Hamount Hbuy Hband Hmax Hswap Hhash Hsign Hsend Hconfirm n.
  split.
  - unfold sell. rewrite <- (withHistory_history w) at 1. generalize (history w) as h.
    induction n as [|n IH]; intros h.
    + cbn [sell_loop passes]. now rewrite app_nil_r.
    + cbn [sell_loop passes].
      rewrite (sell_try_confirmation_error w tokenAccount keys buyValue0 signature h)
        by assumption.
      destruct (Z.ltb_spec 0 (MAX_SELL_RETRIES cfg)); [| lia].
      rewrite IH. now rewrite <- !app_assoc.
  - unfold sends. rewrite countEvents_app. f_equal.
    induction n as [|n IH]; [reflexivity|].
    cbn [passes]. rewrite countEvents_app, IH. reflexivity.
Qed.

End SellPasses.

(** ** [processRaydiumPool] and [processOpenBookMarket] *)

Section Pipelines.
Import Spec Bot Traces.

Variable rt : Runtime.
Variable chain : Chain.
Variable cfg : Settings.
Variable tradingProtection : TradingProtection.TradingProtection.

(** With the snipe list in use, a pool whose base mint is not on the list
    is dropped at once: nothing is looked up, checked or bought. *)
Theorem processRaydiumPool_skips_unlisted (poolId : PublicKey)
    (poolState : LiquidityStateV4) (w : World) :
  USE_SNIPE_LIST cfg = true ->
  toString (baseMint poolState) ∉ snipeList w ->
  processRaydiumPool rt chain cfg tradingProtection poolId poolState w = (Ok tt, w).
Proof.
  intros Huse Hlist. unfold processRaydiumPool, shouldBuy. unfoldM.
  rewrite Huse. now rewrite bool_decide_eq_false_2.
Qed.

(** With the renounce check on, [buy] is reached only when the mint
    account was fetched, decoded, and shows no mint authority.  When the
    account is missing, the request or the decoding raises, or a mint
    authority is present, the pipeline ends normally after that one
    account request: the mint is not tracked and nothing is built. *)
Theorem processRaydiumPool_needs_renounced_mint (poolId : PublicKey)
    (poolState : LiquidityStateV4) (w : World) :
  CHECK_IF_MINT_IS_RENOUNCED cfg = true ->
  fst (shouldBuy cfg (toString (baseMint poolState)) w) = Ok true ->
  (forall accountData,
     getAccountInfo chain (history w) (baseMint poolState) = Ok (Some accountData) ->
     decodeMintAuthorityOption chain accountData <> Ok 0) ->
  (forall m, warn (logger rt) m = Ok tt) ->
  (forall m, error (logger rt) m = Ok tt) ->
  processRaydiumPool rt chain cfg tradingProtection poolId poolState w =
  (Ok tt, withHistory (history w ++ [GetAccountInfo (baseMint poolState)]) w).
Proof.
  intros Hcheck Hwanted Hmint Hwarn Herror.
  unfold processRaydiumPool, checkMintable.
  unfold bindM at 1. unfold shouldBuy, gets in *. cbn [fst] in Hwanted.
  injection Hwanted as ->. cbn [negb]. rewrite Hcheck. unfoldM.
  destruct (getAccountInfo chain (history w) (baseMint poolState))
    as [[accountData|]|e] eqn:Hinfo.
  - specialize (Hmint accountData eq_refl).
    destruct (decodeMintAuthorityOption chain accountData) as [authority|e].
    + destruct (Z.eqb_spec authority 0) as [-> | Hne]; [contradiction|].
      now rewrite Hwarn.
    + now rewrite Herror, Hwarn.
  - now rewrite Hwarn.
  - now rewrite Herror, Hwarn.
Qed.

(** [processOpenBookMarket] never replaces a tracked position: a market
    whose base mint is already tracked leaves the world as it is.  For an
    untracked base mint it stores an entry with the market's bids, asks and
    event queue, the wallet's associated token address, and neither pool
    keys nor acquisition value.  Running it twice on the same notification
    is the same as running it once, and it never touches the request
    history. *)
Theorem processOpenBookMarket_tracks_once (u : KeyedAccountInfo) (w : World) :
  let w' := snd (processOpenBookMarket rt chain cfg u w) in
  (forall decoded baseMint0 tokenAccount,
     decodeMarketState chain (data u) = Ok decoded ->
     marketBaseMint decoded = Some baseMint0 ->
     existingTokenAccounts w !! toString baseMint0 = Some tokenAccount ->
     w' = w) /\
  (forall decoded baseMint0,
     decodeMarketState chain (data u) = Ok decoded ->
     marketBaseMint decoded = Some baseMint0 ->
     existingTokenAccounts w !! toString baseMint0 = None ->
     w' = withTokenAccounts
            (<[toString baseMint0 :=
                 {| mint := baseMint0;
                    address := getAssociatedTokenAddressSync chain baseMint0
                                 (walletPublicKey cfg);
                    buyValue := None;
                    poolKeys := None;
                    market := Some {| bids := bids decoded; asks := asks decoded;
                                      eventQueue := eventQueue decoded;
                                      marketBaseMint := None |} |}]>
               (existingTokenAccounts w)) w) /\
  snd (processOpenBookMarket rt chain cfg u w') = w' /\
  history w' = history w.
Proof.
  intros w'. subst w'.
  assert (Hcases :
    snd (processOpenBookMarket rt chain cfg u w) = w \/
    exists decoded baseMint0,
      decodeMarketState chain (data u) = Ok decoded /\
      marketBaseMint decoded = Some baseMint0 /\
      existingTokenAccounts w !! toString baseMint0 = None /\
      snd (processOpenBookMarket rt chain cfg u w) =
      withTokenAccounts
        (<[toString baseMint0 :=
             {| mint := baseMint0;
                address := getAssociatedTokenAddressSync chain baseMint0
                             (walletPublicKey cfg);
                buyValue := None; poolKeys := None;
                market := Some {| bids := bids decoded; asks := asks decoded;
                                  eventQueue := eventQueue decoded;
                                  marketBaseMint := None |} |}]>
           (existingTokenAccounts w)) w).
  { unfold processOpenBookMarket, saveTokenAccount, setTokenAccount. unfoldM.
    destruct (decodeMarketState chain (data u)) as [decoded|e]; [| now left].
    destruct (marketBaseMint decoded) as [baseMint0|] eqn:Hbase; [| now left].
    destruct (existingTokenAccounts w !! toString baseMint0) eqn:Hfound; [now left|].
    right. exists decoded, baseMint0. now rewrite Hbase. }
  assert (Htracked : forall decoded baseMint0 tokenAccount w0,
    decodeMarketState chain (data u) = Ok decoded ->
    marketBaseMint decoded = Some baseMint0 ->
    existingTokenAccounts w0 !! toString baseMint0 = Some tokenAccount ->
    snd (processOpenBookMarket rt chain cfg u w0) = w0).
  { intros decoded baseMint0 tokenAccount w0 Hdecode Hbase Hfound.
    unfold processOpenBookMarket. unfoldM. now rewrite Hdecode, Hbase, Hfound. }
  repeat split.
  - intros decoded baseMint0 tokenAccount. apply Htracked.
  - intros decoded baseMint0 Hdecode Hbase Hfound.
    destruct Hcases as [Hsame | (decoded' & baseMint' & Hdecode' & Hbase' & _ & Hw')].
    + exfalso. revert Hsame.
      unfold processOpenBookMarket, saveTokenAccount, setTokenAccount. unfoldM.
      rewrite Hdecode, Hbase, Hfound. cbn. intros Hsame.
      apply (f_equal (fun w0 => existingTokenAccounts w0 !! toString baseMint0)) in Hsame.
      cbn in Hsame. rewrite lookup_insert_eq in Hsame. congruence.
    + congruence.
  - destruct Hcases as [Hsame | (decoded & baseMint0 & Hdecode & Hbase & Hfound & ->)].
    + rewrite Hsame. exact Hsame.
    + eapply (Htracked decoded baseMint0); [exact Hdecode | exact Hbase |].
      cbn. apply lookup_insert_eq.
  - destruct Hcases as [-> | (decoded & baseMint0 & _ & _ & _ & ->)]; reflexivity.
Qed.

End Pipelines.

(** ** [init] *)

Section Init.
Import Spec Bot Traces.

Variable rt : Runtime.
Variable chain : Chain.
Variable cfg : Settings.






End Init.

(** ** The safety evaluator: what it ignores, and what a failed lookup or a
    NaN threshold lets through *)

Section SafetyEdges.
Import TradingProtection Spec.

Variable rt : Runtime.
Variables (this : TradingProtection) (amount : TokenAmount).

(** The verdict does not depend on the connection, on the token or on the
    expected price: with a logger that returns, two calls that differ only
    in these give the same result. *)
Theorem checkTradeSafety_ignores_token_and_price
    (connection connection' : Connection) (tokenMint tokenMint' : PublicKey)
    (expectedPrice expectedPrice' : number) :
  (forall m, info (logger rt) m = Ok tt) ->
  checkTradeSafety rt this connection tokenMint amount expectedPrice =
  checkTradeSafety rt this connection' tokenMint' amount expectedPrice'.
Proof.
  intros Hq. now rewrite !(checkTradeSafety_quiet rt this _ _ amount _ Hq).
Qed.

Lemma lt_nan_r (x : number) : (x <? nan)%float = false.
Proof.
  rewrite ltb_spec. unfold SFltb. destruct (Prim2SF x); reflexivity.
Qed.

Lemma lt_nan_l (x : number) : (nan <? x)%float = false.
Proof.
  rewrite ltb_spec. unfold SFltb. destruct (Prim2SF x); reflexivity.
Qed.

(** A threshold that is NaN switches its check off, because every
    comparison with NaN is false: with all three thresholds NaN every
    trade is accepted, whatever its size, the liquidity and the price
    impact. *)
Theorem checkTradeSafety_NaN_thresholds_accept (connection : Connection)
    (tokenMint : PublicKey) (expectedPrice : number) :
  maxTradeSize this = nan ->
  minLiquidity this = nan ->
  maxSlippage this = nan ->
  (forall m, info (logger rt) m = Ok tt) ->
  checkTradeSafety rt this connection tokenMint amount expectedPrice = Ok accept.
Proof.
  intros Hsize Hliq Hslip Hq. rewrite (checkTradeSafety_quiet rt this _ _ amount _ Hq).
  unfold evaluate, gt, lt. rewrite Hsize, Hliq, Hslip.
  now rewrite !lt_nan_l, lt_nan_r.
Qed.

(** When the liquidity lookup raises, the checks go on with liquidity 0:
    the result is the evaluator's verdict for liquidity 0.  So the trade
    is rejected for insufficient liquidity when [minLiquidity] is positive,
    and is not rejected for it otherwise: with [minLiquidity] zero or
    negative and the other two checks passing, a trade whose liquidity
    could not be looked up is accepted. *)
Theorem liquidity_fault_continues_with_zero (connection : Connection)
    (tokenMint : PublicKey) (expectedPrice : number) (e : exn) :
  getTokenLiquidity_try rt this connection tokenMint = Throw e ->
  (forall m, String.prefix "Getting token liquidity" m = false ->
             info (logger rt) m = Ok tt) ->
  (forall m, error (logger rt) m = Ok tt) ->
  let a := amountInSolOf amount in
  checkTradeSafety rt this connection tokenMint amount expectedPrice =
  Ok (evaluate rt a 0%float (mockPriceImpact this) this) /\
  (gt a (maxTradeSize this) = false ->
   gt (minLiquidity this) 0%float = false ->
   gt (mockPriceImpact this) (maxSlippage this) = false ->
   checkTradeSafety rt this connection tokenMint amount expectedPrice = Ok accept).
Proof.
  intros Hlook Hother Herror a.
  assert (Hrun : checkTradeSafety rt this connection tokenMint amount expectedPrice =
                 Ok (evaluate rt a 0%float (mockPriceImpact this) this)).
  { unfold checkTradeSafety, checkTradeSafety_try, getTokenLiquidity. rewrite Hlook.
    unfold getAmountInSol, getAmountInSol_try, calculatePriceImpact,
      calculatePriceImpact_try, evaluate.
    fold (amountInSolOf amount). fold a.
    repeat (rewrite Hother by reflexivity; cbn [bind try_catch]).
    destruct (gt a (maxTradeSize this));
      repeat (rewrite ?Herror; rewrite ?Hother by reflexivity; cbn [bind try_catch]);
      [reflexivity|].
    destruct (lt 0%float (minLiquidity this));
      repeat (rewrite ?Hother by reflexivity; cbn [bind try_catch]); [reflexivity|].
    destruct (gt (mockPriceImpact this) (maxSlippage this));
      repeat (rewrite ?Hother by reflexivity; cbn [bind try_catch]); reflexivity. }
  split; [exact Hrun|].
  intros Hsize Hmin Hslip. rewrite Hrun. unfold evaluate.
  rewrite Hsize, Hslip. unfold lt, gt in *. now rewrite Hmin.
Qed.

(** When the price-impact calculation raises, the checks go on with a
    price impact of 100: the result is the evaluator's verdict for 100, so
    the trade is accepted when the other checks pass and [maxSlippage] is
    100 or more. *)
Theorem price_impact_fault_continues_with_100 (connection : Connection)
    (tokenMint : PublicKey) (expectedPrice : number) (e : exn) :
  calculatePriceImpact_try rt this connection tokenMint amount = Throw e ->
  (forall m, String.prefix "Calculating price impact" m = false ->
             info (logger rt) m = Ok tt) ->
  (forall m, error (logger rt) m = Ok tt) ->
  checkTradeSafety rt this connection tokenMint amount expectedPrice =
  Ok (evaluate rt (amountInSolOf amount) (mockLiquidity this) 100%float this).
Proof.
  intros Hcalc Hother Herror.
  unfold checkTradeSafety, checkTradeSafety_try, calculatePriceImpact. rewrite Hcalc.
  unfold getAmountInSol, getAmountInSol_try, getTokenLiquidity, getTokenLiquidity_try,
    evaluate.
  fold (amountInSolOf amount).
  repeat (rewrite Hother by reflexivity; cbn [bind try_catch]).
  destruct (gt (amountInSolOf amount) (maxTradeSize this));
    repeat (rewrite ?Herror; rewrite ?Hother by reflexivity; cbn [bind try_catch]);
    [reflexivity|].
  destruct (lt (mockLiquidity this) (minLiquidity this));
    repeat (rewrite ?Herror; rewrite ?Hother by reflexivity; cbn [bind try_catch]);
    [reflexivity|].
  destruct (gt 100%float (maxSlippage this));
    repeat (rewrite ?Hother by reflexivity; cbn [bind try_catch]); reflexivity.
Qed.

End SafetyEdges.

(** ** The wallet listener of AUTO_SELL *)

Section AutoSellLoop.
Import Spec Bot AutoSell.

Variable rt : Runtime.
Variable chain : Chain.
Variable cfg : Settings.
Variable decodeAccount : Buffer -> result RawAccount.

Lemma walletLoop_polls (u : KeyedAccountInfo) (accountData : RawAccount) (w : World)
    (fuel : nat) :
  forall h,
    walletLoop rt chain cfg fuel u accountData (withHistory h w) =
    (None, withHistory (h ++ replicate fuel (SetTimeout 1000)) w).
Proof.
  induction fuel as [|fuel IH]; intros h.
  - cbn. now rewrite app_nil_r.
  - cbn [walletLoop replicate]. unfold retrieveTokenValueByAddress. unfoldM.
    cbn [snd history withHistory truthy].
    change (negb (0 =? 0)%float && (0 =? 0)%float) with false. cbv iota.
    rewrite withHistory_withHistory, IH. now rewrite <- app_assoc.
Qed.

(** AUTO_SELL never sells: the main module's price lookup returns 0, which
    counts as false, so for a change of any token account other than the
    quote token's the callback only sets a timer and asks again, pass after
    pass; it never calls [sell], asks nothing of the chain, and does not
    return. *)
Theorem autosell_never_reaches_sell (u : KeyedAccountInfo) (accountData : RawAccount)
    (quoteAddress : PublicKey) (w : World) :
  decodeAccount (data u) = Ok accountData ->
  quoteTokenAssociatedAddress w = Some quoteAddress ->
  toBase58 (accountId u) <> toBase58 quoteAddress ->
  forall fuel : nat,
    onWalletAccountChange rt chain cfg decodeAccount fuel u w =
    (None, withHistory (history w ++ replicate fuel (SetTimeout 1000)) w).
Proof.
  intros Hdecode Hquote Hother fuel. unfold onWalletAccountChange.
  rewrite Hdecode, Hquote, bool_decide_eq_false_2 by exact Hother.
  rewrite <- (withHistory_history w) at 1. apply walletLoop_polls.
Qed.

End AutoSellLoop.

(** ** utils: the slot handler *)

Section SlotHandlerFacts.
Import SlotHandler.

Variable numberToString : number -> string.
Variables (answers : Answers) (walletPublicKey : PublicKey).

Ltac runT := unfold tick, handleSlotChange, tryFinallyT, bindT, doT, askT; cbv beta iota.

(** The handler catches whatever its body raises, so it always returns
    normally, and the last thing it does is clear the running flag; when
    the balance does not exceed the fee ([balance - fee <= 0]) it neither
    signs nor submits anything. *)
Theorem handleSlotChange_contained (destination : PublicKey) (blockhash0 : string)
    (l : list Effect) :
  (fst (handleSlotChange numberToString answers walletPublicKey destination blockhash0 l)
   = Ok tt /\
   forall d,
     List.last
       (snd (handleSlotChange numberToString answers walletPublicKey destination
               blockhash0 l)) d = SetRunning false) /\
  (forall balance cost,
     getBalance answers = Ok balance ->
     lamportsPerSignature answers = Ok cost ->
     (balance - cost <=? 0)%float = true ->
     List.filter isTransfer
       (snd (handleSlotChange numberToString answers walletPublicKey destination
               blockhash0 l)) = List.filter isTransfer l).
Proof.
  split.
  - runT.
    destruct (getBalance answers) as [balance|e1]; cbv beta iota.
    + destruct (lamportsPerSignature answers) as [cost|e2]; cbv beta iota.
      * destruct (balance - cost <=? 0)%float; cbv beta iota.
        -- cbn [fst snd]. split; [reflexivity | intros d; apply List.last_last].
        -- destruct (signedTransfer answers); cbv beta iota.
           ++ destruct (sendRawTransaction answers); cbv beta iota; cbn [fst snd];
                (split; [reflexivity | intros d; apply List.last_last]).
           ++ cbn [fst snd]. split; [reflexivity | intros d; apply List.last_last].
      * cbn [fst snd]. split; [reflexivity | intros d; apply List.last_last].
    + cbn [fst snd]. split; [reflexivity | intros d; apply List.last_last].
  - intros balance cost Hbalance Hcost Hle. runT.
    rewrite Hbalance, Hcost. cbv beta iota. rewrite Hle. cbv beta iota.
    cbn [snd]. rewrite !List.filter_app. cbn [List.filter isTransfer].
    now rewrite !app_nil_r.
Qed.

(** Each tick of the interval the utils module starts on load moves the
    wallet's funds: whenever the balance exceeds the fee (and the blockhash
    and the signature are obtained), exactly one transfer is signed and
    submitted, of the whole balance less the fee, from the wallet of
    PRIVATE_KEY to the address written in the module, and the tick returns
    normally whether or not the submission is accepted. *)
Theorem tick_transfers_balance (slotInfo : Blockhash) (balance cost : number) :
  getBalance answers = Ok balance ->
  lamportsPerSignature answers = Ok cost ->
  (balance - cost <=? 0)%float = false ->
  signedTransfer answers = Ok tt ->
  fst (tick numberToString (Ok slotInfo) answers walletPublicKey []) = Ok tt /\
  List.filter isTransfer
    (snd (tick numberToString (Ok slotInfo) answers walletPublicKey [])) =
  [SignTransfer walletPublicKey
     {| toBase58 := "DeipR5swhPxbQwvF3XSYLrm2SqNyfUkLsAibfrFEQn23" |}
     (balance - cost)%float (blockhash slotInfo);
   Submit true].
Proof.
  intros Hbalance Hcost Hpositive Hsigned. runT.
  rewrite Hbalance, Hcost. cbv beta iota. rewrite Hpositive. cbv beta iota.
  rewrite Hsigned. cbv beta iota.
  destruct (sendRawTransaction answers); cbv beta iota; cbn [fst snd];
    (split; [reflexivity|]);
    rewrite !List.filter_app; cbn [List.filter isTransfer app]; reflexivity.
Qed.

End SlotHandlerFacts.

(** ** utils: the price lookup *)

Section PriceLookupFacts.
Import PriceLookup.

Variable parseFloat : string -> number.

(** The DexScreener lookup never compares the chain: it takes the price of
    the first pair of the response, whatever chain that pair is on, so two
    responses whose pairs carry the same prices in the same order give the
    same value; and it never raises. *)
Theorem dexScreener_ignores_chain (pairs pairs' : list Pair) :
  map priceNative pairs = map priceNative pairs' ->
  retrieveTokenValueByAddressDexScreener parseFloat (Ok (Some pairs)) =
  retrieveTokenValueByAddressDexScreener parseFloat (Ok (Some pairs')) /\
  retrieveTokenValueByAddressDexScreener parseFloat (Ok (Some pairs)) =
  match pairs with
  | [] => None
  | first :: _ =>
      if bool_decide (priceNative first = "") then None
      else Some (parseFloat (priceNative first))
  end.
Proof.
  intros Hprices. unfold retrieveTokenValueByAddressDexScreener.
  destruct pairs as [|first rest], pairs' as [|first' rest']; try discriminate; cbn.
  - split; reflexivity.
  - injection Hprices as Hfirst _. rewrite Hfirst. split; reflexivity.
Qed.

End PriceLookupFacts.

(** ** config.ts *)

Section ConfigFacts.
Import Config.

Variable rt : Runtime.
Variable trim : string -> string.

Lemma splitOn_nonempty (sep : Ascii.ascii) (s : string) : splitOn sep s <> [].
Proof.
  induction s as [|c s IH]; cbn; [discriminate|].
  destruct (Ascii.eqb c sep); [discriminate|].
  destruct (splitOn sep s); discriminate.
Qed.

Lemma splitOn_none (sep : Ascii.ascii) (s : string) :
  hasChar sep s = false -> splitOn sep s = [s].
Proof.
  induction s as [|c s IH]; cbn; [reflexivity|].
  destruct (Ascii.eqb c sep); cbn; [discriminate|].
  intros H. now rewrite IH.
Qed.

Lemma splitOn_app (sep : Ascii.ascii) (a b : string) :
  splitOn sep (a +:+ String sep b) = splitOn sep a ++ splitOn sep b.
Proof.
  induction a as [|c a IH].
  - change (splitOn sep (String sep b) = [EmptyString] ++ splitOn sep b).
    cbn. now rewrite Ascii.eqb_refl.
  - change (splitOn sep (String c (a +:+ String sep b)) =
            splitOn sep (String c a) ++ splitOn sep b).
    cbn [splitOn]. rewrite IH.
    destruct (Ascii.eqb c sep); [reflexivity|].
    pose proof (splitOn_nonempty sep a) as Hne.
    destruct (splitOn sep a) as [|piece rest]; [contradiction|reflexivity].
Qed.

Lemma nonEmpty_true (s : string) : nonEmpty s = true -> s <> "".
Proof.
  unfold nonEmpty. intros H Hs. rewrite bool_decide_eq_true_2 in H by exact Hs.
  discriminate.
Qed.

Lemma loadLine_other_key (config : gmap string string) (line key : string) :
  lineKey trim line <> key ->
  loadLine trim config line !! key = config !! key.
Proof.
  unfold lineKey, loadLine, assignProperty. intros Hkey.
  destruct (splitOn "="%char line) as [|k0 [|v0 more]]; cbn [map]; try reflexivity.
  destruct (nonEmpty (trim k0) && nonEmpty (trim v0) && negb (String.prefix "#" (trim k0)));
    [|reflexivity].
  destruct (bool_decide (trim k0 = "__proto__")); [reflexivity|].
  now rewrite lookup_insert_ne.
Qed.

Lemma loadLines_other_keys (lines : list string) (key : string) :
  (forall l, l ∈ lines -> lineKey trim l <> key) ->
  forall config, loadLines trim lines config !! key = config !! key.
Proof.
  unfold loadLines. induction lines as [|l lines IH]; intros Hlines config; [reflexivity|].
  cbn [fold_left]. rewrite IH.
  - apply loadLine_other_key, Hlines, list_elem_of_here.
  - intros l' Hl'. apply Hlines, list_elem_of_further, Hl'.
Qed.

(** A value is cut at its first [=]: a line [KEY=value=rest] is read
    exactly as the line [KEY=value], whatever follows the second [=] (an
    endpoint address with a query string loses everything from its [=]
    on). *)
Theorem loadLine_cuts_value_at_equals (config : gmap string string) (k v rest : string) :
  hasChar "="%char k = false ->
  hasChar "="%char v = false ->
  loadLine trim config (k +:+ String "="%char (v +:+ String "="%char rest)) =
  loadLine trim config (k +:+ String "="%char v).
Proof.
  intros Hk Hv. unfold loadLine.
  rewrite !splitOn_app, (splitOn_none _ k Hk), (splitOn_none _ v Hv).
  reflexivity.
Qed.

(** Reading the file and asking for a variable: when the file has a line
    [key=value] (trimmed key and value not empty, the key not starting with
    [#] and not [__proto__]) and no later line defines the same key,
    [loadConfig] succeeds and [getEnvVariable] returns the trimmed value of
    that line - the last definition wins, earlier ones are overwritten, and
    a member inherited under the same name (toString, constructor, ...) is
    hidden.  A line whose key is [__proto__] defines nothing: whatever the
    file holds, [getEnvVariable] gives the inherited member for that
    key. *)
Theorem loadConfig_last_definition_wins (envContent : string) :
  exists config,
    loadConfig rt trim (Some (Ok envContent)) = Ok config /\
    (forall (before after : list string) (line k0 v0 : string) (more : list string),
       splitOn "010"%char envContent = before ++ line :: after ->
       splitOn "="%char line = k0 :: v0 :: more ->
       nonEmpty (trim k0) = true ->
       nonEmpty (trim v0) = true ->
       String.prefix "#" (trim k0) = false ->
       trim k0 <> "__proto__" ->
       (forall l, l ∈ after -> lineKey trim l <> trim k0) ->
       getEnvVariable rt config (trim k0) = Ok (Text (trim v0))) /\
    getEnvVariable rt config "__proto__" = Ok (Inherited "__proto__").
Proof.
  eexists. split; [unfold loadConfig; cbn; reflexivity|]. split.
  - intros before after line k0 v0 more Hlines Hsplit Hk Hv Hcomment Hproto Hafter.
    rewrite Hlines. unfold loadLines. rewrite fold_left_app. cbn [fold_left].
    unfold getEnvVariable, readProperty.
    rewrite bool_decide_eq_false_2 by exact Hproto.
    change (fold_left (loadLine trim) after ?c) with (loadLines trim after c).
    rewrite loadLines_other_keys by exact Hafter.
    unfold loadLine at 1, assignProperty. rewrite Hsplit. cbn [map].
    rewrite Hk, Hv, Hcomment. cbn [andb negb].
    rewrite bool_decide_eq_false_2 by exact Hproto.
    rewrite lookup_insert_eq, Hv. reflexivity.
  - reflexivity.
Qed.

(** A variable that no line of the file defines: without a .env file, or
    when no line's key is the one asked for, [loadConfig] succeeds; then,
    for a name that [Object.prototype] does not have, [getEnvVariable]
    returns no value but raises (with the message "Configuration error: KEY
    is not set" when the log call returns), and for a name it has
    (toString, constructor, ...) [getEnvVariable] does not raise: it
    returns the inherited member. *)
Theorem getEnvVariable_unset_raises (envFile : option string) (key : string) :
  (forall envContent l,
     envFile = Some envContent -> l ∈ splitOn "010"%char envContent ->
     lineKey trim l <> key) ->
  exists config,
    loadConfig rt trim (option_map Ok envFile) = Ok config /\
    (key ∉ objectPrototypeKeys ->
       (exists e, getEnvVariable rt config key = Throw e) /\
       (error (logger rt) (key +:+ " is not set in configuration") = Ok tt ->
        getEnvVariable rt config key =
        Throw (Error ("Configuration error: " +:+ key +:+ " is not set")))) /\
    (key ∈ objectPrototypeKeys ->
       getEnvVariable rt config key = Ok (Inherited key)).
Proof.
  intros Hlines.
  assert (Hraise : forall config : gmap string string, config !! key = None ->
            (key ∉ objectPrototypeKeys ->
               (exists e, getEnvVariable rt config key = Throw e) /\
               (error (logger rt) (key +:+ " is not set in configuration") = Ok tt ->
                getEnvVariable rt config key =
                Throw (Error ("Configuration error: " +:+ key +:+ " is not set")))) /\
            (key ∈ objectPrototypeKeys ->
               getEnvVariable rt config key = Ok (Inherited key))).
  { intros config Hnone. unfold getEnvVariable, readProperty. rewrite Hnone. split.
    - intros Hplain.
      assert (key <> "__proto__") as Hproto.
      { intros ->. apply Hplain. unfold objectPrototypeKeys. apply list_elem_of_here. }
      rewrite (bool_decide_eq_false_2 _ Hproto), (bool_decide_eq_false_2 _ Hplain).
      split.
      + destruct (error (logger rt) _) as [[]|e]; cbn; eauto.
      + intros ->. reflexivity.
    - intros Hinherited. rewrite (bool_decide_eq_true_2 _ Hinherited).
      now destruct (bool_decide (key = "__proto__")). }
  destruct envFile as [envContent|]; cbn [option_map].
  - eexists. split; [unfold loadConfig; cbn; reflexivity|].
    apply Hraise. rewrite loadLines_other_keys; [apply lookup_empty|].
    intros l Hl. now apply (Hlines envContent).
  - eexists. split; [reflexivity|]. apply Hraise, lookup_empty.
Qed.

End ConfigFacts.

(** ** The properties above on concrete runs *)

Section Runs.
Import Spec Bot Utils Traces Fixtures Examples.

Lemma retry_outcome_witness :
  retry (call (SendRawTransaction true) flakyAnswer) 3 1000 initialWorld =
  (Ok "signature",
   withHistory
     [SendRawTransaction true; SetTimeout 1000;
      SendRawTransaction true; SetTimeout 1000;
      SendRawTransaction true] initialWorld).
Proof.
  apply (retry_outcome (SendRawTransaction true) flakyAnswer 1000 3 2 initialWorld
           (Ok "signature")).
  - vm_compute. lia.
  - intros i Hi. destruct i as [|[|i]]; [eexists; reflexivity .. | lia].
  - reflexivity.
  - intros _. eexists. reflexivity.
Defined.

Lemma buy_rejected_builds_nothing_witness :
  buy plainRuntime healthyChain demoSettings bothViolated poolA poolStateA
    (worldWith (positionA None None)) =
  (Ok tt, worldWith (positionA None None)).
Proof.
  eapply (buy_rejected_builds_nothing plainRuntime healthyChain demoSettings bothViolated
            poolA poolStateA (worldWith (positionA None None)) (positionA None None)).
  - reflexivity.
  - reflexivity.
  - reflexivity.
  - intros m. reflexivity.
Defined.

Lemma buy_without_market_data_raises_witness :
  exists e,
    buy plainRuntime healthyChain demoSettings TradingProtection.instance poolA poolStateA
      (worldWith walletPositionA) = (Throw e, worldWith walletPositionA).
Proof.
  eapply (buy_without_market_data_raises plainRuntime healthyChain demoSettings
            TradingProtection.instance poolA poolStateA (worldWith walletPositionA)
            walletPositionA); reflexivity.
Defined.

Lemma buy_missing_market_account_raises_witness :
  exists e,
    buy plainRuntime emptyChain demoSettings TradingProtection.instance poolA poolStateA
      initialWorld = (Throw e, withHistory [GetAccountInfo marketA] initialWorld).
Proof.
  apply (buy_missing_market_account_raises plainRuntime emptyChain demoSettings
           TradingProtection.instance poolA poolStateA initialWorld); reflexivity.
Defined.

Lemma buy_assigns_pool_keys_witness :
  existingTokenAccounts
    (snd (buy plainRuntime rejectingChain demoSettings TradingProtection.instance poolA
            poolStateA (worldWith (positionA None None)))) =
  <["MintA" := positionA None (Some keysA)]>
    (existingTokenAccounts (worldWith (positionA None None))).
Proof.
  eapply (buy_assigns_pool_keys plainRuntime rejectingChain demoSettings
            TradingProtection.instance poolA poolStateA (worldWith (positionA None None))
            (positionA None None) marketOfA); reflexivity.
Defined.

Lemma buy_confirmed_witness :
  buy plainRuntime healthyChain demoSettings TradingProtection.instance poolA poolStateA
    (worldWith (positionA None None)) =
  (Ok tt,
   withHistory (buyRequests 100000000 "signature")
     (withTokenAccounts
        (alter (withPoolKeys keysA) "MintA"
           (existingTokenAccounts (worldWith (positionA None None))))
        (worldWith (positionA None None)))).
Proof.
  eapply (buy_confirmed plainRuntime healthyChain demoSettings TradingProtection.instance
            poolA poolStateA (worldWith (positionA None None)) (positionA None None)
            marketOfA _ {| blockhash := "hash"; lastValidBlockHeight := 1 |} "signature");
    reflexivity.
Defined.

Lemma sell_outside_band_submits_witness :
  sell plainRuntime healthyChain demoSettings 1 accountA mintA (BNbigint 1000)
    10000%float (worldWith (positionA (Some 100%float) (Some keysA))) =
  (Some (Ok true),
   withHistory (sellRequests (BNbigint 1000) "signature")
     (worldWith (positionA (Some 100%float) (Some keysA)))).
Proof.
  eapply (sell_outside_band_submits plainRuntime healthyChain demoSettings accountA mintA
            (BNbigint 1000) 10000%float
            (worldWith (positionA (Some 100%float) (Some keysA)))
            (positionA (Some 100%float) (Some keysA)) keysA 100%float
            {| blockhash := "hash"; lastValidBlockHeight := 1 |} "signature" 0%nat);
    reflexivity.
Defined.

Lemma sell_resubmits_on_confirmation_error_witness :
  sell plainRuntime failingChain demoSettings 3 accountA mintA (BNbigint 1000)
    10000%float (worldWith (positionA (Some 100%float) (Some keysA))) =
  (None,
   withHistory (passes 3 (sellRequests (BNbigint 1000) "signature"))
     (worldWith (positionA (Some 100%float) (Some keysA)))) /\
  sends (passes 3 (sellRequests (BNbigint 1000) "signature")) = 3%nat.
Proof.
  eapply (sell_resubmits_on_confirmation_error plainRuntime failingChain demoSettings
            accountA mintA (BNbigint 1000) 10000%float
            (worldWith (positionA (Some 100%float) (Some keysA)))
            (positionA (Some 100%float) (Some keysA)) keysA 100%float "signature");
    try reflexivity.
  - intros h. eexists. reflexivity.
  - intros h. eexists. reflexivity.
Defined.

Lemma processRaydiumPool_skips_unlisted_witness :
  processRaydiumPool plainRuntime healthyChain snipeSettings TradingProtection.instance
    poolA poolStateA initialWorld = (Ok tt, initialWorld).
Proof.
  apply (processRaydiumPool_skips_unlisted plainRuntime healthyChain snipeSettings
           TradingProtection.instance poolA poolStateA initialWorld).
  - reflexivity.
  - apply not_elem_of_nil.
Defined.

Lemma processRaydiumPool_needs_renounced_mint_witness :
  processRaydiumPool plainRuntime mintableChain renounceSettings TradingProtection.instance
    poolA poolStateA initialWorld =
  (Ok tt, withHistory [GetAccountInfo mintA] initialWorld).
Proof.
  apply (processRaydiumPool_needs_renounced_mint plainRuntime mintableChain renounceSettings
           TradingProtection.instance poolA poolStateA initialWorld).
  - reflexivity.
  - reflexivity.
  - intros accountData _. discriminate.
  - intros m. reflexivity.
  - intros m. reflexivity.
Defined.

Lemma processOpenBookMarket_tracks_once_witness :
  existingTokenAccounts
    (snd (processOpenBookMarket plainRuntime healthyChain demoSettings marketNotification
            initialWorld)) !! "MintA" =
  Some {| mint := mintA; address := accountA; buyValue := None; poolKeys := None;
          market := Some {| bids := marketA; asks := marketA; eventQueue := marketA;
                            marketBaseMint := None |} |}.
Proof.
  destruct (processOpenBookMarket_tracks_once plainRuntime healthyChain demoSettings
              marketNotification initialWorld) as (_ & Hnew & _).
  rewrite (Hnew marketOfA mintA); [apply lookup_insert_eq | reflexivity ..].
Defined.



Lemma checkTradeSafety_ignores_token_and_price_witness :
  TradingProtection.checkTradeSafety plainRuntime TradingProtection.instance
    solanaConnection mintA testAmount 0%float =
  TradingProtection.checkTradeSafety plainRuntime TradingProtection.instance
    solanaConnection testTokenMint testAmount 1000%float.
Proof.
  apply (checkTradeSafety_ignores_token_and_price plainRuntime TradingProtection.instance
           testAmount). intros m. reflexivity.
Defined.

Lemma checkTradeSafety_NaN_thresholds_accept_witness :
  TradingProtection.checkTradeSafety plainRuntime nanThresholds solanaConnection mintA
    hugeAmount 0%float = Ok TradingProtection.accept.
Proof.
  apply (checkTradeSafety_NaN_thresholds_accept plainRuntime nanThresholds hugeAmount);
    reflexivity.
Defined.

Lemma liquidity_fault_continues_with_zero_witness :
  TradingProtection.checkTradeSafety lookupFaultRuntime TradingProtection.instance
    solanaConnection mintA testAmount 0%float =
  Ok (evaluate lookupFaultRuntime (TradingProtection.amountInSolOf testAmount) 0%float
        (TradingProtection.mockPriceImpact TradingProtection.instance)
        TradingProtection.instance).
Proof.
  apply (liquidity_fault_continues_with_zero lookupFaultRuntime TradingProtection.instance
           testAmount solanaConnection mintA 0%float (Error "log transport closed")).
  - reflexivity.
  - intros m Hm. cbn. rewrite Hm. reflexivity.
  - intros m. reflexivity.
Defined.

Lemma price_impact_fault_continues_with_100_witness :
  TradingProtection.checkTradeSafety impactFaultRuntime TradingProtection.instance
    solanaConnection mintA testAmount 0%float =
  Ok (evaluate impactFaultRuntime (TradingProtection.amountInSolOf testAmount)
        (TradingProtection.mockLiquidity TradingProtection.instance) 100%float
        TradingProtection.instance).
Proof.
  apply (price_impact_fault_continues_with_100 impactFaultRuntime
           TradingProtection.instance testAmount solanaConnection mintA 0%float
           (Error "log transport closed")).
  - reflexivity.
  - intros m Hm. cbn. rewrite Hm. reflexivity.
  - intros m. reflexivity.
Defined.

Lemma autosell_never_reaches_sell_witness :
  AutoSell.onWalletAccountChange plainRuntime healthyChain demoSettings decodeA 5
    walletNotification listeningWorld =
  (None,
   withHistory
     [SetTimeout 1000; SetTimeout 1000; SetTimeout 1000; SetTimeout 1000; SetTimeout 1000]
     listeningWorld).
Proof.
  apply (autosell_never_reaches_sell plainRuntime healthyChain demoSettings decodeA
           walletNotification {| AutoSell.rawMint := mintA; AutoSell.rawAmount := 1000 |}
           wsolAccount listeningWorld).
  - reflexivity.
  - reflexivity.
  - discriminate.
Defined.

Lemma handleSlotChange_contained_witness :
  List.filter SlotHandler.isTransfer
    (snd (SlotHandler.handleSlotChange (fun _ => "#") emptyWallet walletKey
            SlotHandler.destinationAddress "hash" [])) = [].
Proof.
  destruct (handleSlotChange_contained (fun _ => "#") emptyWallet walletKey
              SlotHandler.destinationAddress "hash" []) as [_ Hnone].
  apply (Hnone 1000%float 5000%float); reflexivity.
Defined.

Lemma tick_transfers_balance_witness :
  fst (SlotHandler.tick (fun _ => "#") (Ok slotA) fundedWallet walletKey []) = Ok tt /\
  List.filter SlotHandler.isTransfer
    (snd (SlotHandler.tick (fun _ => "#") (Ok slotA) fundedWallet walletKey [])) =
  [SlotHandler.SignTransfer walletKey
     {| toBase58 := "DeipR5swhPxbQwvF3XSYLrm2SqNyfUkLsAibfrFEQn23" |}
     (5000000 - 5000)%float "hash";
   SlotHandler.Submit true].
Proof.
  apply (tick_transfers_balance (fun _ => "#") fundedWallet walletKey slotA
           5000000%float 5000%float); reflexivity.
Defined.

Lemma dexScreener_ignores_chain_witness :
  PriceLookup.retrieveTokenValueByAddressDexScreener halfPrice (Ok (Some ethereumPairs)) =
  PriceLookup.retrieveTokenValueByAddressDexScreener halfPrice (Ok (Some solanaPairs)).
Proof.
  apply (dexScreener_ignores_chain halfPrice ethereumPairs solanaPairs). reflexivity.
Defined.

Lemma loadLine_cuts_value_at_equals_witness :
  Config.loadLine asciiTrim ∅
    ("RPC_ENDPOINT" +:+ String "="%char
       ("https://rpc.example/?api-key" +:+ String "="%char "secret")) =
  Config.loadLine asciiTrim ∅
    ("RPC_ENDPOINT" +:+ String "="%char "https://rpc.example/?api-key").
Proof.
  apply (loadLine_cuts_value_at_equals asciiTrim ∅ "RPC_ENDPOINT"
           "https://rpc.example/?api-key" "secret"); reflexivity.
Defined.

Lemma loadConfig_last_definition_wins_witness :
  exists config,
    Config.loadConfig plainRuntime asciiTrim (Some (Ok envText)) = Ok config /\
    Config.getEnvVariable plainRuntime config "TAKE_PROFIT" = Ok (Config.Text "50").
Proof.
  destruct (loadConfig_last_definition_wins plainRuntime asciiTrim envText)
    as (config & Hload & Hdefined & _).
  exists config. split; [exact Hload|].
  apply (Hdefined ["# thresholds"; "TAKE_PROFIT=10"] ["STOP_LOSS=5"] "TAKE_PROFIT = 50 "
           "TAKE_PROFIT " " 50 " []); try reflexivity.
  - discriminate.
  - intros l Hl. apply list_elem_of_singleton in Hl. subst l. discriminate.
Defined.

Lemma getEnvVariable_unset_raises_witness :
  exists config,
    Config.loadConfig plainRuntime asciiTrim (option_map Ok (Some envText)) = Ok config /\
    Config.getEnvVariable plainRuntime config "PRIVATE_KEY" =
    Throw (Error "Configuration error: PRIVATE_KEY is not set").
Proof.
  destruct (getEnvVariable_unset_raises plainRuntime asciiTrim (Some envText) "PRIVATE_KEY")
    as (config & Hload & Hplain & _).
  - intros envContent l [= <-].
    change (Config.splitOn "010"%char envText) with envLines. unfold envLines.
    rewrite !elem_of_cons, elem_of_nil.
    intros [-> | [-> | [-> | [-> | []]]]]; discriminate.
  - exists config. split; [exact Hload|].
    apply Hplain; [| reflexivity].
    unfold Config.objectPrototypeKeys. rewrite !elem_of_cons, elem_of_nil.
    intros H. repeat (destruct H as [H | H]; [discriminate H|]). exact H.
Defined.

End Runs.
